(** * Code-painting action: coverage/failure correlation and reporting

    A shallow embedding of [.github/actions/code-painting/index.js]:
    the path normaliser, the LCOV trace parser, the coverage summary
    reader, the per-line classification of the renderers, the HTML
    escaping and the pull-request comment synchroniser, followed by the
    properties the specification states about them.

    A JavaScript string is modelled as the [string] of the bytes of its
    UTF-8 encoding, which is how the action reads and writes every text;
    the string operations it uses (prefix tests, search, slicing past a
    prefix or at a position found by a search, concatenation, splitting and
    replacing at ASCII characters, trimming) act on the encoding as they do
    on the string.  Finite numbers are modelled as rationals
    [Q] (every finite double is a rational and [<], [>=], [===] on finite
    doubles agree with the rational order), and a [Map] as an association
    list in insertion order. *)

From Stdlib Require Import ZArith QArith Qround List String Ascii Bool Lia FunInd.
Import ListNotations.
Close Scope Q_scope.
Set Warnings "-register-all".
Local Open Scope string_scope.

(** ** String primitives of the JavaScript runtime *)

Module Str.

Definition slash : ascii := "/"%char.
Definition backslash : ascii := "\"%char.
Definition comma : ascii := ","%char.
Definition LF : ascii := "010"%char.
Definition CR : ascii := "013"%char.

(** [s.replace(/c/g, r)] for a one-character pattern [c] and a replacement
    [r] without [$] patterns. *)
Fixpoint replaceAll (c : ascii) (r : string) (s : string) : string :=
  match s with
  | EmptyString => EmptyString
  | String a t =>
      if Ascii.eqb a c then r ++ replaceAll c r t
      else String a (replaceAll c r t)
  end.

(** [s.startsWith(p)]. *)
Definition startsWith (p s : string) : bool := String.prefix p s.

(** [s.slice(n)] for [0 <= n]; past the end it is the empty string. *)
Fixpoint slice (n : nat) (s : string) : string :=
  match n, s with
  | O, _ => s
  | S k, String _ t => slice k t
  | S _, EmptyString => EmptyString
  end.

(** [s.lastIndexOf(needle)]: the largest index at which [needle] occurs;
    [None] stands for JavaScript's [-1]. *)
Fixpoint lastIndexOf (needle s : string) : option nat :=
  match s with
  | EmptyString => if String.prefix needle EmptyString then Some O else None
  | String _ t =>
      match lastIndexOf needle t with
      | Some i => Some (S i)
      | None => if String.prefix needle s then Some O else None
      end
  end.

(** The same as a JavaScript number: the index, or [-1]. *)
Definition lastIndexOfZ (needle s : string) : Z :=
  match lastIndexOf needle s with
  | Some i => Z.of_nat i
  | None => (-1)%Z
  end.

(** [s.includes(needle)]. *)
Fixpoint includes (needle s : string) : bool :=
  String.prefix needle s ||
  match s with
  | EmptyString => false
  | String _ t => includes needle t
  end.

(** [s.replace(/\/+$/, '')]: the run of slashes that ends the string is
    removed. *)
Fixpoint stripTrailingSlashes (s : string) : string :=
  match s with
  | EmptyString => EmptyString
  | String a t =>
      let t' := stripTrailingSlashes t in
      if Ascii.eqb a slash && String.eqb t' EmptyString then EmptyString
      else String a t'
  end.

(** What follows the last slash of [s]; [s] itself when it has none. *)
Fixpoint afterLastSlash (s : string) : string :=
  match s with
  | EmptyString => EmptyString
  | String a t =>
      if includes "/" t then afterLastSlash t
      else if Ascii.eqb a slash then t
      else s
  end.

(** Node's [path.posix.basename(p)] (no suffix argument): trailing
    separators are skipped, then the characters back to the previous
    separator are returned; a path made of separators only gives the empty
    string. *)
Definition basename (p : string) : string :=
  afterLastSlash (stripTrailingSlashes p).

(** [s.split(c)] for a one-character separator: never empty. *)
Fixpoint split (c : ascii) (s : string) : list string :=
  match s with
  | EmptyString => [EmptyString]
  | String a t =>
      match split c t with
      | h :: r => if Ascii.eqb a c then EmptyString :: h :: r else String a h :: r
      | [] => [EmptyString]
      end
  end.

(** White space removed by [trim]: the WhiteSpace and LineTerminator
    classes of ECMAScript, read on the UTF-8 encoding.  The characters of
    one byte are U+0009 to U+000D and U+0020. *)
Definition isSpace (a : ascii) : bool :=
  let n := nat_of_ascii a in
  (Nat.eqb n 32) || ((Nat.leb 9 n) && (Nat.leb n 13)).

(** The one of two bytes is U+00A0 (C2 A0). *)
Definition isSpace2 (a b : ascii) : bool :=
  Nat.eqb (nat_of_ascii a) 194 && Nat.eqb (nat_of_ascii b) 160.

(** Those of three bytes are U+1680 (E1 9A 80), U+2000 to U+200A
    (E2 80 80 to E2 80 8A), U+2028 and U+2029 (E2 80 A8, E2 80 A9), U+202F
    (E2 80 AF), U+205F (E2 81 9F), U+3000 (E3 80 80) and U+FEFF
    (EF BB BF). *)
Definition isSpace3 (a b c : ascii) : bool :=
  let x := nat_of_ascii a in
  let y := nat_of_ascii b in
  let z := nat_of_ascii c in
  Nat.eqb x 225 && Nat.eqb y 154 && Nat.eqb z 128
  || Nat.eqb x 226 && Nat.eqb y 128
     && (Nat.leb 128 z && Nat.leb z 138 || Nat.eqb z 168 || Nat.eqb z 169
         || Nat.eqb z 175)
  || Nat.eqb x 226 && Nat.eqb y 129 && Nat.eqb z 159
  || Nat.eqb x 227 && Nat.eqb y 128 && Nat.eqb z 128
  || Nat.eqb x 239 && Nat.eqb y 187 && Nat.eqb z 191.

(** [s.trimStart()]: the white-space characters that begin [s] are
    removed, whatever their width. *)
Fixpoint trimStart (s : string) : string :=
  match s with
  | EmptyString => EmptyString
  | String a t =>
      if isSpace a then trimStart t
      else
        match t with
        | String b u =>
            if isSpace2 a b then trimStart u
            else
              match u with
              | String c v => if isSpace3 a b c then trimStart v else s
              | EmptyString => s
              end
        | EmptyString => s
        end
  end.

(** [s] is made of white space only. *)
Definition isBlank (s : string) : bool := String.eqb (trimStart s) EmptyString.

(** [s.trimEnd()]: what is kept ends where the rest of [s] is white space
    only (no white-space character begins with a continuation byte, so
    that the rest is tested at the first byte of a character). *)
Fixpoint trimEnd (s : string) : string :=
  match s with
  | EmptyString => EmptyString
  | String a t =>
      if isBlank (String a t) then EmptyString else String a (trimEnd t)
  end.

(** [s.trim()]. *)
Definition trim (s : string) : string := trimEnd (trimStart s).

(** Number of occurrences of the character [c] in [s]. *)
Fixpoint count (c : ascii) (s : string) : nat :=
  match s with
  | EmptyString => O
  | String a t => (if Ascii.eqb a c then 1 else 0) + count c t
  end.

Definition all_slashes (s : string) : Prop := count slash s = String.length s.

End Str.

(** ** Path normaliser ([normalizeToRepoRel]) *)

(** [repoRoot.replace(/\\/g, '/')] and the same on the candidate path. *)
Definition sepNormalize (p : string) : string :=
  Str.replaceAll Str.backslash "/" p.

(** [rootNorm]: the root with forward slashes and no trailing slash. *)
Definition rootNorm (repoRoot : string) : string :=
  Str.stripTrailingSlashes (sepNormalize repoRoot).

(** [!filePath] on a value that is [null]/[undefined] ([None]) or a
    string. *)
Definition falsyPath (filePath : option string) : bool :=
  match filePath with
  | None => true
  | Some s => String.eqb s EmptyString
  end.

Definition normalizeToRepoRel (repoRoot : string) (filePath : option string)
  : option string :=
  match filePath with
  | None => None
  | Some fp =>
      if String.eqb fp EmptyString then None
      else
        let norm := sepNormalize fp in
        let rootN := rootNorm repoRoot in
        if Str.startsWith (rootN ++ "/") norm
        then Some (Str.slice (String.length rootN + 1) norm)
        else
          let srcIdx := Str.lastIndexOfZ "/src/" norm in
          if (0 <=? srcIdx)%Z
          then Some (Str.slice (Z.to_nat (srcIdx + 1)) norm)
          else
            let testsIdx := Str.lastIndexOfZ "/tests/" norm in
            if (0 <=? testsIdx)%Z
            then Some (Str.slice (Z.to_nat (testsIdx + 1)) norm)
            else Some (Str.basename norm)
  end.

(** ** Numbers and values of the JavaScript runtime *)

(** A JavaScript number: not-a-number, an infinity, or a finite value. *)
Inductive JsNumber : Type :=
  | NaN
  | Infinity (negative : bool)
  | Finite (q : Q).

(** [Number.isFinite(n)] on a number. *)
Definition isFinite (n : JsNumber) : bool :=
  match n with
  | Finite _ => true
  | _ => false
  end.

(** [a >= b] on numbers: false as soon as one side is [NaN]. *)
Definition jsGe (a b : JsNumber) : bool :=
  match a, b with
  | NaN, _ | _, NaN => false
  | Finite x, Finite y => Qle_bool y x
  | Infinity false, _ => true
  | _, Infinity true => true
  | Infinity true, _ => false
  | Finite _, Infinity false => false
  end.

(** A value read from a parsed JSON document, or [undefined] where a
    property is absent.  [VObj] lists the own properties of a plain
    object, each key once. *)
Inductive JsVal : Type :=
  | VUndefined
  | VNull
  | VBool (b : bool)
  | VNum (n : JsNumber)
  | VStr (s : string)
  | VObj (fields : list (string * JsVal))
  | VArr (items : list JsVal).

(** Conversions that the language runtime provides and the action only
    calls: they are an interface of the development, so every result holds
    for the real conversions. *)
Class JsRuntime : Type := {
  (** [Number(s)] on a string (ECMAScript StringToNumber). *)
  StringToNumber : string -> JsNumber;
  (** [String(a)] on an array (its elements joined by commas); [None] is
      the TypeError of an element that cannot be converted. *)
  ArrayToString : list JsVal -> option string;
  (** [String(n)] on a number, as a template literal inserts it. *)
  NumberToString : JsNumber -> string;
  (** [n.toFixed(2)] on a finite number. *)
  toFixed2 : Q -> string
}.

(** Own-property lookup. *)
Fixpoint lookupField (k : string) (fields : list (string * JsVal)) : option JsVal :=
  match fields with
  | [] => None
  | (k', v) :: r => if String.eqb k k' then Some v else lookupField k r
  end.

(** [v.k] for the property names the action reads ([total], [lines],
    [branches], [functions], [statements], [pct], [covered]), none of which
    lives on a prototype: [None] is the TypeError raised on [null] and
    [undefined]; a primitive or an array has no such property. *)
Definition getProp (v : JsVal) (k : string) : option JsVal :=
  match v with
  | VUndefined | VNull => None
  | VObj fields =>
      match lookupField k fields with
      | Some x => Some x
      | None => Some VUndefined
      end
  | _ => Some VUndefined
  end.

(** Truthiness, as [||], [&&], [!] and [if] test it. *)
Definition truthy (v : JsVal) : bool :=
  match v with
  | VUndefined | VNull => false
  | VBool b => b
  | VNum NaN => false
  | VNum (Finite q) => negb (Qeq_bool q 0)
  | VNum (Infinity _) => true
  | VStr s => negb (String.eqb s EmptyString)
  | VObj _ | VArr _ => true
  end.

(** [a || b]. *)
Definition jsOr (a b : JsVal) : JsVal := if truthy a then a else b.

(** [a ?? b]. *)
Definition nullish (a b : JsVal) : JsVal :=
  match a with
  | VUndefined | VNull => b
  | _ => a
  end.

(** A plain object whose own key [toString] shadows the inherited method
    cannot be converted to a primitive: the conversion raises a
    TypeError. *)
Definition shadowsToString (fields : list (string * JsVal)) : bool :=
  match lookupField "toString" fields with
  | Some _ => true
  | None => false
  end.

Section Runtime.

Context {RT : JsRuntime}.

(** [Number(v)]; [None] is the TypeError of an object that cannot be
    converted. *)
Definition Number (v : JsVal) : option JsNumber :=
  match v with
  | VUndefined => Some NaN
  | VNull => Some (Finite 0)
  | VBool b => Some (Finite (if b then 1 else 0))
  | VNum n => Some n
  | VStr s => Some (StringToNumber s)
  | VObj fields => if shadowsToString fields then None else Some NaN
  | VArr items => option_map StringToNumber (ArrayToString items)
  end.

(** [String(v)], as a template literal inserts a value. *)
Definition ToString (v : JsVal) : option string :=
  match v with
  | VUndefined => Some "undefined"
  | VNull => Some "null"
  | VBool b => Some (if b then "true" else "false")
  | VNum n => Some (NumberToString n)
  | VStr s => Some s
  | VObj fields => if shadowsToString fields then None else Some "[object Object]"
  | VArr items => ArrayToString items
  end.

(** [asNumber(v, def)]. *)
Definition asNumber (v : JsVal) (def : JsNumber) : option JsNumber :=
  match Number v with
  | Some n => Some (if isFinite n then n else def)
  | None => None
  end.

(** [pctStr(n)]. *)
Definition pctStr (n : JsNumber) : string :=
  match n with
  | Finite q => toFixed2 q
  | _ => "0.00"
  end.

End Runtime.

(** ** Maps and sets in insertion order *)

Module JsMap.
Section Ops.

Context {K V : Type} (keq : K -> K -> bool).

(** [m.get(k)]; [None] is [undefined]. *)
Fixpoint get (k : K) (m : list (K * V)) : option V :=
  match m with
  | [] => None
  | (k', v) :: r => if keq k k' then Some v else get k r
  end.

(** [m.has(k)]. *)
Definition has (k : K) (m : list (K * V)) : bool :=
  match get k m with
  | Some _ => true
  | None => false
  end.

(** [m.set(k, v)]: an existing key keeps its place, a new one goes last. *)
Fixpoint set (k : K) (v : V) (m : list (K * V)) : list (K * V) :=
  match m with
  | [] => [(k, v)]
  | (k', v') :: r => if keq k k' then (k', v) :: r else (k', v') :: set k v r
  end.

(** The value stored under [k] is replaced by [f] of it: a mutation of
    the object stored there, made through any reference to it. *)
Fixpoint adjust (f : V -> V) (k : K) (m : list (K * V)) : list (K * V) :=
  match m with
  | [] => []
  | (k', v') :: r => if keq k k' then (k', f v') :: r else (k', v') :: adjust f k r
  end.

End Ops.
End JsMap.

(** Key equality of a [Map] (SameValueZero) on finite numbers and on
    [null]-or-string keys. *)
Definition numKeyEq (a b : Q) : bool := Qeq_bool a b.

Definition fileKeyEq (a b : option string) : bool :=
  match a, b with
  | None, None => true
  | Some x, Some y => String.eqb x y
  | _, _ => false
  end.

(** [Map(lineNo -> hits)] and [Map(relFile -> Map(lineNo -> hits))]. *)
Definition LineHits : Type := list (Q * Q).
Definition FileLineHits : Type := list (option string * LineHits).

(** ** LCOV trace parser ([parseLcov]) *)

(** [text.split(/\r?\n/)]: the pieces between line feeds, each piece before
    a line feed without the carriage return that ends it. *)
Fixpoint dropFinalCR (s : string) : string :=
  match s with
  | EmptyString => EmptyString
  | String a t =>
      if Ascii.eqb a Str.CR && String.eqb t EmptyString then EmptyString
      else String a (dropFinalCR t)
  end.

Fixpoint dropCRs (pieces : list string) : list string :=
  match pieces with
  | [] => []
  | [p] => [p]
  | p :: r => dropFinalCR p :: dropCRs r
  end.

Definition splitLines (text : string) : list string :=
  dropCRs (Str.split Str.LF text).

(** The loop variables of [parseLcov].  [currentLines] is a reference to
    the inner map stored in [fileLineHits] under some key: it is kept as
    that key, and a write through it is a write to the stored map. *)
Record LcovState : Type := mkLcovState {
  fileLineHits : FileLineHits;
  currentFile : option string;
  currentLines : option (option string)
}.

Definition lcovInit : LcovState := mkLcovState [] None None.

(** Truthiness of [currentFile] ([null] or a string). *)
Definition truthyFile (f : option string) : bool :=
  match f with
  | Some s => negb (String.eqb s EmptyString)
  | None => false
  end.

Section Lcov.

Context {RT : JsRuntime}.

(** [Number(x)] for a piece of a destructured split: [undefined] when the
    piece is missing. *)
Definition numberOfPiece (x : option string) : JsNumber :=
  match x with
  | Some s => StringToNumber s
  | None => NaN
  end.

(** [Number(lineStr)] and [Number(hitsStr)] of a [DA:] line, where
    [[lineStr, hitsStr] = raw.slice(3).split(',')]. *)
Definition daLineNo (raw : string) : JsNumber :=
  numberOfPiece (nth_error (Str.split Str.comma (Str.slice 3 raw)) 0).

Definition daHits (raw : string) : JsNumber :=
  numberOfPiece (nth_error (Str.split Str.comma (Str.slice 3 raw)) 1).

(** The pair [(lineNo, hits)] that a [DA:] line stores, when both numbers
    are finite. *)
Definition parseDA (raw : string) : option (Q * Q) :=
  match daLineNo raw, daHits raw with
  | Finite lineNo, Finite hits => Some (lineNo, hits)
  | _, _ => None
  end.

(** One iteration of the loop over the lines. *)
Definition lcovStep (repoRoot : string) (st : LcovState) (raw : string) : LcovState :=
  if Str.startsWith "SF:" raw then
    let sf := Str.trim (Str.slice 3 raw) in
    let rel := normalizeToRepoRel repoRoot (Some sf) in
    let files :=
      if JsMap.has fileKeyEq rel (fileLineHits st) then fileLineHits st
      else JsMap.set fileKeyEq rel [] (fileLineHits st) in
    mkLcovState files rel (Some rel)
  else
    match Str.startsWith "DA:" raw && truthyFile (currentFile st), currentLines st with
    | true, Some key =>
        match parseDA raw with
        | Some (lineNo, hits) =>
            mkLcovState
              (JsMap.adjust fileKeyEq (JsMap.set numKeyEq lineNo hits) key (fileLineHits st))
              (currentFile st) (currentLines st)
        | None => st
        end
    | _, _ =>
        if String.eqb raw "end_of_record"
        then mkLcovState (fileLineHits st) None None
        else st
    end.

Definition parseLcovLines (repoRoot : string) (lines : list string) : FileLineHits :=
  fileLineHits (fold_left (lcovStep repoRoot) lines lcovInit).

Definition parseLcov (lcovText repoRoot : string) : FileLineHits :=
  parseLcovLines repoRoot (splitLines lcovText).

End Lcov.

(** ** HTML escaping ([escapeHtml]) *)

(** The double quote. *)
Definition dq : string := String "034"%char EmptyString.

Definition escapeHtml (s : string) : string :=
  Str.replaceAll "'"%char "&#39;"
    (Str.replaceAll "034"%char "&quot;"
      (Str.replaceAll ">"%char "&gt;"
        (Str.replaceAll "<"%char "&lt;"
          (Str.replaceAll "&"%char "&amp;" s)))).

(** What [escapeHtml] makes of one character. *)
Definition escapeChar (a : ascii) : string :=
  if Ascii.eqb a "&"%char then "&amp;"
  else if Ascii.eqb a "<"%char then "&lt;"
  else if Ascii.eqb a ">"%char then "&gt;"
  else if Ascii.eqb a "034"%char then "&quot;"
  else if Ascii.eqb a "'"%char then "&#39;"
  else String a EmptyString.

(** ** Per-file records and the per-line classification *)

(** The record [main] builds for each file of the trace.  [lineHits] and
    [failingLines] are read through [?.] by the renderers: [None] is a
    missing ([null]/[undefined]) field. *)
Record FileRec : Type := mkFileRec {
  relPath : string;
  sourceLines : list string;
  lineHits : option LineHits;
  failingLines : option (list Q);
  fileCoveragePct : JsNumber
}.

(** [lineNo = i + 1]. *)
Definition lineNoOf (i : nat) : Q := inject_Z (Z.of_nat i + 1).

(** [f.lineHits?.get(lineNo) ?? 0]. *)
Definition hitsAt (f : FileRec) (lineNo : Q) : Q :=
  match lineHits f with
  | Some m =>
      match JsMap.get numKeyEq lineNo m with
      | Some h => h
      | None => 0%Q
      end
  | None => 0%Q
  end.

(** [hits > 0]. *)
Definition isCovered (f : FileRec) (lineNo : Q) : bool :=
  negb (Qle_bool (hitsAt f lineNo) 0).

(** [f.failingLines?.has(lineNo)], as a condition. *)
Definition inFailing (f : FileRec) (lineNo : Q) : bool :=
  match failingLines f with
  | Some s => existsb (numKeyEq lineNo) s
  | None => false
  end.

(** [isCovered && f.failingLines?.has(lineNo)], as a condition. *)
Definition isFail (f : FileRec) (lineNo : Q) : bool :=
  isCovered f lineNo && inFailing f lineNo.

(** [cls] of [buildHtmlReport]. *)
Definition lineClass (f : FileRec) (lineNo : Q) : string :=
  if isFail f lineNo then "covered-fail"
  else if isCovered f lineNo then "covered-pass"
  else "uncovered".

(** [indicator] of [buildHtmlCodePaintingSummary] and of
    [buildCodePaintingMarkdown]. *)
Definition lineIndicator (f : FileRec) (lineNo : Q) : string :=
  if isFail f lineNo then "⚠️"
  else if isCovered f lineNo then "✅"
  else "❌".

(** [bgColor] of [buildHtmlCodePaintingSummary]. *)
Definition lineBgColor (f : FileRec) (lineNo : Q) : string :=
  if isFail f lineNo then "rgba(243, 156, 18, 0.30)"
  else if isCovered f lineNo then "rgba(46, 204, 113, 0.25)"
  else "transparent".

(** [l.map((x, i) => f(x, i))]. *)
Fixpoint mapiFrom {A B : Type} (i : nat) (f : nat -> A -> B) (l : list A) : list B :=
  match l with
  | [] => []
  | x :: r => f i x :: mapiFrom (S i) f r
  end.

Definition mapi {A B : Type} (f : nat -> A -> B) (l : list A) : list B :=
  mapiFrom 0 f l.

(** ** The interactive report ([buildHtmlReport]) *)

Section Report.

Context {RT : JsRuntime}.

(** A finite number inserted by a template literal. *)
Definition numStr (q : Q) : string := NumberToString (Finite q).

Definition fileOption (idx : nat) (f : FileRec) : string :=
  "<option value=" ++ dq
  ++ escapeHtml (relPath f)
  ++ dq
  ++ (if Nat.eqb idx 0 then " selected" else "")
  ++ ">"
  ++ escapeHtml (relPath f)
  ++ (if isFinite (fileCoveragePct f) then " — " ++ pctStr (fileCoveragePct f) ++ "%" else "")
  ++ "</option>".

Definition reportRow (f : FileRec) (i : nat) (line : string) : string :=
  let lineNo := lineNoOf i in
  let hits := hitsAt f lineNo in
  let cls := lineClass f lineNo in
  let hitsBadge :=
    if isCovered f lineNo then "<span class=" ++ dq ++ "hits" ++ dq ++ ">hits:"
      ++ numStr hits
      ++ "</span>"
    else "" in
  Str.trim
    ("
            <div class=" ++ dq ++ "row "
     ++ cls
     ++ dq ++ ">
              <span class=" ++ dq ++ "ln" ++ dq ++ ">"
     ++ numStr lineNo
     ++ "</span>
              <span class=" ++ dq ++ "code" ++ dq ++ ">"
     ++ escapeHtml line
     ++ "</span>
              "
     ++ hitsBadge
     ++ "
            </div>
          ").

Definition fileSection (idx : nat) (f : FileRec) : string :=
  let rows := String.concat (String Str.LF EmptyString) (mapi (reportRow f) (sourceLines f)) in
  Str.trim
    ("
        <section class=" ++ dq ++ "file" ++ dq ++ " data-file=" ++ dq
     ++ escapeHtml (relPath f)
     ++ dq ++ " style=" ++ dq ++ "display:"
     ++ (if Nat.eqb idx 0 then "block" else "none")
     ++ dq ++ ">
          <div class=" ++ dq ++ "fileHeader" ++ dq ++ ">
            <div class=" ++ dq ++ "filePath" ++ dq ++ ">"
     ++ escapeHtml (relPath f)
     ++ "</div>
            <div class=" ++ dq ++ "fileMeta" ++ dq ++ ">
              "
     ++ (if isFinite (fileCoveragePct f) then "<span class=" ++ dq ++ "pill" ++ dq ++ ">line coverage: "
         ++ pctStr (fileCoveragePct f)
         ++ "%</span>" else "")
     ++ "
            </div>
          </div>
          <div class=" ++ dq ++ "codePane" ++ dq ++ " role=" ++ dq ++ "region" ++ dq ++ " aria-label=" ++ dq ++ "painted code" ++ dq ++ ">
            "
     ++ rows
     ++ "
          </div>
        </section>
      ").

(** The opening of the report, up to its title. *)
Definition reportHead : string :=
  "<!doctype html>
<html lang=" ++ dq ++ "en" ++ dq ++ ">
<head>
  <meta charset=" ++ dq ++ "utf-8" ++ dq ++ " />
  <meta name=" ++ dq ++ "viewport" ++ dq ++ " content=" ++ dq ++ "width=device-width, initial-scale=1" ++ dq ++ " />
  <title>".

(** The head of the report after its title: the style sheet and the opening of the top bar. *)
Definition reportStyle : string :=
  "</title>
  <style>
    :root {
      --bg: #0b1020;
      --panel: #111a33;
      --text: #e8eefc;
      --muted: #9fb0d0;
      --border: rgba(255,255,255,0.10);
      --green: rgba(46, 204, 113, 0.25);
      --orange: rgba(243, 156, 18, 0.30);
    }
    html, body { height: 100%; }
    body {
      margin: 0;
      font-family: ui-sans-serif, system-ui, -apple-system, Segoe UI, Roboto, Helvetica, Arial, " ++ dq ++ "Apple Color Emoji" ++ dq ++ ", " ++ dq ++ "Segoe UI Emoji" ++ dq ++ ";
      background: var(--bg);
      color: var(--text);
    }
    .wrap { max-width: 1200px; margin: 0 auto; padding: 18px; }
    .topbar {
      display: flex; gap: 12px; align-items: center; justify-content: space-between;
      background: linear-gradient(180deg, rgba(255,255,255,0.06), rgba(255,255,255,0.02));
      border: 1px solid var(--border);
      border-radius: 12px;
      padding: 12px 14px;
    }
    .title { font-weight: 700; letter-spacing: 0.2px; }
    .controls { display: flex; gap: 10px; align-items: center; flex-wrap: wrap; }
    select {
      background: var(--panel);
      color: var(--text);
      border: 1px solid var(--border);
      border-radius: 10px;
      padding: 8px 10px;
      min-width: min(700px, 80vw);
    }
    .legend { display: flex; gap: 10px; align-items: center; flex-wrap: wrap; color: var(--muted); font-size: 13px; }
    .swatch { width: 10px; height: 10px; border-radius: 3px; display: inline-block; border: 1px solid var(--border); }
    .swatch.pass { background: var(--green); }
    .swatch.fail { background: var(--orange); }
    .swatch.none { background: transparent; }
    .fileHeader { display: flex; gap: 10px; align-items: baseline; justify-content: space-between; margin: 14px 2px 10px; }
    .filePath { font-family: ui-monospace, SFMono-Regular, Menlo, Monaco, Consolas, " ++ dq ++ "Liberation Mono" ++ dq ++ ", " ++ dq ++ "Courier New" ++ dq ++ ", monospace; font-size: 13px; color: var(--text); }
    .pill { background: rgba(255,255,255,0.06); border: 1px solid var(--border); padding: 4px 8px; border-radius: 999px; color: var(--muted); font-size: 12px; }
    .codePane {
      border: 1px solid var(--border);
      border-radius: 12px;
      overflow: hidden;
      background: rgba(255,255,255,0.02);
    }
    .row {
      display: grid;
      grid-template-columns: 64px 1fr auto;
      gap: 10px;
      padding: 2px 12px;
      align-items: start;
      font-family: ui-monospace, SFMono-Regular, Menlo, Monaco, Consolas, " ++ dq ++ "Liberation Mono" ++ dq ++ ", " ++ dq ++ "Courier New" ++ dq ++ ", monospace;
      font-size: 12.5px;
      line-height: 1.6;
      border-top: 1px solid rgba(255,255,255,0.04);
    }
    .row:first-child { border-top: none; }
    .ln { color: rgba(232, 238, 252, 0.35); text-align: right; user-select: none; }
    .code { white-space: pre; overflow-wrap: anywhere; }
    .hits { color: rgba(232, 238, 252, 0.45); font-size: 11.5px; padding-left: 10px; user-select: none; }
    .covered-pass { background: var(--green); }
    .covered-fail { background: var(--orange); }
    .uncovered { background: transparent; }
  </style>
</head>
<body>
  <div class=" ++ dq ++ "wrap" ++ dq ++ ">
    <div class=" ++ dq ++ "topbar" ++ dq ++ ">
      <div class=" ++ dq ++ "title" ++ dq ++ ">".

(** The file selector. *)
Definition reportControls : string :=
  "</div>
      <div class=" ++ dq ++ "controls" ++ dq ++ ">
        <label for=" ++ dq ++ "fileSel" ++ dq ++ " class=" ++ dq ++ "legend" ++ dq ++ " style=" ++ dq ++ "margin-right:6px;" ++ dq ++ ">File</label>
        <select id=" ++ dq ++ "fileSel" ++ dq ++ " aria-label=" ++ dq ++ "file selector" ++ dq ++ ">".

(** The legend, after the options of the selector. *)
Definition reportLegend : string :=
  "</select>
      </div>
    </div>
    <div class=" ++ dq ++ "legend" ++ dq ++ " style=" ++ dq ++ "margin:10px 2px 0;" ++ dq ++ ">
      <span><span class=" ++ dq ++ "swatch pass" ++ dq ++ "></span> covered + passing</span>
      <span><span class=" ++ dq ++ "swatch fail" ++ dq ++ "></span> covered + failing (from Jest stack traces)</span>
      <span><span class=" ++ dq ++ "swatch none" ++ dq ++ "></span> not covered</span>
    </div>
    ".

(** The script that shows the selected file, and the end of the document. *)
Definition reportScript : string :=
  "
  </div>
  <script>
    (function () {
      const sel = document.getElementById('fileSel');
      function show(file) {
        document.querySelectorAll('section.file').forEach(s => {
          s.style.display = (s.getAttribute('data-file') === file) ? 'block' : 'none';
        });
      }
      sel.addEventListener('change', () => show(sel.value));
      show(sel.value);
    })();
  </script>
</body>
</html>".

Definition buildHtmlReport (title : string) (files : list FileRec) : string :=
  let fileOptions := String.concat "" (mapi fileOption files) in
  let fileSections := String.concat (String Str.LF EmptyString) (mapi fileSection files) in
  reportHead
  ++ escapeHtml title
  ++ reportStyle
  ++ escapeHtml title
  ++ reportControls
  ++ fileOptions
  ++ reportLegend
  ++ fileSections
  ++ reportScript.

End Report.

(** ** Coverage summary reader ([readCoverageSummary]) and quality gate *)

Definition obind {A B : Type} (o : option A) (k : A -> option B) : option B :=
  match o with
  | Some x => k x
  | None => None
  end.

Notation "x <- e ;; k" := (obind e (fun x => k))
  (at level 61, e at next level, right associativity).

(** The [metrics] object: the four entries of the summary's [total]. *)
Record Metrics : Type := mkMetrics {
  lines : JsVal;
  branches : JsVal;
  functions : JsVal;
  statements : JsVal
}.

(** [{}]. *)
Definition emptyObject : JsVal := VObj [].

(** The [metrics] component of [readCoverageSummary(summaryPath)], from
    the document [raw = JSON.parse(readText(summaryPath))]; [None] is a
    thrown TypeError ([raw] is [null]). *)
Definition readCoverageSummary (raw : JsVal) : option Metrics :=
  t <- getProp raw "total" ;;
  let total := jsOr t emptyObject in
  l <- getProp total "lines" ;;
  b <- getProp total "branches" ;;
  f <- getProp total "functions" ;;
  s <- getProp total "statements" ;;
  Some (mkMetrics (jsOr l emptyObject) (jsOr b emptyObject)
                  (jsOr f emptyObject) (jsOr s emptyObject)).

(** The [qualityGate] object of [report.json]. *)
Record QualityGate : Type := mkQualityGate {
  metric : string;
  threshold : JsNumber;
  value : JsNumber;
  status : string
}.

Section Gate.

Context {RT : JsRuntime}.

(** [asNumber(metrics.lines.pct, 0)]. *)
Definition linePct (metrics : Metrics) : option JsNumber :=
  p <- getProp (lines metrics) "pct" ;;
  asNumber p (Finite 0).

(** [linePct >= threshold ? 'PASS' : 'FAIL'], as [buildSummaryMarkdown],
    [buildHtmlCodePaintingSummary] and the action outputs compute it. *)
Definition gateOf (metrics : Metrics) (threshold : JsNumber) : option string :=
  v <- linePct metrics ;;
  Some (if jsGe v threshold then "PASS" else "FAIL").

(** The [qualityGate] entry that [main] writes. *)
Definition qualityGate (metrics : Metrics) (threshold : JsNumber) : option QualityGate :=
  v <- linePct metrics ;;
  v' <- linePct metrics ;;
  Some (mkQualityGate "lines" threshold v
          (if jsGe v' threshold then "PASS" else "FAIL")).

(** [asNumber(getInput('coverage-threshold', '80'), 80)] for the text
    [input] that [getInput] returns. *)
Definition thresholdOf (input : string) : option JsNumber :=
  asNumber (VStr input) (Finite 80).

End Gate.

(** ** The step summary ([buildHtmlCodePaintingSummary]) *)

Fixpoint spaces (n : nat) : string :=
  match n with
  | O => EmptyString
  | S k => String " "%char (spaces k)
  end.

(** [s.padStart(4, ' ')]. *)
Definition padStart4 (s : string) : string :=
  spaces (4 - String.length s) ++ s.

Section StepSummary.

Context {RT : JsRuntime}.

(** A length or a difference of lengths inserted by a template literal. *)
Definition natStr (n : nat) : string := numStr (inject_Z (Z.of_nat n)).

(** The three cells of a metric's table row. *)
Record MetricCells : Type := mkMetricCells {
  cellPct : string;
  cellCovered : string;
  cellTotal : string
}.

Definition metricCells (m : JsVal) : option MetricCells :=
  p <- getProp m "pct" ;;
  n <- asNumber p (Finite 0) ;;
  c <- getProp m "covered" ;;
  cs <- ToString (nullish c (VNum (Finite 0))) ;;
  t <- getProp m "total" ;;
  ts <- ToString (nullish t (VNum (Finite 0))) ;;
  Some (mkMetricCells (pctStr n) cs ts).

(** The [div] pushed for line [i] of a file. *)
Definition summaryLine (f : FileRec) (i : nat) : string :=
  let lineNo := lineNoOf i in
  let line :=
    match nth_error (sourceLines f) i with
    | Some l => if String.eqb l EmptyString then " " else l
    | None => " "
    end in
  let bgColor := lineBgColor f lineNo in
  let indicator := lineIndicator f lineNo in
  let lineNum := padStart4 (numStr lineNo) in
  "<div style=" ++ dq ++ "display: grid; grid-template-columns: 40px 60px 1fr; gap: 8px; padding: 2px 8px; background: "
    ++ bgColor
    ++ "; font-family: ui-monospace, monospace; font-size: 12px;" ++ dq ++ ">"
    ++ "<span style=" ++ dq ++ "text-align: right; color: #666;" ++ dq ++ ">"
    ++ indicator
    ++ "</span>"
    ++ "<span style=" ++ dq ++ "text-align: right; color: #999;" ++ dq ++ ">"
    ++ lineNum
    ++ "</span>"
    ++ "<span>"
    ++ escapeHtml line
    ++ "</span>"
    ++ "</div>".

Definition summaryFileSection (maxLinesPerFile : nat) (f : FileRec) : string :=
  let totalLines := List.length (sourceLines f) in
  let showLines := Nat.min totalLines maxLinesPerFile in
  let hasMore := Nat.ltb maxLinesPerFile totalLines in
  let lines := map (summaryLine f) (seq 0 showLines) in
  let coverageBadge :=
    if isFinite (fileCoveragePct f)
    then " <span style=" ++ dq ++ "background: rgba(255,255,255,0.1); padding: 2px 8px; border-radius: 12px; font-size: 11px;" ++ dq ++ ">"
         ++ pctStr (fileCoveragePct f)
         ++ "%</span>"
    else "" in
  let moreIndicator :=
    if hasMore
    then " <em style=" ++ dq ++ "color: #999;" ++ dq ++ ">(showing first "
         ++ natStr maxLinesPerFile
         ++ " of "
         ++ natStr totalLines
         ++ " lines)</em>"
    else "" in
  Str.trim
    ("
      <details style=" ++ dq ++ "margin: 12px 0; border: 1px solid rgba(255,255,255,0.1); border-radius: 6px; padding: 8px;" ++ dq ++ ">
        <summary style=" ++ dq ++ "cursor: pointer; font-weight: 600; padding: 4px;" ++ dq ++ ">📄 "
     ++ escapeHtml (relPath f)
     ++ coverageBadge
     ++ moreIndicator
     ++ "</summary>
        <div style=" ++ dq ++ "margin-top: 8px; border: 1px solid rgba(255,255,255,0.05); border-radius: 4px; overflow: hidden;" ++ dq ++ ">
          "
     ++ String.concat (String Str.LF EmptyString) lines
     ++ "
        </div>
      </details>
    ").

Definition buildHtmlCodePaintingSummary (title : string) (metrics : Metrics)
    (threshold : JsNumber) (files : list FileRec)
    (maxFiles maxLinesPerFile : nat) : option string :=
  gate <- gateOf metrics threshold ;;
  let gateColor := if String.eqb gate "PASS" then "#28a745" else "#dc3545" in
  let filesToShow := firstn maxFiles files in
  let fileSections :=
    String.concat (String Str.LF EmptyString)
      (map (summaryFileSection maxLinesPerFile) filesToShow) in
  let moreFilesNote :=
    if Nat.ltb maxFiles (List.length files)
    then "<p><em>... and "
         ++ natStr (List.length files - maxFiles)
         ++ " more file(s). Download the HTML report artifact for full details.</em></p>"
    else "" in
  cl <- metricCells (lines metrics) ;;
  cb <- metricCells (branches metrics) ;;
  cf <- metricCells (functions metrics) ;;
  cs <- metricCells (statements metrics) ;;
  Some (Str.trim
    ("
<h2>"
     ++ escapeHtml title
     ++ " — Coverage Summary</h2>

<p><strong>Quality Gate (lines ≥ "
     ++ NumberToString threshold
     ++ "%):</strong> <span style=" ++ dq ++ "color: "
     ++ gateColor
     ++ "; font-weight: 600;" ++ dq ++ ">"
     ++ gate
     ++ "</span></p>

<table>
  <thead>
    <tr>
      <th>Metric</th>
      <th style=" ++ dq ++ "text-align: right;" ++ dq ++ ">Coverage</th>
      <th style=" ++ dq ++ "text-align: right;" ++ dq ++ ">Covered / Total</th>
    </tr>
  </thead>
  <tbody>
    <tr>
      <td>Lines</td>
      <td style=" ++ dq ++ "text-align: right;" ++ dq ++ "><strong>"
     ++ cellPct cl
     ++ "%</strong></td>
      <td style=" ++ dq ++ "text-align: right;" ++ dq ++ ">"
     ++ cellCovered cl
     ++ " / "
     ++ cellTotal cl
     ++ "</td>
    </tr>
    <tr>
      <td>Branches</td>
      <td style=" ++ dq ++ "text-align: right;" ++ dq ++ "><strong>"
     ++ cellPct cb
     ++ "%</strong></td>
      <td style=" ++ dq ++ "text-align: right;" ++ dq ++ ">"
     ++ cellCovered cb
     ++ " / "
     ++ cellTotal cb
     ++ "</td>
    </tr>
    <tr>
      <td>Functions</td>
      <td style=" ++ dq ++ "text-align: right;" ++ dq ++ "><strong>"
     ++ cellPct cf
     ++ "%</strong></td>
      <td style=" ++ dq ++ "text-align: right;" ++ dq ++ ">"
     ++ cellCovered cf
     ++ " / "
     ++ cellTotal cf
     ++ "</td>
    </tr>
    <tr>
      <td>Statements</td>
      <td style=" ++ dq ++ "text-align: right;" ++ dq ++ "><strong>"
     ++ cellPct cs
     ++ "%</strong></td>
      <td style=" ++ dq ++ "text-align: right;" ++ dq ++ ">"
     ++ cellCovered cs
     ++ " / "
     ++ cellTotal cs
     ++ "</td>
    </tr>
  </tbody>
</table>

<hr>

<h3>🎨 Code Painting</h3>

<p><strong>Legend:</strong></p>
<ul>
  <li>✅ Covered by tests (passing)</li>
  <li>⚠️ Covered by tests (failing - appears in Jest error stack traces)</li>
  <li>❌ Not covered by tests</li>
</ul>

"
     ++ fileSections
     ++ "

"
     ++ moreFilesNote
     ++ "

<p><em>💡 Expand the file sections above to view the code painting. For a full interactive HTML report, download the workflow artifact.</em></p>
")).

(** The call of [main], with the default caps. *)
Definition stepSummary (title : string) (metrics : Metrics)
    (threshold : JsNumber) (files : list FileRec) : option string :=
  buildHtmlCodePaintingSummary title metrics threshold files 5 50.

End StepSummary.

(** ** The Markdown summary ([buildCodePaintingMarkdown],
    [buildSummaryMarkdown]) *)

Section Markdown.

Context {RT : JsRuntime}.

(** The text pushed for line [i] of a file. *)
Definition markdownLine (f : FileRec) (i : nat) : string :=
  let lineNo := lineNoOf i in
  let displayLine :=
    match nth_error (sourceLines f) i with
    | Some l => if String.eqb l EmptyString then " " else l
    | None => " "
    end in
  let indicator := lineIndicator f lineNo in
  let lineNum := padStart4 (numStr lineNo) in
  indicator ++ " " ++ lineNum ++ " | " ++ displayLine.

(** The collapsible section of one file. *)
Definition markdownSection (maxLinesPerFile : nat) (f : FileRec) : string :=
  let totalLines := List.length (sourceLines f) in
  let showLines := Nat.min totalLines maxLinesPerFile in
  let hasMore := Nat.ltb maxLinesPerFile totalLines in
  let lines := map (markdownLine f) (seq 0 showLines) in
  let coverageBadge :=
    if isFinite (fileCoveragePct f)
    then " — " ++ pctStr (fileCoveragePct f) ++ "% coverage"
    else "" in
  let moreIndicator :=
    if hasMore
    then " _(showing first " ++ natStr maxLinesPerFile ++ " of "
         ++ natStr totalLines ++ " lines)_"
    else "" in
  let summary :=
    "<summary><strong>📄 " ++ relPath f ++ "</strong>" ++ coverageBadge
    ++ moreIndicator ++ "</summary>" in
  String.concat (String Str.LF EmptyString)
    (["<details>"; summary; ""; "```"] ++ lines ++ ["```"; "</details>"; ""])%list.

Definition buildCodePaintingMarkdown (files : list FileRec)
    (maxFiles maxLinesPerFile : nat) : string :=
  let filesToShow := firstn maxFiles files in
  let sections := map (markdownSection maxLinesPerFile) filesToShow in
  let moreFiles :=
    "_... and " ++ natStr (List.length files - maxFiles)
    ++ " more file(s). Download the HTML report for full details._" in
  let sections :=
    if Nat.ltb maxFiles (List.length files)
    then (sections ++ [moreFiles])%list
    else sections in
  String.concat (String Str.LF EmptyString) sections.

(** A row of the metrics table. *)
Definition markdownRow (name : string) (cells : MetricCells) : string :=
  "| " ++ name ++ " | " ++ cellPct cells ++ "% | " ++ cellCovered cells
  ++ " / " ++ cellTotal cells ++ " |".

Definition buildSummaryMarkdown (title : string) (metrics : Metrics)
    (threshold : JsNumber) (files : list FileRec) (includeCodePainting : bool)
  : option string :=
  gate <- gateOf metrics threshold ;;
  cl <- metricCells (lines metrics) ;;
  cb <- metricCells (branches metrics) ;;
  cf <- metricCells (functions metrics) ;;
  cs <- metricCells (statements metrics) ;;
  let parts :=
    ["## " ++ title ++ " — Coverage Summary";
     "";
     "- **Quality Gate (lines ≥ " ++ NumberToString threshold ++ "%):** " ++ gate;
     "";
     "| Metric | Coverage | Covered / Total |";
     "|---|---:|---:|";
     markdownRow "Lines" cl;
     markdownRow "Branches" cb;
     markdownRow "Functions" cf;
     markdownRow "Statements" cs;
     ""] in
  let download :=
    "_Download the " ++ dq ++ "code painting" ++ dq ++ " HTML report from the workflow artifacts to view per-line highlights._" in
  let parts :=
    if includeCodePainting && Nat.ltb 0 (List.length files)
    then (parts
          ++ ["---";
              "";
              "### 🎨 Code Painting";
              "";
              "**Legend:**";
              "- ✅ Covered by tests (passing)";
              "- ⚠️ Covered by tests (failing - appears in Jest error stack traces)";
              "- ❌ Not covered by tests";
              "";
              buildCodePaintingMarkdown files 5 50;
              "";
              "_💡 Expand the file sections above to view the code painting. For a full interactive HTML report, download the workflow artifact._";
              ""])%list
    else (parts ++ [download; ""])%list in
  Some (String.concat (String Str.LF EmptyString) parts).

(** [commentBody] of [main]: the marker, a line feed and the summary. *)
Definition commentBody (marker summaryMd : string) : string :=
  marker ++ String Str.LF summaryMd.

End Markdown.

(** ** The file entries of [report.json] *)

(** One entry of [reportJson.files].  A [Map] holds each key once and a
    [Set] each element once, so that their sizes are the lengths of the
    lists that stand for them. *)
Record ReportFileEntry : Type := mkReportFileEntry {
  path : string;
  lineCoveragePct : option Q;
  failingLineCount : nat;
  coveredLineCount : nat;
  instrumentedLineCount : nat
}.

(** [h > 0] on a stored hit count. *)
Definition positiveHits (kv : Q * Q) : bool := negb (Qle_bool (snd kv) 0).

(** The entry written for a file; [None] is the TypeError raised when
    [lineHits] is missing. *)
Definition reportFileEntry (f : FileRec) : option ReportFileEntry :=
  match lineHits f with
  | None => None
  | Some m =>
      Some (mkReportFileEntry
              (relPath f)
              (match fileCoveragePct f with
               | Finite q => Some q
               | _ => None
               end)
              (match failingLines f with
               | Some s => List.length s
               | None => 0
               end)
              (List.length (filter positiveHits m))
              (List.length m))
  end.

(** ** Comment synchroniser ([upsertPrComment]) *)

Module PrComment.

(** A comment of the pull request, as the issue-comments API lists it. *)
Record Comment : Type := mkComment {
  id : Z;
  body : JsVal
}.

(** The remote state behind the API for one pull request: its comments,
    oldest first, and the identifier the service gives to the next comment
    it creates (identifiers are never used twice). *)
Record Remote : Type := mkRemote {
  comments : list Comment;
  nextId : Z
}.

(** [per_page=100] of the list request: one page, no loop over pages. *)
Definition per_page : nat := 100.

(** [GET .../issues/{prNumber}/comments?per_page=100]: the first page. *)
Definition apiList (r : Remote) : list Comment :=
  firstn per_page (comments r).

(** [POST .../issues/{prNumber}/comments] with [{ body }]. *)
Definition apiCreate (b : string) (r : Remote) : Remote :=
  mkRemote (comments r ++ [mkComment (nextId r) (VStr b)]) (nextId r + 1).

Definition hasId (i : Z) (c : Comment) : bool := Z.eqb (id c) i.

(** [DELETE .../issues/comments/{id}]; [None] is the error thrown by
    [githubApi] when the response is not [ok] (no such comment). *)
Definition apiDelete (i : Z) (r : Remote) : option Remote :=
  if existsb (hasId i) (comments r)
  then Some (mkRemote (filter (fun c => negb (hasId i c)) (comments r)) (nextId r))
  else None.

(** The comment [c] after an edit of the comment [i] to the body [b]. *)
Definition edited (i : Z) (b : string) (c : Comment) : Comment :=
  if hasId i c then mkComment (id c) (VStr b) else c.

(** [PATCH .../issues/comments/{id}] with [{ body }]. *)
Definition apiUpdate (i : Z) (b : string) (r : Remote) : option Remote :=
  if existsb (hasId i) (comments r)
  then Some (mkRemote (map (edited i b) (comments r)) (nextId r))
  else None.

(** [typeof c.body === 'string' && c.body.includes(marker)]. *)
Definition isMarked (marker : string) (c : Comment) : bool :=
  match body c with
  | VStr s => Str.includes marker s
  | _ => false
  end.

(** [upsertPrComment({ token, owner, repo, prNumber, strategy, marker,
    body })] against the remote state of that pull request; [None] is a
    thrown error. *)
Definition upsertPrComment (strategy marker body : string) (r : Remote)
  : option Remote :=
  let listed := apiList r in
  let existing := find (isMarked marker) listed in
  match existing with
  | None => Some (apiCreate body r)
  | Some e =>
      if String.eqb strategy "ADD" then Some (apiCreate body r)
      else if String.eqb strategy "REMOVE" then
        r' <- apiDelete (id e) r ;;
        Some (apiCreate body r')
      else apiUpdate (id e) body r
  end.

(** The comments of the pull request that bear the marker. *)
Definition marked (marker : string) (r : Remote) : list Comment :=
  filter (isMarked marker) (comments r).

(** Identifiers are distinct and older than the next one. *)
Definition wellFormed (r : Remote) : Prop :=
  NoDup (map id (comments r)) /\
  Forall (fun c => (id c < nextId r)%Z) (comments r).

(** The state after a run that leaves one marked comment, within the
    listed page, whose body is [b]. *)
Definition settled (marker b : string) (r : Remote) : Prop :=
  wellFormed r /\
  exists c, marked marker r = [c] /\ In c (apiList r) /\ body c = VStr b.

End PrComment.

(** ** Notions of the specification *)

(** The trace with every line-data record deleted that stands where no
    file section is open: before the first source-file line, or after an
    end-of-record marker and before the next source-file line. *)
Fixpoint dropOrphans (sectionOpen : bool) (lines : list string) : list string :=
  match lines with
  | [] => []
  | raw :: rest =>
      if Str.startsWith "SF:" raw then raw :: dropOrphans true rest
      else if Str.startsWith "DA:" raw then
        if sectionOpen then raw :: dropOrphans sectionOpen rest
        else dropOrphans sectionOpen rest
      else if String.eqb raw "end_of_record" then raw :: dropOrphans false rest
      else raw :: dropOrphans sectionOpen rest
  end.

(** The five reserved characters of HTML. *)
Definition reserved (a : ascii) : bool :=
  Ascii.eqb a "&"%char || Ascii.eqb a "<"%char || Ascii.eqb a ">"%char
  || Ascii.eqb a "034"%char || Ascii.eqb a "'"%char.

(** What follows the ampersand in the five entity replacements. *)
Definition entityTails : list string := ["amp;"; "lt;"; "gt;"; "quot;"; "#39;"].

(** A text holds a reserved character only as the ampersand that opens
    one of the five entities. *)
Fixpoint wellEscaped (s : string) : bool :=
  match s with
  | EmptyString => true
  | String a t =>
      (if Ascii.eqb a "&"%char then existsb (fun e => String.prefix e t) entityTails
       else negb (reserved a))
      && wellEscaped t
  end.

(** The record with its texts (path and source lines) emptied, line for
    line. *)
Definition blankTexts (f : FileRec) : FileRec :=
  mkFileRec EmptyString (map (fun _ => EmptyString) (sourceLines f))
            (lineHits f) (failingLines f) (fileCoveragePct f).

(** The characters that delimit tags and attribute values. *)
Definition structural (a : ascii) : bool :=
  Ascii.eqb a "<"%char || Ascii.eqb a ">"%char
  || Ascii.eqb a "034"%char || Ascii.eqb a "'"%char.

(** The hit count recorded for a line, if the line is instrumented. *)
Definition recorded (f : FileRec) (lineNo : Q) : option Q :=
  match lineHits f with
  | Some m => JsMap.get numKeyEq lineNo m
  | None => None
  end.

(** The data model's invariant on [lineHits]: hit counts are not
    negative. *)
Definition hitsNonNegative (f : FileRec) : Prop :=
  forall m, lineHits f = Some m -> Forall (fun kv => (0 <= snd kv)%Q) m.

(** The line number is an element of [failingLines]. *)
Definition inFailingLines (f : FileRec) (n : Q) : Prop :=
  exists s x, failingLines f = Some s /\ In x s /\ (x == n)%Q.

(** The three statuses of a line, as the data model words them. *)
Definition uncovered (f : FileRec) (n : Q) : Prop :=
  recorded f n = None \/ exists h, recorded f n = Some h /\ (h == 0)%Q.

Definition coveredFailing (f : FileRec) (n : Q) : Prop :=
  exists h, recorded f n = Some h /\ (0 < h)%Q /\ inFailingLines f n.

Definition coveredPassing (f : FileRec) (n : Q) : Prop :=
  exists h, recorded f n = Some h /\ (0 < h)%Q /\ ~ inFailingLines f n.

(** The first status without the invariant: no hit count is recorded for
    the line, or one that is not positive. *)
Definition withoutHits (f : FileRec) (n : Q) : Prop :=
  recorded f n = None \/ exists h, recorded f n = Some h /\ (h <= 0)%Q.

Definition exactlyOne (a b c : Prop) : Prop :=
  (a /\ ~ b /\ ~ c) \/ (~ a /\ b /\ ~ c) \/ (~ a /\ ~ b /\ c).

(** The four metrics of the summary. *)
Inductive MetricName : Type := Lines | Branches | Functions | Statements.

Definition metricKey (k : MetricName) : string :=
  match k with
  | Lines => "lines"
  | Branches => "branches"
  | Functions => "functions"
  | Statements => "statements"
  end.

Definition metricOf (k : MetricName) (m : Metrics) : JsVal :=
  match k with
  | Lines => lines m
  | Branches => branches m
  | Functions => functions m
  | Statements => statements m
  end.

(** An all-zero metric: [covered], [total] and [pct] are the number 0. *)
Definition allZeroMetric (v : JsVal) : Prop :=
  getProp v "covered" = Some (VNum (Finite 0)) /\
  getProp v "total" = Some (VNum (Finite 0)) /\
  getProp v "pct" = Some (VNum (Finite 0)).

(** ** A reference runtime for evaluation

    Decimal integer literals with an optional sign and surrounding white
    space are converted as the language does; the empty text is [0]; any
    other text is taken as not-a-number.  Integers are printed in decimal;
    arrays are not converted.  It serves to run the definitions on
    concrete traces. *)

Module RefRuntime.

Definition isDigit (a : ascii) : bool :=
  let n := nat_of_ascii a in Nat.leb 48 n && Nat.leb n 57.

Fixpoint digitsValue (acc : Z) (s : string) : option Z :=
  match s with
  | EmptyString => Some acc
  | String a t =>
      if isDigit a
      then digitsValue (10 * acc + Z.of_nat (nat_of_ascii a - 48)) t
      else None
  end.

Definition unsignedValue (s : string) : option Z :=
  match s with
  | EmptyString => None
  | _ => digitsValue 0 s
  end.

Definition stringToNumber (s : string) : JsNumber :=
  match Str.trim s with
  | EmptyString => Finite 0
  | String a t =>
      if Ascii.eqb a "-"%char then
        match unsignedValue t with
        | Some z => Finite (inject_Z (- z))
        | None => NaN
        end
      else if Ascii.eqb a "+"%char then
        match unsignedValue t with
        | Some z => Finite (inject_Z z)
        | None => NaN
        end
      else
        match unsignedValue (String a t) with
        | Some z => Finite (inject_Z z)
        | None => NaN
        end
  end.

Fixpoint natDigits (fuel n : nat) (acc : string) : string :=
  match fuel with
  | O => acc
  | S k =>
      let d := String (ascii_of_nat (48 + Nat.modulo n 10)) acc in
      if Nat.ltb n 10 then d else natDigits k (Nat.div n 10) d
  end.

Definition zToString (z : Z) : string :=
  let n := Z.abs_nat z in
  let ds := natDigits (S n) n EmptyString in
  if (z <? 0)%Z then String "-"%char ds else ds.

Definition numberToString (n : JsNumber) : string :=
  match n with
  | NaN => "NaN"
  | Infinity true => "-Infinity"
  | Infinity false => "Infinity"
  | Finite q => zToString (Qfloor q)
  end.

Definition fixed2 (q : Q) : string :=
  let c := Qfloor (q * 100 + (1 # 2))%Q in
  let frac := zToString (Z.abs c mod 100) in
  (if (c <? 0)%Z then "-" else "")
  ++ zToString (Z.abs c / 100) ++ "."
  ++ (if (Z.abs c mod 100 <? 10)%Z then "0" else "") ++ frac.

Definition runtime : JsRuntime := {|
  StringToNumber := stringToNumber;
  ArrayToString := fun _ => None;
  NumberToString := numberToString;
  toFixed2 := fixed2
|}.

End RefRuntime.

(** ** Concrete inputs

    Traces, records, summaries and comment threads on which the
    definitions are run. *)

Module LcovExamples.

Definition nl : string := String Str.LF EmptyString.

Definition unlines (ls : list string) : string := String.concat nl ls.

Definition trace : string :=
  unlines ["TN:"; "SF:/repo/src/a.js"; "DA:1,1"; "DA:x,7"; "DA:2,0"; "DA:3,3";
           "end_of_record"; "SF:/repo/src/b.js"; "DA:1,4"; "end_of_record"].

Definition traceWithout : string :=
  unlines ["TN:"; "SF:/repo/src/a.js"; "DA:1,1"; "DA:2,0"; "DA:3,3";
           "end_of_record"; "SF:/repo/src/b.js"; "DA:1,4"; "end_of_record"].

Definition orphaned : string :=
  unlines ["DA:9,9"; "SF:/repo/src/a.js"; "DA:1,1"; "end_of_record"; "DA:5,5";
           "LF:1"; "DA:6,1"; "SF:/repo/src/b.js"; "DA:1,4"; "end_of_record"].

Definition orphanedWithout : string :=
  unlines ["SF:/repo/src/a.js"; "DA:1,1"; "end_of_record";
           "LF:1"; "SF:/repo/src/b.js"; "DA:1,4"; "end_of_record"].

End LcovExamples.

Module ClassExamples.

(** The record of the end-to-end scenario: [DA:1,1], [DA:2,0], [DA:3,3]
    and a failure located at line 3. *)
Definition scenario : FileRec :=
  mkFileRec "src/a.js" ["const a = 1;"; "if (a) {"; "}"]
            (Some [(1, 1); (2, 0); (3, 3)]%Q) (Some [3%Q]) NaN.

(** A trace with a negative hit count, and the record built from what
    the parser stores for it. *)
Definition negativeTrace : string :=
  LcovExamples.unlines ["SF:/repo/src/a.js"; "DA:1,-1"; "end_of_record"].

Definition negativeHits : FileRec :=
  mkFileRec "src/a.js" ["const a = 1;"] (Some [(1, -1)]%Q) (Some []) NaN.

End ClassExamples.

Module GateExamples.

(** [metrics] of a summary whose total line percentage is [pct]. *)
Definition withLinePct (pct : Q) : Metrics :=
  mkMetrics (VObj [("total", VNum (Finite 100)); ("covered", VNum (Finite 80));
                   ("pct", VNum (Finite pct))])
            emptyObject emptyObject emptyObject.

End GateExamples.

Module SummaryExamples.

(** A summary whose [total] has no [lines] entry. *)
Definition noLines : JsVal :=
  VObj [("total",
         VObj [("branches",
                VObj [("total", VNum (Finite 4)); ("covered", VNum (Finite 2));
                      ("pct", VNum (Finite 50))])])].

End SummaryExamples.

Module PrCommentExamples.
Import PrComment.

Definition marker : string := "<!-- code-painting-action -->".

Definition bodyOf (text : string) : string :=
  marker ++ String Str.LF text.

(** A hundred comments of other authors, oldest first. *)
Definition crowd : list Comment :=
  map (fun i => mkComment (Z.of_nat i) (VStr "LGTM")) (seq 1 100).

(** A full first page, and no marked comment yet. *)
Definition fullPage : Remote := mkRemote crowd 101.

(** A marked comment that stands after a full first page. *)
Definition beyondPage : Remote :=
  mkRemote (crowd ++ [mkComment 101 (VStr (bodyOf "run 1"))]) 102.

(** Two marked comments, as two [ADD] runs leave them. *)
Definition twoMarked : Remote :=
  mkRemote [mkComment 1 (VStr (bodyOf "run 1")); mkComment 2 (VStr (bodyOf "run 2"))] 3.

(** One marked comment. *)
Definition oneMarked : Remote :=
  mkRemote [mkComment 7 (VStr "LGTM"); mkComment 8 (VStr (bodyOf "run 1"))] 9.

(** An empty thread. *)
Definition emptyThread : Remote := mkRemote [] 1.

Definition twice (strategy b1 b2 : string) (r : Remote) : option Remote :=
  r1 <- upsertPrComment strategy marker b1 r ;;
  upsertPrComment strategy marker b2 r1.

End PrCommentExamples.

(** ** Further notions used by the properties *)

(** The key under which the section opened by an [SF:] line is stored. *)
Definition sfKey (repoRoot raw : string) : option string :=
  normalizeToRepoRel repoRoot (Some (Str.trim (Str.slice 3 raw))).

(** A line that is none of the three forms the parser reads. *)
Definition otherLine (raw : string) : bool :=
  negb (Str.startsWith "SF:" raw) && negb (Str.startsWith "DA:" raw)
  && negb (String.eqb raw "end_of_record").

(** A line that leaves the current section open. *)
Definition staysInSection (raw : string) : bool :=
  negb (Str.startsWith "SF:" raw) && negb (String.eqb raw "end_of_record").

(** The carriage return and line feed that end a line on some systems. *)
Definition CRLF : string := String Str.CR (String Str.LF EmptyString).

(** The rows of the interactive report that are painted as covered: the
    indexes of the source lines whose class is not [uncovered]. *)
Definition paintedRows (f : FileRec) : list nat :=
  filter (fun i => negb (String.eqb (lineClass f (lineNoOf i)) "uncovered"))
         (seq 0 (List.length (sourceLines f))).

(** A text holds one of the five reserved characters. *)
Fixpoint anyReserved (s : string) : bool :=
  match s with
  | EmptyString => false
  | String a t => reserved a || anyReserved t
  end.

(** Two records show the same in a view capped at [maxLinesPerFile]
    lines: they differ at most in the source lines beyond the cap, not in
    their number. *)
Definition sameShown (maxLinesPerFile : nat) (f g : FileRec) : Prop :=
  relPath f = relPath g /\
  lineHits f = lineHits g /\
  failingLines f = failingLines g /\
  fileCoveragePct f = fileCoveragePct g /\
  List.length (sourceLines f) = List.length (sourceLines g) /\
  firstn maxLinesPerFile (sourceLines f) = firstn maxLinesPerFile (sourceLines g).

(** The loop variables while a section of the file [key] is open. *)
Definition inSection (key : option string) (st : LcovState) : Prop :=
  currentFile st = key /\ currentLines st = Some key /\
  JsMap.has fileKeyEq key (fileLineHits st) = true.

Section LaterRecords.

Context {RT : JsRuntime}.

(** The line is a well-formed record of the line number [n]. *)
Definition recordsLine (n : Q) (raw : string) : bool :=
  Str.startsWith "DA:" raw &&
  match parseDA raw with
  | Some (lineNo, _) => numKeyEq lineNo n
  | None => false
  end.

(** No line of [rest] is a record of the line number [n] in a section of
    the file [key]; [opened] tells whether such a section is open where
    [rest] begins. *)
Fixpoint noLaterRecord (repoRoot : string) (key : option string) (n : Q)
    (opened : bool) (rest : list string) : bool :=
  match rest with
  | [] => true
  | raw :: r =>
      if Str.startsWith "SF:" raw
      then noLaterRecord repoRoot key n (fileKeyEq (sfKey repoRoot raw) key) r
      else if String.eqb raw "end_of_record"
      then noLaterRecord repoRoot key n false r
      else negb (opened && recordsLine n raw) && noLaterRecord repoRoot key n opened r
  end.

End LaterRecords.

(** [hits > 0] for the count found under a line number. *)
Definition coveredIn (m : LineHits) (x : Q) : bool :=
  negb (Qle_bool (match JsMap.get numKeyEq x m with Some h => h | None => 0%Q end) 0).

(** A byte that is a visible ASCII character: it stands in no white
    space, of one byte or more. *)
Definition visible (a : ascii) : bool :=
  negb (Str.isSpace a) && Nat.ltb (nat_of_ascii a) 128.

Fixpoint anyVisible (s : string) : bool :=
  match s with
  | EmptyString => false
  | String a t => visible a || anyVisible t
  end.

Definition headVisible (s : string) : bool :=
  match s with
  | EmptyString => false
  | String a _ => visible a
  end.

(** [x] stands in [s] and something other than white space follows it. *)
Definition Inner (x s : string) : Prop :=
  exists p q, s = p ++ x ++ q /\ anyVisible q = true.

Module MoreExamples.

(** A file of three lines and its variant with another third line. *)
Definition threeLines (third : string) : FileRec :=
  mkFileRec "src/a.js" ["const a = 1;"; "if (a) {"; third]
            (Some [(1, 1); (2, 0); (3, 3)]%Q) (Some [3%Q]) (Finite 50).

(** The Markdown summary of the scenario on the reference runtime. *)
Definition scenarioSummary : string :=
  match buildSummaryMarkdown (RT := RefRuntime.runtime) "Code Painting"
          (GateExamples.withLinePct 80) (Finite 80) [ClassExamples.scenario] true with
  | Some md => md
  | None => EmptyString
  end.

End MoreExamples.

(** * Properties *)

(** ** Facts about the string primitives *)

Module StrFacts.
Import Str.

Lemma append_nil_r (s : string) : s ++ "" = s.
Proof. induction s as [|a t IH]; simpl; [reflexivity | now rewrite IH]. Qed.

Lemma append_assoc (a b c : string) : (a ++ b) ++ c = a ++ b ++ c.
Proof. induction a as [|x a IH]; simpl; [reflexivity | now rewrite IH]. Qed.

Lemma length_append (a b : string) :
  String.length (a ++ b) = String.length a + String.length b.
Proof. induction a as [|x a IH]; simpl; [reflexivity | now rewrite IH]. Qed.

Lemma count_append (c : ascii) (a b : string) :
  count c (a ++ b) = count c a + count c b.
Proof. induction a as [|x a IH]; simpl; [reflexivity | rewrite IH; lia]. Qed.

Lemma count_le_length (c : ascii) (s : string) : count c s <= String.length s.
Proof.
  induction s as [|a t IH]; simpl; [lia|].
  destruct (Ascii.eqb a c); lia.
Qed.

Lemma prefix_cons (a b : ascii) (p s : string) :
  String.prefix (String a p) (String b s) = Ascii.eqb a b && String.prefix p s.
Proof.
  simpl. destruct (ascii_dec a b) as [->|n].
  - now rewrite Ascii.eqb_refl.
  - apply Ascii.eqb_neq in n. now rewrite n.
Qed.

Lemma prefix_nil_l (s : string) : String.prefix "" s = true.
Proof. destruct s; reflexivity. Qed.

Lemma prefix_append (p r : string) : String.prefix p (p ++ r) = true.
Proof.
  induction p as [|a p IH]; [apply prefix_nil_l|].
  change (String a p ++ r) with (String a (p ++ r)).
  now rewrite prefix_cons, Ascii.eqb_refl, IH.
Qed.

Lemma prefix_inv (p s : string) :
  String.prefix p s = true -> exists r, s = p ++ r.
Proof.
  revert s. induction p as [|a p IH]; intros s H.
  - now exists s.
  - destruct s as [|b s]; [discriminate|].
    rewrite prefix_cons in H. apply andb_prop in H as [Hab Hp].
    apply Ascii.eqb_eq in Hab. subst b.
    destruct (IH _ Hp) as [r ->]. now exists r.
Qed.

Lemma slice_append (p r : string) : slice (String.length p) (p ++ r) = r.
Proof. induction p as [|a p IH]; simpl; [now destruct r | exact IH]. Qed.

Lemma slice_length (n : nat) (s : string) :
  String.length (slice n s) = String.length s - n.
Proof.
  revert s. induction n as [|n IH]; intros s; simpl.
  - lia.
  - destruct s as [|a t]; simpl; [reflexivity | apply IH].
Qed.

Lemma count_slice_le (c : ascii) (n : nat) (s : string) :
  count c (slice n s) <= count c s.
Proof.
  revert s. induction n as [|n IH]; intros s; simpl; [lia|].
  destruct s as [|a t]; simpl; [lia|]. specialize (IH t). lia.
Qed.

Lemma includes_nil (needle : string) :
  includes needle "" = String.prefix needle "" || false.
Proof. reflexivity. Qed.

Lemma includes_cons (needle : string) (a : ascii) (t : string) :
  includes needle (String a t) =
  String.prefix needle (String a t) || includes needle t.
Proof. reflexivity. Qed.

Lemma lastIndexOf_nil (needle : string) :
  lastIndexOf needle "" = if String.prefix needle "" then Some 0 else None.
Proof. reflexivity. Qed.

Lemma lastIndexOf_cons (needle : string) (a : ascii) (t : string) :
  lastIndexOf needle (String a t) =
  match lastIndexOf needle t with
  | Some i => Some (S i)
  | None => if String.prefix needle (String a t) then Some 0 else None
  end.
Proof. reflexivity. Qed.

Lemma includes_inv (needle s : string) :
  includes needle s = true -> exists pre post, s = pre ++ needle ++ post.
Proof.
  induction s as [|a t IH]; intros H.
  - rewrite includes_nil, orb_false_r in H.
    destruct (prefix_inv _ _ H) as [r Hr]. exists "", r. exact Hr.
  - rewrite includes_cons in H. apply orb_prop in H as [H|H].
    + destruct (prefix_inv _ _ H) as [r Hr]. exists "", r. exact Hr.
    + destruct (IH H) as (pre & post & ->). now exists (String a pre), post.
Qed.

Lemma includes_prefix (needle s : string) :
  String.prefix needle s = true -> includes needle s = true.
Proof.
  destruct s; [rewrite includes_nil | rewrite includes_cons]; now intros ->.
Qed.

Lemma includes_append (needle pre post : string) :
  includes needle (pre ++ needle ++ post) = true.
Proof.
  induction pre as [|a pre IH].
  - change ("" ++ needle ++ post) with (needle ++ post).
    apply includes_prefix, prefix_append.
  - change (String a pre ++ needle ++ post) with (String a (pre ++ needle ++ post)).
    rewrite includes_cons, IH. apply orb_true_r.
Qed.

Lemma lastIndexOf_none (needle s : string) :
  lastIndexOf needle s = None <-> includes needle s = false.
Proof.
  induction s as [|a t IH].
  - rewrite lastIndexOf_nil, includes_nil, orb_false_r.
    destruct (String.prefix needle ""); split; congruence.
  - rewrite lastIndexOf_cons, includes_cons.
    destruct (lastIndexOf needle t) as [i|].
    + split; [discriminate|]. intros H. apply orb_false_elim in H as [_ H].
      apply IH in H. discriminate.
    + assert (Ht : includes needle t = false) by now apply IH.
      rewrite Ht, orb_false_r.
      destruct (String.prefix needle (String a t)); split; congruence.
Qed.

(** The index found is that of an occurrence, and no occurrence starts
    later. *)
Lemma lastIndexOf_some (c : ascii) (n s : string) (i : nat) :
  lastIndexOf (String c n) s = Some i ->
  exists pre post,
    s = pre ++ String c n ++ post /\ String.length pre = i /\
    includes (String c n) (n ++ post) = false.
Proof.
  revert i. induction s as [|a t IH]; intros i H.
  - discriminate.
  - rewrite lastIndexOf_cons in H.
    destruct (lastIndexOf (String c n) t) as [j|] eqn:E.
    + injection H as <-. destruct (IH j eq_refl) as (pre & post & -> & Hl & Hn).
      exists (String a pre), post. simpl. now rewrite Hl.
    + destruct (String.prefix (String c n) (String a t)) eqn:P; [|discriminate].
      injection H as <-. destruct (prefix_inv _ _ P) as [r Hr].
      exists "", r. simpl in Hr. injection Hr as -> ->.
      repeat split. now apply lastIndexOf_none.
Qed.

Lemma includes_slash (s : string) :
  includes "/" s = negb (Nat.eqb (count slash s) 0).
Proof.
  induction s as [|a t IH]; [reflexivity|].
  rewrite includes_cons, IH, prefix_cons, prefix_nil_l, andb_true_r.
  simpl count. rewrite (Ascii.eqb_sym a slash). unfold slash.
  destruct (Ascii.eqb "/" a); reflexivity.
Qed.

Lemma replaceAll_absent (c : ascii) (r s : string) :
  count c s = 0 -> replaceAll c r s = s.
Proof.
  induction s as [|a t IH]; simpl; [reflexivity|].
  destruct (Ascii.eqb a c); [discriminate|]. intros H. now rewrite IH.
Qed.

Lemma count_sepNormalize (p : string) :
  count backslash (replaceAll backslash "/" p) = 0.
Proof.
  induction p as [|a t IH]; simpl; [reflexivity|].
  destruct (Ascii.eqb a backslash) eqn:E; simpl; [exact IH|].
  now rewrite E.
Qed.

(** *** Trailing slashes and the final component *)

Lemma strip_split (s : string) :
  exists trail, s = stripTrailingSlashes s ++ trail /\ all_slashes trail.
Proof.
  induction s as [|a t (trail & Ht & Hs)].
  - now exists "".
  - simpl stripTrailingSlashes.
    destruct (Ascii.eqb a slash && String.eqb (stripTrailingSlashes t) "") eqn:E.
    + apply andb_prop in E as [Ea Et].
      apply Ascii.eqb_eq in Ea. apply String.eqb_eq in Et.
      exists (String a trail). rewrite Et in Ht. simpl in Ht. subst a t.
      split; [reflexivity|]. unfold all_slashes in *. simpl. now rewrite Hs.
    + exists trail. split; [simpl; now rewrite <- Ht | exact Hs].
Qed.

Lemma strip_not_slash_ended (s d : string) :
  stripTrailingSlashes s <> d ++ "/".
Proof.
  revert d. induction s as [|a t IH]; intros d.
  - destruct d; discriminate.
  - simpl stripTrailingSlashes.
    destruct (Ascii.eqb a slash && String.eqb (stripTrailingSlashes t) "") eqn:E.
    + destruct d; discriminate.
    + destruct d as [|b d]; simpl; intros H; injection H as Ha Ht.
      * subst a. rewrite Ht in E. discriminate.
      * now apply (IH d).
Qed.

Lemma count_strip_le (c : ascii) (s : string) :
  count c (stripTrailingSlashes s) <= count c s.
Proof.
  destruct (strip_split s) as (trail & H & _).
  rewrite H at 2. rewrite count_append. lia.
Qed.

Lemma strip_no_slash (s : string) :
  count slash s = 0 -> stripTrailingSlashes s = s.
Proof.
  induction s as [|a t IH]; simpl; [reflexivity|].
  destruct (Ascii.eqb a slash); [discriminate|]. simpl. intros H. now rewrite IH.
Qed.

Lemma afterLastSlash_split (u : string) :
  exists dir, u = dir ++ afterLastSlash u /\
    (dir = "" \/ exists d, dir = d ++ "/") /\
    count slash (afterLastSlash u) = 0.
Proof.
  induction u as [|a t (dir & Ht & Hd & Hc)].
  - exists "". repeat split. now left.
  - simpl afterLastSlash. pose proof (includes_slash t) as Hi.
    destruct (includes "/" t).
    + exists (String a dir). split; [simpl; now rewrite <- Ht|]. split; [|exact Hc].
      right. destruct Hd as [->|(d & ->)].
      * simpl in Ht. rewrite <- Ht in Hc. now rewrite Hc in Hi.
      * now exists (String a d).
    + assert (Hz : count slash t = 0)
        by (destruct (count slash t); [reflexivity | discriminate]).
      destruct (Ascii.eqb a slash) eqn:E.
      * apply Ascii.eqb_eq in E. subst a. exists "/". repeat split; [|exact Hz].
        right. now exists "".
      * exists "". repeat split; [now left|]. simpl. now rewrite E.
Qed.

Lemma afterLastSlash_no_slash (s : string) :
  count slash s = 0 -> afterLastSlash s = s.
Proof.
  destruct s as [|a t]; [reflexivity|]. simpl.
  rewrite includes_slash. destruct (Ascii.eqb a slash); [discriminate|].
  simpl. now intros ->.
Qed.

(** [basename] returns the final component: what stands between the last
    separator before it and the separators that end the path. *)
Lemma basename_split (s : string) :
  exists dir trail,
    s = dir ++ basename s ++ trail /\
    count slash (basename s) = 0 /\
    all_slashes trail /\
    (dir = "" \/ exists d, dir = d ++ "/") /\
    (basename s = "" -> dir = "").
Proof.
  unfold basename.
  destruct (strip_split s) as (trail & Hs & Ht).
  destruct (afterLastSlash_split (stripTrailingSlashes s)) as (dir & Hu & Hd & Hc).
  exists dir, trail. repeat split; try assumption.
  - rewrite <- append_assoc, <- Hu. exact Hs.
  - intros E. rewrite E, append_nil_r in Hu.
    destruct Hd as [->|(d & ->)]; [reflexivity|].
    now apply strip_not_slash_ended in Hu.
Qed.

Lemma basename_no_slash (s : string) :
  count slash s = 0 -> basename s = s.
Proof.
  intros H. unfold basename. rewrite (strip_no_slash _ H).
  now apply afterLastSlash_no_slash.
Qed.

Lemma count_basename_le (c : ascii) (s : string) : count c (basename s) <= count c s.
Proof.
  destruct (basename_split s) as (dir & trail & H & _).
  rewrite H at 2. rewrite !count_append. lia.
Qed.

End StrFacts.

(** ** Path normaliser *)

Module NormalizerFacts.
Import Str StrFacts.

Lemma slice_past (p : string) (c : ascii) (r : string) :
  slice (S (String.length p)) (p ++ String c r) = r.
Proof. induction p as [|a p IH]; simpl; [now destruct r | exact IH]. Qed.

Lemma slice_shorter (n : nat) (s : string) :
  0 < n -> s <> "" -> slice n s <> s.
Proof.
  intros Hn Hs E. apply (f_equal String.length) in E.
  rewrite slice_length in E. destruct s as [|a t]; [contradiction|].
  change (String.length (String a t)) with (S (String.length t)) in E. lia.
Qed.

(** [lastIndexOf] finds the anchor: the slice kept starts right after the
    leading slash of its last occurrence. *)
Lemma anchor_found (c : ascii) (n s : string) :
  includes (String c n) s = true ->
  exists pre post,
    s = pre ++ String c n ++ post /\
    includes (String c n) (n ++ post) = false /\
    (0 <=? lastIndexOfZ (String c n) s)%Z = true /\
    (0 < Z.to_nat (lastIndexOfZ (String c n) s + 1)) /\
    slice (Z.to_nat (lastIndexOfZ (String c n) s + 1)) s = n ++ post.
Proof.
  intros H. unfold lastIndexOfZ.
  destruct (lastIndexOf (String c n) s) as [i|] eqn:E.
  - destruct (lastIndexOf_some _ _ _ _ E) as (pre & post & Hs & Hl & Hn).
    exists pre, post. repeat split; try assumption.
    + apply Z.leb_le. lia.
    + lia.
    + replace (Z.to_nat (Z.of_nat i + 1)) with (S (String.length pre)) by lia.
      rewrite Hs. apply slice_past.
  - apply lastIndexOf_none in E. congruence.
Qed.

Lemma anchor_absent (needle s : string) :
  includes needle s = false -> (0 <=? lastIndexOfZ needle s)%Z = false.
Proof.
  intros H. apply lastIndexOf_none in H. unfold lastIndexOfZ. now rewrite H.
Qed.

Lemma slashless_no_anchor (needle pre post s : string) :
  count slash s = 0 -> 0 < count slash needle -> s <> pre ++ needle ++ post.
Proof.
  intros Hs Hn ->. rewrite !count_append in Hs. lia.
Qed.

Lemma slashless_excludes (needle s : string) :
  count slash s = 0 -> 0 < count slash needle -> includes needle s = false.
Proof.
  intros Hs Hn. destruct (includes needle s) eqn:E; [|reflexivity].
  destruct (includes_inv _ _ E) as (pre & post & H).
  now apply slashless_no_anchor in H.
Qed.

Lemma slashless_not_under (root s : string) :
  count slash s = 0 -> startsWith (root ++ "/") s = false.
Proof.
  intros Hs. unfold startsWith. destruct (String.prefix (root ++ "/") s) eqn:E; [|reflexivity].
  destruct (prefix_inv _ _ E) as [r ->]. rewrite !count_append in Hs. simpl in Hs. lia.
Qed.

(** No backslash is left in a result. *)
Lemma normalize_output_clean (repoRoot : string) (p : option string) (q : string) :
  normalizeToRepoRel repoRoot p = Some q -> count backslash q = 0.
Proof.
  unfold normalizeToRepoRel. destruct p as [fp|]; [|discriminate].
  destruct (String.eqb fp ""); [discriminate|].
  pose proof (count_sepNormalize fp) as Hc. fold (sepNormalize fp) in Hc.
  destruct (startsWith _ _).
  { intros [= <-]. pose proof (count_slice_le backslash (String.length (rootNorm repoRoot) + 1) (sepNormalize fp)). lia. }
  destruct (0 <=? _)%Z.
  { intros [= <-]. pose proof (count_slice_le backslash (Z.to_nat (lastIndexOfZ "/src/" (sepNormalize fp) + 1)) (sepNormalize fp)). lia. }
  destruct (0 <=? _)%Z.
  { intros [= <-]. pose proof (count_slice_le backslash (Z.to_nat (lastIndexOfZ "/tests/" (sepNormalize fp) + 1)) (sepNormalize fp)). lia. }
  intros [= <-]. pose proof (count_basename_le backslash (sepNormalize fp)). lia.
Qed.

(** The paths that the normaliser leaves as they are: the bare, non-empty
    file names. *)
Lemma normalize_fixed_iff (repoRoot q : string) :
  count backslash q = 0 ->
  (normalizeToRepoRel repoRoot (Some q) = Some q <-> q <> "" /\ count slash q = 0).
Proof.
  intros Hb. unfold normalizeToRepoRel, sepNormalize.
  rewrite (replaceAll_absent _ _ _ Hb).
  destruct (String.eqb_spec q "") as [->|Hq].
  { split; [discriminate | intros [H _]; now elim H]. }
  split.
  - intros H. split; [exact Hq|]. revert H.
    destruct (startsWith _ q).
    { intros [= E]. apply slice_shorter in E; [contradiction | lia | exact Hq]. }
    destruct (includes "/src/" q) eqn:Es.
    { destruct (anchor_found _ _ _ Es) as (pre & post & _ & _ & -> & Hpos & _).
      intros [= E]. now apply slice_shorter in E. }
    rewrite (anchor_absent _ _ Es).
    destruct (includes "/tests/" q) eqn:Et.
    { destruct (anchor_found _ _ _ Et) as (pre & post & _ & _ & -> & Hpos & _).
      intros [= E]. now apply slice_shorter in E. }
    rewrite (anchor_absent _ _ Et).
    intros [= E]. destruct (basename_split q) as (_ & _ & _ & Hc & _).
    now rewrite E in Hc.
  - intros [_ Hs].
    rewrite (slashless_not_under _ _ Hs).
    rewrite (anchor_absent _ _ (slashless_excludes "/src/" _ Hs ltac:(simpl; lia))).
    rewrite (anchor_absent _ _ (slashless_excludes "/tests/" _ Hs ltac:(simpl; lia))).
    now rewrite (basename_no_slash _ Hs).
Qed.

End NormalizerFacts.

Example normalize_under_root :
  normalizeToRepoRel "C:\ci\repo\" (Some "C:\ci\repo\lib\a.js") = Some "lib/a.js".
Proof. reflexivity. Qed.

Example normalize_src_anchor :
  normalizeToRepoRel "/repo" (Some "/tmp/x/src/y/src/a.js") = Some "src/a.js".
Proof. reflexivity. Qed.

Example normalize_tests_anchor :
  normalizeToRepoRel "/repo" (Some "/ci/tests/a.test.js") = Some "tests/a.test.js".
Proof. reflexivity. Qed.

Example normalize_fallback :
  normalizeToRepoRel "/repo" (Some "/opt/lib/a.js/") = Some "a.js".
Proof. reflexivity. Qed.

(** C5: [normalizeToRepoRel] follows four ordered rules, the first that
    applies winning.  An empty or missing candidate gives [null].
    Otherwise, with [norm] the candidate with forward slashes and the root
    taken with forward slashes and without trailing slashes: (1) when
    [norm] starts with the root and a slash, the result is what follows
    them; (2) else, when [norm] contains [/src/], the result is [norm] from
    the last occurrence on, without its leading slash; (3) else the same
    with [/tests/]; (4) else the result is the final path component of
    [norm]: the slash-free text between the last separator before it and
    the separators that end the path. *)
Theorem normalize_rules (repoRoot : string) (candidatePath : option string) :
  (falsyPath candidatePath = true ->
   normalizeToRepoRel repoRoot candidatePath = None) /\
  (forall p : string, candidatePath = Some p -> p <> "" ->
   let norm := sepNormalize p in
   let anchor := rootNorm repoRoot ++ "/" in
   let result := normalizeToRepoRel repoRoot candidatePath in
   (forall rest, norm = anchor ++ rest -> result = Some rest) /\
   (Str.startsWith anchor norm = false ->
    (Str.includes "/src/" norm = true ->
     exists pre post,
       norm = pre ++ "/src/" ++ post /\
       Str.includes "/src/" ("src/" ++ post) = false /\
       result = Some ("src/" ++ post)) /\
    (Str.includes "/src/" norm = false ->
     (Str.includes "/tests/" norm = true ->
      exists pre post,
        norm = pre ++ "/tests/" ++ post /\
        Str.includes "/tests/" ("tests/" ++ post) = false /\
        result = Some ("tests/" ++ post)) /\
     (Str.includes "/tests/" norm = false ->
      exists dir base trail,
        norm = dir ++ base ++ trail /\
        Str.count Str.slash base = 0 /\
        Str.all_slashes trail /\
        (dir = "" \/ exists d, dir = d ++ "/") /\
        (base = "" -> dir = "") /\
        result = Some base)))).
Proof.
  split.
  - destruct candidatePath as [p|]; [|reflexivity].
    simpl. intros H. unfold normalizeToRepoRel. now rewrite H.
  - intros p -> Hp norm anchor result.
    subst result. unfold normalizeToRepoRel.
    apply String.eqb_neq in Hp. rewrite Hp. fold norm. fold anchor.
    split.
    + intros rest Hn. rewrite Hn. unfold Str.startsWith.
      rewrite StrFacts.prefix_append. f_equal.
      replace (String.length (rootNorm repoRoot) + 1) with (String.length anchor)
        by (unfold anchor; rewrite StrFacts.length_append; reflexivity).
      apply StrFacts.slice_append.
    + intros Hs. rewrite Hs. split.
      * intros Hi.
        destruct (NormalizerFacts.anchor_found _ _ _ Hi)
          as (pre & post & H1 & H2 & H3 & _ & H4).
        exists pre, post. rewrite H3, H4. auto.
      * intros Hi. rewrite (NormalizerFacts.anchor_absent _ _ Hi). split.
        -- intros Ht.
           destruct (NormalizerFacts.anchor_found _ _ _ Ht)
             as (pre & post & H1 & H2 & H3 & _ & H4).
           exists pre, post. rewrite H3, H4. auto.
        -- intros Ht. rewrite (NormalizerFacts.anchor_absent _ _ Ht).
           destruct (StrFacts.basename_split norm) as (dir & trail & H1 & H2 & H3 & H4 & H5).
           exists dir, (Str.basename norm), trail. auto 10.
Qed.

(** The four rules and the null result, each at one input. *)
Lemma normalize_rules_witness :
  normalizeToRepoRel "/repo/" None = None /\
  normalizeToRepoRel "/repo/" (Some "/repo/lib/a.js") = Some "lib/a.js" /\
  (exists pre post,
     sepNormalize "D:\tmp\src\x\src\a.js" = pre ++ "/src/" ++ post /\
     Str.includes "/src/" ("src/" ++ post) = false /\
     normalizeToRepoRel "/repo/" (Some "D:\tmp\src\x\src\a.js") = Some ("src/" ++ post)).
Proof.
  split; [|split].
  - apply (proj1 (normalize_rules "/repo/" None)). reflexivity.
  - apply (proj2 (normalize_rules "/repo/" (Some "/repo/lib/a.js")) "/repo/lib/a.js" eq_refl).
    + discriminate.
    + reflexivity.
  - apply (proj2 (normalize_rules "/repo/" (Some "D:\tmp\src\x\src\a.js")) _ eq_refl).
    + discriminate.
    + reflexivity.
    + reflexivity.
Defined.

(** C6 as stated fails: a result that still holds a separator is reduced
    again when it is normalised a second time. *)
Lemma normalize_not_idempotent :
  normalizeToRepoRel "/repo" (Some "/repo/src/a.js") = Some "src/a.js" /\
  normalizeToRepoRel "/repo" (normalizeToRepoRel "/repo" (Some "/repo/src/a.js"))
    = Some "a.js" /\
  normalizeToRepoRel "/repo" (normalizeToRepoRel "/repo" (Some "/repo/src/a.js"))
    <> normalizeToRepoRel "/repo" (Some "/repo/src/a.js").
Proof. repeat split. discriminate. Qed.

(** C6, amended: normalising a result again returns it unchanged exactly
    when the result is null or a non-empty name without a slash. *)
Theorem normalize_idempotent_iff (repoRoot : string) (p : option string) :
  normalizeToRepoRel repoRoot (normalizeToRepoRel repoRoot p)
    = normalizeToRepoRel repoRoot p
  <->
  match normalizeToRepoRel repoRoot p with
  | None => True
  | Some q => q <> "" /\ Str.count Str.slash q = 0
  end.
Proof.
  destruct (normalizeToRepoRel repoRoot p) as [q|] eqn:E.
  - apply NormalizerFacts.normalize_fixed_iff.
    exact (NormalizerFacts.normalize_output_clean _ _ _ E).
  - split; [trivial | reflexivity].
Qed.

(** ** LCOV trace parser *)

Section LcovFacts.

Context {RT : JsRuntime}.

Lemma data_line_not_source (raw : string) :
  Str.startsWith "DA:" raw = true -> Str.startsWith "SF:" raw = false.
Proof.
  unfold Str.startsWith. destruct raw as [|a t]; [discriminate|].
  rewrite !StrFacts.prefix_cons.
  destruct (Ascii.eqb_spec "D" a) as [<-|]; [reflexivity | discriminate].
Qed.

Lemma data_line_not_marker (raw : string) :
  Str.startsWith "DA:" raw = true -> String.eqb raw "end_of_record" = false.
Proof.
  unfold Str.startsWith. destruct raw as [|a t]; [discriminate|].
  rewrite StrFacts.prefix_cons.
  destruct (Ascii.eqb_spec "D" a) as [<-|]; [reflexivity | discriminate].
Qed.

(** A data line whose numbers are not both finite changes nothing,
    whatever the state of the loop. *)
Lemma lcovStep_malformed (repoRoot : string) (st : LcovState) (raw : string) :
  Str.startsWith "DA:" raw = true ->
  isFinite (daLineNo raw) && isFinite (daHits raw) = false ->
  lcovStep repoRoot st raw = st.
Proof.
  intros Hd Hm. unfold lcovStep.
  rewrite (data_line_not_source _ Hd), Hd, (data_line_not_marker _ Hd).
  assert (Hp : parseDA raw = None).
  { unfold parseDA. destruct (daLineNo raw), (daHits raw); try reflexivity.
    discriminate. }
  rewrite Hp. destruct (truthyFile (currentFile st)), (currentLines st); reflexivity.
Qed.

(** A data line met while no inner map is referenced changes nothing. *)
Lemma lcovStep_orphan (repoRoot : string) (st : LcovState) (raw : string) :
  Str.startsWith "DA:" raw = true ->
  currentLines st = None ->
  lcovStep repoRoot st raw = st.
Proof.
  intros Hd Hc. unfold lcovStep.
  rewrite (data_line_not_source _ Hd), Hd, (data_line_not_marker _ Hd), Hc.
  destruct (truthyFile (currentFile st)); reflexivity.
Qed.

Lemma parseLcovLines_malformed (repoRoot : string) (before after : list string)
    (bad : string) :
  Str.startsWith "DA:" bad = true ->
  isFinite (daLineNo bad) && isFinite (daHits bad) = false ->
  parseLcovLines repoRoot (before ++ bad :: after)
    = parseLcovLines repoRoot (before ++ after).
Proof.
  intros Hd Hm. unfold parseLcovLines.
  rewrite !fold_left_app. simpl. now rewrite lcovStep_malformed.
Qed.

Lemma fold_dropOrphans (repoRoot : string) (lines : list string) :
  forall (st : LcovState) (sectionOpen : bool),
    (sectionOpen = false -> currentLines st = None) ->
    fold_left (lcovStep repoRoot) (dropOrphans sectionOpen lines) st
      = fold_left (lcovStep repoRoot) lines st.
Proof.
  induction lines as [|raw rest IH]; intros st sectionOpen Hinv; [reflexivity|].
  cbn [dropOrphans].
  destruct (Str.startsWith "SF:" raw) eqn:Hsf.
  { cbn [fold_left]. apply IH. discriminate. }
  destruct (Str.startsWith "DA:" raw) eqn:Hda.
  { destruct sectionOpen.
    - cbn [fold_left]. apply IH. discriminate.
    - cbn [fold_left]. rewrite (lcovStep_orphan _ _ _ Hda (Hinv eq_refl)).
      now apply IH. }
  destruct (String.eqb raw "end_of_record") eqn:He.
  { cbn [fold_left]. apply IH. intros _.
    unfold lcovStep. rewrite Hsf, Hda, He. reflexivity. }
  cbn [fold_left].
  assert (Hst : lcovStep repoRoot st raw = st).
  { unfold lcovStep. rewrite Hsf, Hda, He. reflexivity. }
  rewrite Hst. now apply IH.
Qed.

Lemma parseLcovLines_orphans (repoRoot : string) (lines : list string) :
  parseLcovLines repoRoot (dropOrphans false lines) = parseLcovLines repoRoot lines.
Proof.
  unfold parseLcovLines. now rewrite fold_dropOrphans.
Qed.

(** C3: a line-data record whose line number or hit count is not a
    finite number is skipped: the trace [text] that holds it among its
    lines, and the trace [text'] that is the same without it, are parsed to
    the same mapping. *)
Theorem parseLcov_skips_malformed (repoRoot text text' : string)
    (before after : list string) (bad : string) :
  Str.startsWith "DA:" bad = true ->
  isFinite (daLineNo bad) && isFinite (daHits bad) = false ->
  splitLines text = (before ++ bad :: after)%list ->
  splitLines text' = (before ++ after)%list ->
  parseLcov text repoRoot = parseLcov text' repoRoot.
Proof.
  intros Hd Hm Ht Ht'. unfold parseLcov. rewrite Ht, Ht'.
  now apply parseLcovLines_malformed.
Qed.

(** C10: the line-data records that stand where no file section is open
    contribute nothing: the trace [text'] whose lines are those of [text]
    without these records is parsed to the same mapping. *)
Theorem parseLcov_ignores_orphans (repoRoot text text' : string) :
  splitLines text' = dropOrphans false (splitLines text) ->
  parseLcov text' repoRoot = parseLcov text repoRoot.
Proof.
  intros H. unfold parseLcov. rewrite H. apply parseLcovLines_orphans.
Qed.

End LcovFacts.


Example parseLcov_trace :
  parseLcov (RT := RefRuntime.runtime) LcovExamples.trace "/repo"
  = [(Some "src/a.js", [(1, 1); (2, 0); (3, 3)]%Q); (Some "src/b.js", [(1, 4)]%Q)].
Proof. reflexivity. Qed.

Lemma parseLcov_skips_malformed_witness :
  parseLcov (RT := RefRuntime.runtime) LcovExamples.trace "/repo"
  = parseLcov (RT := RefRuntime.runtime) LcovExamples.traceWithout "/repo".
Proof.
  apply (parseLcov_skips_malformed (RT := RefRuntime.runtime) "/repo" _ _
           ["TN:"; "SF:/repo/src/a.js"; "DA:1,1"]
           ["DA:2,0"; "DA:3,3"; "end_of_record"; "SF:/repo/src/b.js"; "DA:1,4";
            "end_of_record"]
           "DA:x,7"); reflexivity.
Defined.

Lemma parseLcov_ignores_orphans_witness :
  parseLcov (RT := RefRuntime.runtime) LcovExamples.orphanedWithout "/repo"
  = parseLcov (RT := RefRuntime.runtime) LcovExamples.orphaned "/repo".
Proof.
  apply (parseLcov_ignores_orphans (RT := RefRuntime.runtime)). reflexivity.
Defined.

(** ** Per-line classification *)

Module ClassFacts.

Lemma get_in {V : Type} (k : Q) (m : list (Q * V)) (v : V) :
  JsMap.get numKeyEq k m = Some v -> exists k', In (k', v) m.
Proof.
  induction m as [|[k' v'] r IH]; simpl; [discriminate|].
  destruct (numKeyEq k k').
  - intros [= ->]. exists k'. now left.
  - intros H. destruct (IH H) as [k'' Hin]. exists k''. now right.
Qed.

Lemma recorded_nonneg (f : FileRec) (n h : Q) :
  hitsNonNegative f -> recorded f n = Some h -> (0 <= h)%Q.
Proof.
  unfold hitsNonNegative, recorded. intros Hnn.
  destruct (lineHits f) as [m|]; [|discriminate].
  intros H. destruct (get_in _ _ _ H) as [k Hin].
  specialize (Hnn m eq_refl). rewrite Forall_forall in Hnn.
  exact (Hnn _ Hin).
Qed.

Lemma hitsAt_recorded (f : FileRec) (n : Q) :
  hitsAt f n = match recorded f n with Some h => h | None => 0%Q end.
Proof. unfold hitsAt, recorded. destruct (lineHits f); reflexivity. Qed.

Lemma isCovered_true (f : FileRec) (n : Q) :
  isCovered f n = true <-> exists h, recorded f n = Some h /\ (0 < h)%Q.
Proof.
  unfold isCovered. rewrite hitsAt_recorded, negb_true_iff.
  destruct (recorded f n) as [h|].
  - split.
    + intros H. exists h. split; [reflexivity|].
      apply Qnot_le_lt. intros Hle. apply Qle_bool_iff in Hle. congruence.
    + intros (h' & [= <-] & Hlt).
      destruct (Qle_bool h 0) eqn:E; [|reflexivity].
      apply Qle_bool_iff in E. now apply Qlt_not_le in Hlt.
  - split; [discriminate | intros (h & H & _); discriminate].
Qed.

Lemma isCovered_false (f : FileRec) (n : Q) :
  isCovered f n = false <-> withoutHits f n.
Proof.
  unfold withoutHits. split.
  - intros H. destruct (recorded f n) as [h|] eqn:E; [|now left].
    right. exists h. split; [reflexivity|].
    apply Qnot_lt_le. intros Hlt.
    assert (isCovered f n = true) by (apply isCovered_true; eauto).
    congruence.
  - intros H. destruct (isCovered f n) eqn:E; [|reflexivity].
    apply isCovered_true in E as (h & Hr & Hlt).
    destruct H as [H|(h' & H & Hz)]; rewrite Hr in H; [discriminate|].
    injection H as <-. exfalso. exact (Qlt_not_le _ _ Hlt Hz).
Qed.

(** Under the invariant of the data model, a count that is not positive
    is 0. *)
Lemma withoutHits_uncovered (f : FileRec) (n : Q) :
  hitsNonNegative f -> (withoutHits f n <-> uncovered f n).
Proof.
  intros Hnn. unfold withoutHits, uncovered.
  split; (intros [H|(h & H & Hz)]; [now left|]); right; exists h;
    (split; [exact H|]).
  - apply Qle_antisym; [exact Hz | exact (recorded_nonneg _ _ _ Hnn H)].
  - apply Qle_lteq. now right.
Qed.

(** [failingLines.has] finds the elements of the set. *)
Lemma inFailing_iff (f : FileRec) (n : Q) :
  inFailing f n = true <-> inFailingLines f n.
Proof.
  unfold inFailing, inFailingLines. destruct (failingLines f) as [s|].
  - rewrite existsb_exists. split.
    + intros (x & Hin & Hx). exists s, x. repeat split; [exact Hin|].
      unfold numKeyEq in Hx. apply Qeq_bool_iff in Hx. now symmetry.
    + intros (s' & x & [= <-] & Hin & Hx). exists x. split; [exact Hin|].
      unfold numKeyEq. apply Qeq_bool_iff. now symmetry.
  - split; [discriminate | intros (s & x & H & _); discriminate].
Qed.

Lemma inFailing_false_iff (f : FileRec) (n : Q) :
  inFailing f n = false <-> ~ inFailingLines f n.
Proof. rewrite <- inFailing_iff. symmetry. apply not_true_iff_false. Qed.

(** The class is decided by the two conditions alone. *)
Lemma lineClass_cases (f : FileRec) (n : Q) :
  (isCovered f n = false /\ lineClass f n = "uncovered"
     /\ lineIndicator f n = "❌") \/
  (isCovered f n = true /\ inFailing f n = true /\ lineClass f n = "covered-fail"
     /\ lineIndicator f n = "⚠️") \/
  (isCovered f n = true /\ inFailing f n = false /\ lineClass f n = "covered-pass"
     /\ lineIndicator f n = "✅").
Proof.
  unfold lineClass, lineIndicator, isFail.
  destruct (isCovered f n), (inFailing f n); simpl; auto 10.
Qed.

End ClassFacts.

(** C1: for any record and any line number, the class the renderers
    give to the line is [uncovered] exactly when the line has no recorded
    hit count or a count that is not positive, [covered-fail] exactly when
    the count is positive and the line number is an element of
    [failingLines], [covered-pass] exactly when the count is positive and
    the line number is not an element of [failingLines]; exactly one of the
    three cases holds; the indicator of the capped views follows the same
    three cases; and when no hit count of the record is negative, the first
    case is the one the data model words: no recorded count, or 0. *)
Theorem line_status_partition (f : FileRec) (n : Q) :
  (lineClass f n = "uncovered" <-> withoutHits f n) /\
  (lineClass f n = "covered-fail" <-> coveredFailing f n) /\
  (lineClass f n = "covered-pass" <-> coveredPassing f n) /\
  exactlyOne (withoutHits f n) (coveredPassing f n) (coveredFailing f n) /\
  (lineIndicator f n = "❌" <-> withoutHits f n) /\
  (lineIndicator f n = "⚠️" <-> coveredFailing f n) /\
  (lineIndicator f n = "✅" <-> coveredPassing f n) /\
  (hitsNonNegative f -> (withoutHits f n <-> uncovered f n)).
Proof.
  assert (HU : isCovered f n = false <-> withoutHits f n)
    by apply ClassFacts.isCovered_false.
  assert (HF : isCovered f n = true /\ inFailing f n = true <-> coveredFailing f n).
  { unfold coveredFailing.
    rewrite ClassFacts.isCovered_true, ClassFacts.inFailing_iff. split.
    - intros ((h & Hr & Hl) & Hf). eauto.
    - intros (h & Hr & Hl & Hf). eauto. }
  assert (HP : isCovered f n = true /\ inFailing f n = false <-> coveredPassing f n).
  { unfold coveredPassing.
    rewrite ClassFacts.isCovered_true, ClassFacts.inFailing_false_iff. split.
    - intros ((h & Hr & Hl) & Hf). eauto.
    - intros (h & Hr & Hl & Hf). eauto. }
  assert (HN : hitsNonNegative f -> (withoutHits f n <-> uncovered f n))
    by apply ClassFacts.withoutHits_uncovered.
  revert HN. generalize (uncovered f n) as u. intros u HN.
  unfold exactlyOne. rewrite <- HU, <- HF, <- HP in *.
  destruct (ClassFacts.lineClass_cases f n)
    as [(Hc & -> & ->)|[(Hc & Hf & -> & ->)|(Hc & Hf & -> & ->)]];
    rewrite Hc in *; try rewrite Hf in *;
    repeat split; try tauto; try discriminate; try (intros [? ?]; discriminate);
    intuition discriminate.
Qed.

(** The claim as worded fails on a record that the parser builds: a trace
    may hold a negative count, which is stored; the line is then classed
    [uncovered], while its count is recorded and is not 0, so that none of
    the three statuses of the data model holds. *)
Lemma line_status_not_partition :
  parseLcov (RT := RefRuntime.runtime) ClassExamples.negativeTrace "/repo"
  = [(Some "src/a.js", [(1, -1)]%Q)] /\
  lineClass ClassExamples.negativeHits (lineNoOf 0) = "uncovered" /\
  ~ uncovered ClassExamples.negativeHits (lineNoOf 0) /\
  ~ coveredPassing ClassExamples.negativeHits (lineNoOf 0) /\
  ~ coveredFailing ClassExamples.negativeHits (lineNoOf 0).
Proof.
  split; [reflexivity|]. split; [reflexivity|].
  assert (R : recorded ClassExamples.negativeHits (lineNoOf 0) = Some (-1)%Q)
    by reflexivity.
  repeat split.
  - intros [H|(h & H & Hz)]; rewrite R in H; [discriminate|].
    injection H as <-. discriminate Hz.
  - intros (h & H & Hlt & _). rewrite R in H. injection H as <-. discriminate Hlt.
  - intros (h & H & Hlt & _). rewrite R in H. injection H as <-. discriminate Hlt.
Qed.

Example scenario_classes :
  map (fun i => lineClass ClassExamples.scenario (lineNoOf i)) [0; 1; 2]
  = ["covered-pass"; "uncovered"; "covered-fail"].
Proof. reflexivity. Qed.

Lemma line_status_partition_witness :
  coveredFailing ClassExamples.scenario (lineNoOf 2) /\
  withoutHits ClassExamples.scenario (lineNoOf 1).
Proof.
  split.
  - exact (proj1 (proj1 (proj2 (line_status_partition
                                  ClassExamples.scenario (lineNoOf 2)))) eq_refl).
  - exact (proj1 (proj1 (line_status_partition
                           ClassExamples.scenario (lineNoOf 1))) eq_refl).
Defined.

(** ** Quality gate *)

Section GateFacts.

Context {RT : JsRuntime}.

Lemma asNumber_finite (v : JsVal) (d : Q) (n : JsNumber) :
  asNumber v (Finite d) = Some n -> exists q, n = Finite q.
Proof.
  unfold asNumber. destruct (Number v) as [m|]; [|discriminate].
  intros [= <-]. destruct m; simpl; eauto.
Qed.

Lemma asNumber_defined (v : JsVal) (d n : JsNumber) :
  Number v = Some n -> exists m, asNumber v d = Some m.
Proof. unfold asNumber. intros ->. eauto. Qed.

(** The configured threshold is always a finite number. *)
Lemma thresholdOf_finite (input : string) :
  exists q, thresholdOf input = Some (Finite q).
Proof.
  unfold thresholdOf, asNumber. simpl.
  destruct (StringToNumber input); simpl; eauto.
Qed.

(** C2: the quality gate computed from the total line-coverage percentage
    and the threshold is defined as soon as the percentage converts to a
    number; its value is then finite, its status is [PASS] exactly when the
    value is at least the threshold and [FAIL] otherwise, and the summary
    renderers and the action outputs compute the same verdict.  With
    threshold 80, the value 80 gives [PASS] and the value 79.99 gives
    [FAIL]. *)
Theorem qualityGate_status (metrics : Metrics) (thr : Q) :
  (forall p n, getProp (lines metrics) "pct" = Some p -> Number p = Some n ->
     exists g, qualityGate metrics (Finite thr) = Some g) /\
  (forall g, qualityGate metrics (Finite thr) = Some g ->
     metric g = "lines" /\ threshold g = Finite thr /\
     linePct metrics = Some (value g) /\
     gateOf metrics (Finite thr) = Some (status g) /\
     exists v, value g = Finite v /\
       (status g = "PASS" <-> (thr <= v)%Q) /\
       (status g = "FAIL" <-> ~ (thr <= v)%Q)) /\
  option_map status (qualityGate (GateExamples.withLinePct 80) (Finite 80))
    = Some "PASS" /\
  option_map status (qualityGate (GateExamples.withLinePct (7999 # 100)) (Finite 80))
    = Some "FAIL".
Proof.
  split; [|split; [|split; reflexivity]];
    unfold qualityGate, gateOf, linePct, obind.
  - intros p n -> Hn. destruct (asNumber_defined p (Finite 0) n Hn) as [m ->]. eauto.
  - intros g. destruct (getProp (lines metrics) "pct") as [p|]; [|discriminate].
    destruct (asNumber p (Finite 0)) as [n|] eqn:E; [|discriminate].
    intros [= <-]. simpl. destruct (asNumber_finite _ _ _ E) as [v ->].
    repeat split. exists v. split; [reflexivity|]. simpl.
    destruct (Qle_bool thr v) eqn:L.
    + apply Qle_bool_iff in L. repeat split; try tauto; try discriminate.
    + assert (~ (thr <= v)%Q) by (intros H; apply Qle_bool_iff in H; congruence).
      repeat split; try tauto; discriminate.
Qed.

End GateFacts.


Lemma qualityGate_status_witness :
  exists g,
    qualityGate (RT := RefRuntime.runtime) (GateExamples.withLinePct (7999 # 100))
      (Finite 80) = Some g.
Proof.
  exact (proj1 (qualityGate_status (RT := RefRuntime.runtime)
                  (GateExamples.withLinePct (7999 # 100)) 80)
           (VNum (Finite (7999 # 100))) (Finite (7999 # 100)) eq_refl eq_refl).
Defined.

(** ** Coverage summary reader *)

Section SummaryFacts.

Context {RT : JsRuntime}.

Lemma getProp_emptyObject (k : string) : getProp emptyObject k = Some VUndefined.
Proof. reflexivity. Qed.

Lemma getProp_object (fields : list (string * JsVal)) (k : string) :
  getProp (VObj fields) k
  = Some (match lookupField k fields with Some x => x | None => VUndefined end).
Proof. simpl. now destruct (lookupField k fields). Qed.

(** With an object under [total], the reader returns each entry, or the
    empty object where the entry is missing or falsy. *)
Lemma readCoverageSummary_object (raw : JsVal) (fields : list (string * JsVal)) :
  getProp raw "total" = Some (VObj fields) ->
  readCoverageSummary raw
  = Some (mkMetrics
      (jsOr (match lookupField "lines" fields with Some x => x | None => VUndefined end)
            emptyObject)
      (jsOr (match lookupField "branches" fields with Some x => x | None => VUndefined end)
            emptyObject)
      (jsOr (match lookupField "functions" fields with Some x => x | None => VUndefined end)
            emptyObject)
      (jsOr (match lookupField "statements" fields with Some x => x | None => VUndefined end)
            emptyObject)).
Proof.
  intros Ht. unfold readCoverageSummary. rewrite Ht. unfold obind at 1.
  change (jsOr (VObj fields) emptyObject) with (VObj fields).
  now rewrite !getProp_object.
Qed.

(** C7, amended: when the [total] record lacks one of the four metric
    entries, the metric returned for it is the empty object, which holds
    no [covered], [total] or [pct]; it is where the metric is read that
    zero is substituted: the percentage through [asNumber(., 0)] and the
    two counts through [?? 0], so that the table row shows the zeros. *)
Theorem readCoverageSummary_missing_metric (raw : JsVal)
    (fields : list (string * JsVal)) (k : MetricName) :
  getProp raw "total" = Some (VObj fields) ->
  lookupField (metricKey k) fields = None ->
  exists m,
    readCoverageSummary raw = Some m /\
    metricOf k m = emptyObject /\
    getProp (metricOf k m) "covered" = Some VUndefined /\
    getProp (metricOf k m) "total" = Some VUndefined /\
    getProp (metricOf k m) "pct" = Some VUndefined /\
    asNumber VUndefined (Finite 0) = Some (Finite 0) /\
    nullish VUndefined (VNum (Finite 0)) = VNum (Finite 0) /\
    metricCells (metricOf k m)
      = Some (mkMetricCells (toFixed2 0) (NumberToString (Finite 0))
                            (NumberToString (Finite 0))).
Proof.
  intros Ht Hk. rewrite (readCoverageSummary_object _ _ Ht).
  eexists. split; [reflexivity|].
  destruct k; simpl in Hk; simpl metricOf; rewrite Hk; repeat split; reflexivity.
Qed.

End SummaryFacts.


(** C7 as stated fails: the metric returned for a missing entry is not an
    all-zero metric; its three fields are absent. *)
Lemma readCoverageSummary_missing_not_zero :
  exists m,
    readCoverageSummary SummaryExamples.noLines = Some m /\
    lines m = emptyObject /\
    getProp (lines m) "covered" = Some VUndefined /\
    ~ allZeroMetric (lines m).
Proof.
  eexists. split; [reflexivity|]. simpl. repeat split.
  intros (H & _). discriminate H.
Qed.

Lemma readCoverageSummary_missing_metric_witness :
  exists m,
    readCoverageSummary SummaryExamples.noLines = Some m /\
    metricOf Lines m = emptyObject /\
    linePct (RT := RefRuntime.runtime) m = Some (Finite 0).
Proof.
  destruct (readCoverageSummary_missing_metric (RT := RefRuntime.runtime)
              SummaryExamples.noLines _ Lines eq_refl eq_refl)
    as (m & Hm & He & _).
  exists m. repeat split; [exact Hm | exact He |].
  unfold linePct. simpl in He. rewrite He. reflexivity.
Defined.

(** ** Comment synchroniser *)

Module PrCommentFacts.
Import PrComment.

Lemma nodup_ids_inj (cs : list Comment) (x y : Comment) :
  NoDup (map id cs) -> In x cs -> In y cs -> id x = id y -> x = y.
Proof.
  induction cs as [|c cs IH]; simpl; [contradiction|].
  intros Hnd Hx Hy E. inversion Hnd as [|? ? Hnotin Hnd']; subst.
  destruct Hx as [->|Hx], Hy as [->|Hy]; try reflexivity.
  - elim Hnotin. rewrite E. now apply in_map.
  - elim Hnotin. rewrite <- E. now apply in_map.
  - now apply IH.
Qed.

Lemma filter_singleton_in {A : Type} (p : A -> bool) (l : list A) (c x : A) :
  filter p l = [c] -> In x l -> p x = true -> x = c.
Proof.
  intros Hf Hx Hp.
  assert (H : In x (filter p l)) by (apply filter_In; auto).
  rewrite Hf in H. destruct H as [H|[]]. now symmetry.
Qed.

Lemma filter_nil_none {A : Type} (p : A -> bool) (l : list A) (x : A) :
  filter p l = [] -> In x l -> p x = false.
Proof.
  intros Hf Hx. destruct (p x) eqn:E; [|reflexivity].
  assert (H : In x (filter p l)) by (apply filter_In; auto).
  rewrite Hf in H. destruct H.
Qed.

Lemma in_firstn {A : Type} (n : nat) (l : list A) (x : A) :
  In x (firstn n l) -> In x l.
Proof.
  intros H. rewrite <- (firstn_skipn n l). apply in_or_app. now left.
Qed.

Lemma find_none_of_filter {A : Type} (p : A -> bool) (n : nat) (l : list A) :
  filter p l = [] -> find p (firstn n l) = None.
Proof.
  intros Hf. destruct (find p (firstn n l)) as [x|] eqn:E; [|reflexivity].
  apply find_some in E as [Hin Hp]. apply in_firstn in Hin.
  rewrite (filter_nil_none _ _ _ Hf Hin) in Hp. discriminate.
Qed.

Lemma find_of_singleton {A : Type} (p : A -> bool) (n : nat) (l : list A) (c : A) :
  filter p l = [c] -> In c (firstn n l) -> find p (firstn n l) = Some c.
Proof.
  intros Hf Hin.
  assert (Hp : p c = true).
  { assert (H : In c (filter p l)) by (rewrite Hf; now left).
    now apply filter_In in H. }
  destruct (find p (firstn n l)) as [x|] eqn:E.
  - apply find_some in E as [Hx Hpx]. apply in_firstn in Hx.
    now rewrite (filter_singleton_in _ _ _ _ Hf Hx Hpx).
  - now rewrite (find_none _ _ E _ Hin) in Hp.
Qed.

Lemma existsb_hasId (cs : list Comment) (c : Comment) :
  In c cs -> existsb (hasId (id c)) cs = true.
Proof.
  intros H. apply existsb_exists. exists c. split; [exact H|].
  unfold hasId. apply Z.eqb_refl.
Qed.

Lemma isMarked_created (marker b : string) (i : Z) :
  Str.includes marker b = true -> isMarked marker (mkComment i (VStr b)) = true.
Proof. now intros H. Qed.

(** Creation keeps the remote state well formed. *)
Lemma wellFormed_create (b : string) (r : Remote) :
  wellFormed r -> wellFormed (apiCreate b r).
Proof.
  intros [Hnd Hlt]. unfold wellFormed, apiCreate. simpl. split.
  - rewrite map_app. simpl. apply NoDup_app; [exact Hnd | repeat constructor; intros [] | ].
    intros x Hx [<-|[]]. apply in_map_iff in Hx as (c & Hc & Hin).
    rewrite Forall_forall in Hlt. specialize (Hlt _ Hin). lia.
  - apply Forall_app. split.
    + eapply Forall_impl; [|exact Hlt]. simpl. intros. lia.
    + repeat constructor. simpl. lia.
Qed.

(** What the edit of comment [c] does to the list: [c] gets the new body
    and every other comment stays. *)
Section Edit.

Variables (marker b : string) (cs : list Comment) (c : Comment).
Hypothesis Hnd : NoDup (map id cs).
Hypothesis Hin : In c cs.
Hypothesis Hmarked : isMarked marker c = true.
Hypothesis Hbody : Str.includes marker b = true.

Lemma edited_target : edited (id c) b c = mkComment (id c) (VStr b).
Proof. unfold edited, hasId. now rewrite Z.eqb_refl. Qed.

Lemma edited_keeps_id (x : Comment) : id (edited (id c) b x) = id x.
Proof. unfold edited. now destruct (hasId (id c) x). Qed.

Lemma edited_keeps_mark (x : Comment) :
  In x cs -> isMarked marker (edited (id c) b x) = isMarked marker x.
Proof.
  intros Hx. unfold edited. destruct (hasId (id c) x) eqn:E; [|reflexivity].
  unfold hasId in E. apply Z.eqb_eq in E.
  rewrite (nodup_ids_inj cs x c Hnd Hx Hin E), Hmarked.
  now apply isMarked_created.
Qed.

Lemma filter_edited (l : list Comment) :
  incl l cs ->
  filter (isMarked marker) (map (edited (id c) b) l)
  = map (edited (id c) b) (filter (isMarked marker) l).
Proof.
  induction l as [|x l IH]; intros Hl; [reflexivity|].
  simpl. rewrite edited_keeps_mark by (apply Hl; now left).
  rewrite IH by (intros y Hy; apply Hl; now right).
  now destruct (isMarked marker x).
Qed.

End Edit.


(** An [UPDATE] run on a page that shows no marked comment, while none
    exists and the page has room, creates the comment. *)
Lemma update_creates (marker b : string) (r : Remote) :
  wellFormed r -> Str.includes marker b = true ->
  marked marker r = [] -> List.length (comments r) < per_page ->
  exists r', upsertPrComment "UPDATE" marker b r = Some r' /\ settled marker b r'.
Proof.
  intros Hwf Hb Hm Hlen. unfold upsertPrComment, apiList.
  rewrite (find_none_of_filter _ _ _ Hm).
  eexists. split; [reflexivity|]. split; [now apply wellFormed_create|].
  exists (mkComment (nextId r) (VStr b)). unfold marked, apiList, apiCreate.
  cbn [comments nextId]. unfold marked in Hm. rewrite filter_app, Hm.
  cbn [filter app]. rewrite (isMarked_created _ _ _ Hb). repeat split.
  rewrite firstn_all2 by (rewrite length_app; cbn [List.length]; lia).
  apply in_or_app. right. now left.
Qed.

(** An [UPDATE] run that finds the one marked comment edits it in place. *)
Lemma update_edits (marker b : string) (r : Remote) (c : Comment) :
  wellFormed r -> Str.includes marker b = true ->
  marked marker r = [c] -> In c (apiList r) ->
  exists r', upsertPrComment "UPDATE" marker b r = Some r' /\ settled marker b r' /\
             marked marker r' = [mkComment (id c) (VStr b)].
Proof.
  intros [Hnd Hlt] Hb Hm Hin. unfold upsertPrComment.
  unfold apiList in *. rewrite (find_of_singleton _ _ _ _ Hm Hin).
  change (String.eqb "UPDATE" "ADD") with false.
  change (String.eqb "UPDATE" "REMOVE") with false. cbv iota.
  assert (Hc : In c (comments r)) by now apply in_firstn in Hin.
  assert (Hmc : isMarked marker c = true).
  { assert (H : In c (marked marker r)) by (rewrite Hm; now left).
    now apply filter_In in H. }
  unfold apiUpdate. rewrite (existsb_hasId _ _ Hc).
  eexists. split; [reflexivity|].
  assert (Hmk : marked marker
                  (mkRemote (map (edited (id c) b) (comments r)) (nextId r))
                = [mkComment (id c) (VStr b)]).
  { unfold marked. cbn [comments].
    rewrite (filter_edited marker b (comments r) c Hnd Hc Hmc Hb) by apply incl_refl.
    unfold marked in Hm. rewrite Hm. cbn [map]. now rewrite edited_target. }
  split; [|exact Hmk]. split.
  - unfold wellFormed. cbn [comments nextId]. rewrite map_map.
    rewrite (map_ext _ id) by (intros x; apply edited_keeps_id).
    split; [exact Hnd|]. apply Forall_map. eapply Forall_impl; [|exact Hlt].
    intros x Hx. now rewrite edited_keeps_id.
  - exists (mkComment (id c) (VStr b)). split; [exact Hmk|]. split; [|reflexivity].
    unfold apiList. cbn [comments]. rewrite firstn_map.
    apply in_map_iff. exists c. split; [apply edited_target | exact Hin].
Qed.

(** The list after a [REMOVE] run that found the marked comment [old]. *)
Lemma remove_replaces (marker b : string) (r : Remote) (old : Comment) :
  wellFormed r -> marked marker r = [old] -> In old (apiList r) ->
  upsertPrComment "REMOVE" marker b r
  = Some (apiCreate b
            (mkRemote (filter (fun c => negb (hasId (id old) c)) (comments r))
                      (nextId r))) /\
  filter (isMarked marker) (filter (fun c => negb (hasId (id old) c)) (comments r)) = [] /\
  (id old < nextId r)%Z.
Proof.
  intros [Hnd Hlt] Hm Hin. unfold upsertPrComment.
  unfold apiList in *. rewrite (find_of_singleton _ _ _ _ Hm Hin).
  change (String.eqb "REMOVE" "ADD") with false.
  change (String.eqb "REMOVE" "REMOVE") with true. cbv iota.
  assert (Hc : In old (comments r)) by now apply in_firstn in Hin.
  unfold apiDelete. rewrite (existsb_hasId _ _ Hc). split; [reflexivity|]. split.
  - destruct (filter _ (filter _ _)) as [|x l] eqn:E; [reflexivity|].
    assert (Hx : In x (filter (isMarked marker)
                         (filter (fun c => negb (hasId (id old) c)) (comments r))))
      by (rewrite E; now left).
    apply filter_In in Hx as [Hx Hmx]. apply filter_In in Hx as [Hx Hid].
    rewrite (filter_singleton_in _ _ _ _ Hm Hx Hmx) in Hid.
    unfold hasId in Hid. now rewrite Z.eqb_refl in Hid.
  - rewrite Forall_forall in Hlt. now apply Hlt.
Qed.

End PrCommentFacts.


Example add_twice_leaves_two :
  option_map (PrComment.marked PrCommentExamples.marker)
    (PrCommentExamples.twice "ADD" (PrCommentExamples.bodyOf "run 1")
       (PrCommentExamples.bodyOf "run 2") PrCommentExamples.emptyThread)
  = Some [PrComment.mkComment 1 (VStr (PrCommentExamples.bodyOf "run 1"));
          PrComment.mkComment 2 (VStr (PrCommentExamples.bodyOf "run 2"))].
Proof. reflexivity. Qed.

(** C4 as stated fails.  After a full first page the comment created by
    the first run is not listed to the second, which creates another; and
    of two marked comments present beforehand, only the first is edited. *)
Lemma update_twice_not_single :
  (PrComment.marked PrCommentExamples.marker PrCommentExamples.fullPage = [] /\
   exists r,
     PrCommentExamples.twice "UPDATE" (PrCommentExamples.bodyOf "run 1")
       (PrCommentExamples.bodyOf "run 2") PrCommentExamples.fullPage = Some r /\
     PrComment.marked PrCommentExamples.marker r
     = [PrComment.mkComment 101 (VStr (PrCommentExamples.bodyOf "run 1"));
        PrComment.mkComment 102 (VStr (PrCommentExamples.bodyOf "run 2"))]) /\
  (exists r,
     PrCommentExamples.twice "UPDATE" (PrCommentExamples.bodyOf "run 3")
       (PrCommentExamples.bodyOf "run 4") PrCommentExamples.twoMarked = Some r /\
     PrComment.marked PrCommentExamples.marker r
     = [PrComment.mkComment 1 (VStr (PrCommentExamples.bodyOf "run 4"));
        PrComment.mkComment 2 (VStr (PrCommentExamples.bodyOf "run 2"))]).
Proof.
  split; [split; [reflexivity|]|]; eexists; split; vm_compute; reflexivity.
Qed.

(** C4, amended: two successive [UPDATE] runs with marker-bearing bodies,
    on a well-formed thread that at first holds either no marked comment
    and fewer comments than a page, or exactly one marked comment that
    stands within the listed page, both succeed and leave exactly one
    marked comment, whose body is the body of the second run. *)
Theorem update_twice_single (marker b1 b2 : string) (r : PrComment.Remote) :
  PrComment.wellFormed r ->
  Str.includes marker b1 = true ->
  Str.includes marker b2 = true ->
  (PrComment.marked marker r = [] /\
   List.length (PrComment.comments r) < PrComment.per_page) \/
  (exists c, PrComment.marked marker r = [c] /\ In c (PrComment.apiList r)) ->
  exists r1 r2 c,
    PrComment.upsertPrComment "UPDATE" marker b1 r = Some r1 /\
    PrComment.upsertPrComment "UPDATE" marker b2 r1 = Some r2 /\
    PrComment.marked marker r2 = [c] /\
    PrComment.body c = VStr b2.
Proof.
  intros Hwf H1 H2 Hinit.
  assert (Hfirst : exists r1, PrComment.upsertPrComment "UPDATE" marker b1 r = Some r1 /\
                              PrComment.settled marker b1 r1).
  { destruct Hinit as [[Hm Hlen]|(c & Hm & Hin)].
    - now apply PrCommentFacts.update_creates.
    - destruct (PrCommentFacts.update_edits marker b1 r c Hwf H1 Hm Hin)
        as (r1 & Hr1 & Hs & _). eauto. }
  destruct Hfirst as (r1 & Hr1 & Hwf1 & c1 & Hm1 & Hin1 & _).
  destruct (PrCommentFacts.update_edits marker b2 r1 c1 Hwf1 H2 Hm1 Hin1)
    as (r2 & Hr2 & _ & Hm2).
  exists r1, r2, (PrComment.mkComment (PrComment.id c1) (VStr b2)). auto.
Qed.

Lemma update_twice_single_witness :
  exists r1 r2 c,
    PrComment.upsertPrComment "UPDATE" PrCommentExamples.marker
      (PrCommentExamples.bodyOf "run 2") PrCommentExamples.oneMarked = Some r1 /\
    PrComment.upsertPrComment "UPDATE" PrCommentExamples.marker
      (PrCommentExamples.bodyOf "run 3") r1 = Some r2 /\
    PrComment.marked PrCommentExamples.marker r2 = [c] /\
    PrComment.body c = VStr (PrCommentExamples.bodyOf "run 3").
Proof.
  apply update_twice_single.
  - split.
    + repeat constructor; simpl; intuition discriminate.
    + repeat constructor; simpl; reflexivity.
  - reflexivity.
  - reflexivity.
  - right. eexists. split; [reflexivity|]. simpl. right. now left.
Defined.

(** C8 as stated fails.  A body without the marker leaves no marked
    comment; and a marked comment that stands after a full first page is
    not found, so that it stays beside the new one. *)
Lemma remove_not_single :
  (exists r,
     PrComment.upsertPrComment "REMOVE" PrCommentExamples.marker "coverage report"
       PrCommentExamples.oneMarked = Some r /\
     PrComment.marked PrCommentExamples.marker r = []) /\
  (exists old r,
     PrComment.marked PrCommentExamples.marker PrCommentExamples.beyondPage = [old] /\
     PrComment.upsertPrComment "REMOVE" PrCommentExamples.marker
       (PrCommentExamples.bodyOf "run 2") PrCommentExamples.beyondPage = Some r /\
     PrComment.marked PrCommentExamples.marker r
     = [old; PrComment.mkComment 102 (VStr (PrCommentExamples.bodyOf "run 2"))]).
Proof.
  split.
  - eexists. split; vm_compute; reflexivity.
  - do 2 eexists. split; [vm_compute; reflexivity|]. split; vm_compute; reflexivity.
Qed.

(** C8, amended: a [REMOVE] run with a marker-bearing body, on a
    well-formed thread whose one marked comment stands within the listed
    page, succeeds and leaves exactly one marked comment: a new one, with
    the given body and an identifier other than that of the old one. *)
Theorem remove_replaces_marked (marker b : string) (r : PrComment.Remote)
    (old : PrComment.Comment) :
  PrComment.wellFormed r ->
  Str.includes marker b = true ->
  PrComment.marked marker r = [old] ->
  In old (PrComment.apiList r) ->
  exists r' c,
    PrComment.upsertPrComment "REMOVE" marker b r = Some r' /\
    PrComment.marked marker r' = [c] /\
    PrComment.id c <> PrComment.id old /\
    PrComment.body c = VStr b /\
    ~ In old (PrComment.comments r').
Proof.
  intros Hwf Hb Hm Hin.
  destruct (PrCommentFacts.remove_replaces marker b r old Hwf Hm Hin) as (Hr & Hnone & Hlt).
  eexists. exists (PrComment.mkComment (PrComment.nextId r) (VStr b)).
  split; [exact Hr|]. unfold PrComment.marked, PrComment.apiCreate. simpl.
  rewrite filter_app, Hnone. simpl.
  rewrite (PrCommentFacts.isMarked_created _ _ _ Hb).
  repeat split; simpl; [lia|].
  intros H. apply in_app_or in H as [H|[H|[]]].
  - apply filter_In in H as [_ H]. unfold PrComment.hasId in H.
    now rewrite Z.eqb_refl in H.
  - subst old. simpl in Hlt. lia.
Qed.

Lemma remove_replaces_marked_witness :
  exists r' c,
    PrComment.upsertPrComment "REMOVE" PrCommentExamples.marker
      (PrCommentExamples.bodyOf "run 2") PrCommentExamples.oneMarked = Some r' /\
    PrComment.marked PrCommentExamples.marker r' = [c] /\
    PrComment.id c <> 8%Z /\
    PrComment.body c = VStr (PrCommentExamples.bodyOf "run 2") /\
    ~ In (PrComment.mkComment 8 (VStr (PrCommentExamples.bodyOf "run 1")))
         (PrComment.comments r').
Proof.
  apply (remove_replaces_marked PrCommentExamples.marker
           (PrCommentExamples.bodyOf "run 2") PrCommentExamples.oneMarked
           (PrComment.mkComment 8 (VStr (PrCommentExamples.bodyOf "run 1")))).
  - split.
    + repeat constructor; simpl; intuition discriminate.
    + repeat constructor; simpl; reflexivity.
  - reflexivity.
  - reflexivity.
  - simpl. right. now left.
Defined.

(** ** Trimming *)

Functional Scheme trimStart_ind := Induction for Str.trimStart Sort Prop.

Module TrimFacts.
Import Str.

Lemma visible_lt (a : ascii) : visible a = true -> nat_of_ascii a < 128.
Proof.
  unfold visible. intros H. apply andb_prop in H as [_ H].
  now apply Nat.ltb_lt in H.
Qed.

Lemma visible_not_space (a : ascii) : visible a = true -> isSpace a = false.
Proof.
  unfold visible. intros H. apply andb_prop in H as [H _].
  now apply negb_true_iff in H.
Qed.

Lemma high_not_visible (a : ascii) : 128 <= nat_of_ascii a -> visible a = false.
Proof.
  intros H. unfold visible. apply andb_false_iff. right. now apply Nat.ltb_ge.
Qed.

Lemma isSpace2_high (a b : ascii) :
  isSpace2 a b = true -> 128 <= nat_of_ascii a /\ 128 <= nat_of_ascii b.
Proof.
  unfold isSpace2. intros H. apply andb_prop in H as [Ha Hb].
  apply Nat.eqb_eq in Ha, Hb. lia.
Qed.

Lemma isSpace3_high (a b c : ascii) :
  isSpace3 a b c = true ->
  128 <= nat_of_ascii a /\ 128 <= nat_of_ascii b /\ 128 <= nat_of_ascii c.
Proof.
  unfold isSpace3. cbv zeta.
  set (x := nat_of_ascii a). set (y := nat_of_ascii b). set (z := nat_of_ascii c).
  intros H.
  repeat match type of H with
         | (_ || _)%bool = true => apply orb_prop in H as [H|H]
         end;
    repeat match goal with
           | H : (_ && _)%bool = true |- _ => apply andb_prop in H as [H ?]
           | H : (_ || _)%bool = true |- _ => apply orb_prop in H as [H|H]
           | H : Nat.eqb _ _ = true |- _ => apply Nat.eqb_eq in H
           | H : Nat.leb _ _ = true |- _ => apply Nat.leb_le in H
           end; lia.
Qed.

Lemma visible_not_lead (a : ascii) :
  visible a = true ->
  (forall b, isSpace2 a b = false) /\ (forall b c, isSpace3 a b c = false).
Proof.
  intros H. apply visible_lt in H. split.
  - intros b. destruct (isSpace2 a b) eqn:E; [|reflexivity].
    apply isSpace2_high in E. lia.
  - intros b c. destruct (isSpace3 a b c) eqn:E; [|reflexivity].
    apply isSpace3_high in E. lia.
Qed.

(** White space begins with no visible character. *)
Lemma trimStart_visible (x : ascii) (t : string) :
  visible x = true -> trimStart (String x t) = String x t.
Proof.
  intros H. destruct (visible_not_lead x H) as [H2 H3].
  cbn [trimStart]. rewrite (visible_not_space x H).
  destruct t as [|b [|c v]]; rewrite ?H2, ?H3; reflexivity.
Qed.

Lemma trimStart_head (s : string) :
  headVisible s = true -> trimStart s = s.
Proof. destruct s as [|x t]; [discriminate | apply trimStart_visible]. Qed.

Lemma count_skip (c a : ascii) (t : string) :
  visible c = true -> visible a = false -> count c (String a t) = count c t.
Proof.
  intros Hc Ha. simpl. destruct (Ascii.eqb_spec a c) as [->|]; [congruence | reflexivity].
Qed.

Lemma space_not_visible (a : ascii) : isSpace a = true -> visible a = false.
Proof. intros H. unfold visible. now rewrite H. Qed.

Lemma count_trimStart (c : ascii) (s : string) :
  visible c = true -> count c (trimStart s) = count c s.
Proof.
  intros Hc. functional induction (trimStart s); try reflexivity.
  - rewrite IHs0. symmetry. now apply count_skip, space_not_visible.
  - rewrite IHs0. symmetry. apply isSpace2_high in e2 as [Ha Hb].
    rewrite !count_skip by (try apply high_not_visible; assumption).
    reflexivity.
  - rewrite IHs0. symmetry. apply isSpace3_high in e4 as (Ha & Hb & Hd).
    rewrite !count_skip by (try apply high_not_visible; assumption).
    reflexivity.
Qed.

Lemma anyVisible_head (x : ascii) (t : string) :
  visible x = true -> anyVisible (String x t) = true.
Proof. intros H. cbn [anyVisible]. now rewrite H. Qed.

Lemma anyVisible_append (a b : string) :
  anyVisible (a ++ b) = anyVisible a || anyVisible b.
Proof.
  induction a as [|x a IH]; [reflexivity|].
  cbn [append anyVisible]. now rewrite IH, orb_assoc.
Qed.

(** White space holds no visible character. *)
Lemma blank_no_visible (s : string) :
  trimStart s = "" -> anyVisible s = false.
Proof.
  functional induction (trimStart s); try discriminate; intros H.
  - reflexivity.
  - cbn [anyVisible]. now rewrite (space_not_visible a e0), (IHs0 H).
  - apply isSpace2_high in e2 as [Ha Hb]. cbn [anyVisible].
    now rewrite (high_not_visible a Ha), (high_not_visible b Hb), (IHs0 H).
  - apply isSpace3_high in e4 as (Ha & Hb & Hd). cbn [anyVisible].
    now rewrite (high_not_visible a Ha), (high_not_visible b Hb),
      (high_not_visible c Hd), (IHs0 H).
Qed.

Lemma visible_not_blank (s : string) : anyVisible s = true -> isBlank s = false.
Proof.
  intros H. unfold isBlank. destruct (trimStart s) eqn:E; [|reflexivity].
  apply blank_no_visible in E. congruence.
Qed.

Lemma trimStart_append (a b : string) :
  headVisible (trimStart a) = true -> trimStart (a ++ b) = trimStart a ++ b.
Proof.
  functional induction (trimStart a); intros H; cbn [append];
    try discriminate; try (now apply trimStart_visible);
    cbn [trimStart];
    repeat match goal with
           | E : isSpace _ = _ |- _ => rewrite E; clear E
           | E : isSpace2 _ _ = _ |- _ => rewrite E; clear E
           | E : isSpace3 _ _ _ = _ |- _ => rewrite E; clear E
           end; auto.
Qed.

Lemma trimEnd_append (a b : string) :
  anyVisible b = true -> trimEnd (a ++ b) = a ++ trimEnd b.
Proof.
  intros Hb. induction a as [|x a IH]; [reflexivity|].
  cbn [append trimEnd]. rewrite visible_not_blank, IH; [reflexivity|].
  change (String x (a ++ b)) with (String x a ++ b).
  now rewrite anyVisible_append, Hb, orb_true_r.
Qed.

Lemma count_trimEnd (c : ascii) (s : string) :
  visible c = true -> count c (trimEnd s) = count c s.
Proof.
  intros Hc. induction s as [|a t IH]; [reflexivity|].
  cbn [trimEnd]. destruct (isBlank (String a t)) eqn:E.
  - unfold isBlank in E. apply String.eqb_eq in E.
    now rewrite <- (count_trimStart c (String a t) Hc), E.
  - simpl. now rewrite IH.
Qed.

Lemma count_trim_visible (c : ascii) (s : string) :
  visible c = true -> count c (trim s) = count c s.
Proof.
  intros Hc. unfold trim. now rewrite count_trimEnd, count_trimStart.
Qed.

End TrimFacts.

(** ** HTML escaping *)

Module EscapeFacts.
Import Str StrFacts.


(** The five replacements do not interfere: an entity holds none of the
    characters replaced after it was written. *)
Lemma escapeHtml_cons (a : ascii) (t : string) :
  escapeHtml (String a t) = escapeChar a ++ escapeHtml t.
Proof.
  unfold escapeHtml, escapeChar.
  destruct (Ascii.eqb_spec a "&") as [->|N1]; [reflexivity|].
  destruct (Ascii.eqb_spec a "<") as [->|N2]; [reflexivity|].
  destruct (Ascii.eqb_spec a ">") as [->|N3]; [reflexivity|].
  destruct (Ascii.eqb_spec a "034") as [->|N4]; [reflexivity|].
  destruct (Ascii.eqb_spec a "'") as [->|N5]; [reflexivity|].
  apply Ascii.eqb_neq in N1, N2, N3, N4, N5.
  cbn [replaceAll]. rewrite N1. cbn [replaceAll]. rewrite N2.
  cbn [replaceAll]. rewrite N3. cbn [replaceAll]. rewrite N4.
  cbn [replaceAll]. rewrite N5. reflexivity.
Qed.

Lemma escapeHtml_nil : escapeHtml "" = "".
Proof. reflexivity. Qed.

Lemma structural_cases (c : ascii) :
  structural c = true ->
  c = "<"%char \/ c = ">"%char \/ c = "034"%char \/ c = "'"%char.
Proof.
  unfold structural. intros H.
  repeat (apply orb_prop in H as [H|H]); apply Ascii.eqb_eq in H; auto.
Qed.

Lemma structural_visible (c : ascii) : structural c = true -> visible c = true.
Proof. intros H. destruct (structural_cases c H) as [-> | [-> | [-> | ->]]]; reflexivity. Qed.

Lemma count_escapeChar (c a : ascii) :
  structural c = true -> count c (escapeChar a) = 0.
Proof.
  intros H. unfold escapeChar.
  destruct (Ascii.eqb_spec a "&") as [->|N1];
    [destruct (structural_cases c H) as [-> | [-> | [-> | ->]]]; reflexivity|].
  destruct (Ascii.eqb_spec a "<") as [->|N2];
    [destruct (structural_cases c H) as [-> | [-> | [-> | ->]]]; reflexivity|].
  destruct (Ascii.eqb_spec a ">") as [->|N3];
    [destruct (structural_cases c H) as [-> | [-> | [-> | ->]]]; reflexivity|].
  destruct (Ascii.eqb_spec a "034") as [->|N4];
    [destruct (structural_cases c H) as [-> | [-> | [-> | ->]]]; reflexivity|].
  destruct (Ascii.eqb_spec a "'") as [->|N5];
    [destruct (structural_cases c H) as [-> | [-> | [-> | ->]]]; reflexivity|].
  simpl. destruct (Ascii.eqb_spec a c) as [->|]; [|reflexivity].
  destruct (structural_cases c H) as [-> | [-> | [-> | ->]]]; congruence.
Qed.

(** No tag or attribute delimiter is left in an escaped text. *)
Lemma count_escapeHtml (c : ascii) (s : string) :
  structural c = true -> count c (escapeHtml s) = 0.
Proof.
  intros H. induction s as [|a t IH]; [reflexivity|].
  now rewrite escapeHtml_cons, count_append, count_escapeChar, IH.
Qed.

Lemma wellEscaped_escapeChar (a : ascii) (rest : string) :
  wellEscaped rest = true -> wellEscaped (escapeChar a ++ rest) = true.
Proof.
  intros Hr. unfold escapeChar.
  destruct (Ascii.eqb_spec a "&") as [->|N1]; [simpl; rewrite ?prefix_nil_l; exact Hr|].
  destruct (Ascii.eqb_spec a "<") as [->|N2]; [simpl; rewrite ?prefix_nil_l; exact Hr|].
  destruct (Ascii.eqb_spec a ">") as [->|N3]; [simpl; rewrite ?prefix_nil_l; exact Hr|].
  destruct (Ascii.eqb_spec a "034") as [->|N4]; [simpl; rewrite ?prefix_nil_l; exact Hr|].
  destruct (Ascii.eqb_spec a "'") as [->|N5]; [simpl; rewrite ?prefix_nil_l; exact Hr|].
  apply Ascii.eqb_neq in N1, N2, N3, N4, N5.
  change (String a "" ++ rest) with (String a rest).
  cbn [wellEscaped]. unfold reserved. now rewrite N1, N2, N3, N4, N5, Hr.
Qed.

(** An escaped text holds a reserved character only as the ampersand of
    one of the five entities. *)
Lemma wellEscaped_escapeHtml (s : string) : wellEscaped (escapeHtml s) = true.
Proof.
  induction s as [|a t IH]; [reflexivity|].
  rewrite escapeHtml_cons. now apply wellEscaped_escapeChar.
Qed.

(** *** Counting through [trim] and [join] *)

Lemma count_trim (c : ascii) (s : string) :
  structural c = true -> count c (trim s) = count c s.
Proof. intros Hc. now apply TrimFacts.count_trim_visible, structural_visible. Qed.

Lemma count_concat (c : ascii) (sep : string) (l : list string) :
  count c sep = 0 ->
  count c (String.concat sep l) = list_sum (map (count c) l).
Proof.
  intros Hs. induction l as [|x [|y r] IH]; [reflexivity | simpl; lia |].
  change (String.concat sep (x :: y :: r)) with (x ++ sep ++ String.concat sep (y :: r)).
  rewrite !count_append, Hs, IH. simpl. lia.
Qed.

Lemma sum_mapiFrom {A : Type} (c : ascii) (f g : nat -> A -> string) (h : A -> A)
    (l : list A) :
  (forall i x, count c (f i x) = count c (g i (h x))) ->
  forall k, list_sum (map (count c) (mapiFrom k f l))
            = list_sum (map (count c) (mapiFrom k g (map h l))).
Proof.
  intros H. induction l as [|x r IH]; intros k; [reflexivity|].
  simpl. now rewrite H, IH.
Qed.

Lemma sum_map {A : Type} (c : ascii) (f g : A -> string) (l : list A) :
  (forall x, count c (f x) = count c (g x)) ->
  list_sum (map (count c) (map f l)) = list_sum (map (count c) (map g l)).
Proof.
  intros H. induction l as [|x r IH]; [reflexivity|]. simpl. now rewrite H, IH.
Qed.

End EscapeFacts.

(** ** The renderers insert texts escaped *)

Section RenderFacts.

Context {RT : JsRuntime}.

Variable c : ascii.
Hypothesis Hc : structural c = true.

Ltac count_parts :=
  rewrite ?(EscapeFacts.count_trim c) by exact Hc;
  rewrite ?StrFacts.count_append;
  rewrite ?(EscapeFacts.count_escapeHtml c) by exact Hc.

Lemma count_LF : Str.count c (String Str.LF EmptyString) = 0.
Proof.
  destruct (EscapeFacts.structural_cases c Hc) as [-> | [-> | [-> | ->]]]; reflexivity.
Qed.

Lemma count_fileOption (idx : nat) (f : FileRec) :
  Str.count c (fileOption idx f) = Str.count c (fileOption idx (blankTexts f)).
Proof. unfold fileOption. count_parts. reflexivity. Qed.

Lemma count_reportRow (f : FileRec) (i : nat) (line : string) :
  Str.count c (reportRow f i line)
  = Str.count c (reportRow (blankTexts f) i EmptyString).
Proof. unfold reportRow. count_parts. reflexivity. Qed.

Lemma count_rows (f : FileRec) :
  Str.count c (String.concat (String Str.LF EmptyString)
                 (mapi (reportRow f) (sourceLines f)))
  = Str.count c (String.concat (String Str.LF EmptyString)
                   (mapi (reportRow (blankTexts f)) (sourceLines (blankTexts f)))).
Proof.
  rewrite !(EscapeFacts.count_concat c) by exact count_LF.
  unfold mapi. cbn [blankTexts sourceLines].
  apply EscapeFacts.sum_mapiFrom. intros i x. apply count_reportRow.
Qed.

Lemma count_fileSection (idx : nat) (f : FileRec) :
  Str.count c (fileSection idx f) = Str.count c (fileSection idx (blankTexts f)).
Proof.
  unfold fileSection. count_parts. rewrite (count_rows f). reflexivity.
Qed.

Lemma count_buildHtmlReport (title : string) (files : list FileRec) :
  Str.count c (buildHtmlReport title files)
  = Str.count c (buildHtmlReport EmptyString (map blankTexts files)).
Proof.
  unfold buildHtmlReport. count_parts.
  rewrite !(EscapeFacts.count_concat c) by (exact count_LF || reflexivity).
  unfold mapi.
  rewrite (EscapeFacts.sum_mapiFrom c fileOption fileOption blankTexts files count_fileOption 0).
  rewrite (EscapeFacts.sum_mapiFrom c fileSection fileSection blankTexts files count_fileSection 0).
  reflexivity.
Qed.

End RenderFacts.

Section SummaryRenderFacts.

Context {RT : JsRuntime}.

Variable c : ascii.
Hypothesis Hc : structural c = true.

Ltac count_parts :=
  rewrite ?(EscapeFacts.count_trim c) by exact Hc;
  rewrite ?StrFacts.count_append;
  rewrite ?(EscapeFacts.count_escapeHtml c) by exact Hc.

Lemma count_summaryLine (f : FileRec) (i : nat) :
  Str.count c (summaryLine f i) = Str.count c (summaryLine (blankTexts f) i).
Proof. unfold summaryLine. count_parts. reflexivity. Qed.

Lemma count_summaryFileSection (maxLinesPerFile : nat) (f : FileRec) :
  Str.count c (summaryFileSection maxLinesPerFile f)
  = Str.count c (summaryFileSection maxLinesPerFile (blankTexts f)).
Proof.
  unfold summaryFileSection. count_parts.
  rewrite !(EscapeFacts.count_concat c) by exact (count_LF c Hc).
  cbn [blankTexts sourceLines fileCoveragePct]. rewrite length_map.
  rewrite (EscapeFacts.sum_map c (summaryLine f)
             (summaryLine (blankTexts f)) _ (count_summaryLine f)).
  reflexivity.
Qed.

Lemma count_buildHtmlCodePaintingSummary (title : string) (metrics : Metrics)
    (thr : JsNumber) (files : list FileRec) (maxFiles maxLinesPerFile : nat) :
  option_map (Str.count c)
    (buildHtmlCodePaintingSummary title metrics thr files maxFiles maxLinesPerFile)
  = option_map (Str.count c)
      (buildHtmlCodePaintingSummary EmptyString metrics thr (map blankTexts files)
         maxFiles maxLinesPerFile).
Proof.
  unfold buildHtmlCodePaintingSummary, obind.
  destruct (gateOf metrics thr) as [gate|]; [|reflexivity].
  destruct (metricCells (lines metrics)) as [cl|]; [|reflexivity].
  destruct (metricCells (branches metrics)) as [cb|]; [|reflexivity].
  destruct (metricCells (functions metrics)) as [cf|]; [|reflexivity].
  destruct (metricCells (statements metrics)) as [cs|]; [|reflexivity].
  cbn [option_map]. f_equal. count_parts.
  rewrite !(EscapeFacts.count_concat c) by exact (count_LF c Hc).
  rewrite firstn_map, length_map.
  rewrite (map_map blankTexts (summaryFileSection maxLinesPerFile)).
  rewrite (EscapeFacts.sum_map c (summaryFileSection maxLinesPerFile)
             (fun f => summaryFileSection maxLinesPerFile (blankTexts f)) _
             (count_summaryFileSection maxLinesPerFile)).
  reflexivity.
Qed.

End SummaryRenderFacts.

Example escapeHtml_sample :
  escapeHtml ("if (a < b && c > 'x') return " ++ dq ++ "T&C" ++ dq)
  = "if (a &lt; b &amp;&amp; c &gt; &#39;x&#39;) return &quot;T&amp;C&quot;".
Proof. reflexivity. Qed.



(** * Further properties of the code *)

(** ** Path normaliser: separators and shape of the result *)

Module NormalizerMore.
Import Str StrFacts.

Lemma replaceAll_append (c : ascii) (r a b : string) :
  replaceAll c r (a ++ b) = replaceAll c r a ++ replaceAll c r b.
Proof.
  induction a as [|x a IH]; [reflexivity|].
  simpl. rewrite IH. destruct (Ascii.eqb x c); [|reflexivity].
  now rewrite append_assoc.
Qed.

Lemma sepNormalize_idem (p : string) : sepNormalize (sepNormalize p) = sepNormalize p.
Proof.
  unfold sepNormalize. apply replaceAll_absent, count_sepNormalize.
Qed.

Lemma sepNormalize_empty (p : string) :
  String.eqb (sepNormalize p) "" = String.eqb p "".
Proof.
  destruct p as [|a t]; [reflexivity|].
  unfold sepNormalize. simpl. now destruct (Ascii.eqb a backslash).
Qed.

Lemma strip_slash_end (s : string) :
  stripTrailingSlashes (s ++ "/") = stripTrailingSlashes s.
Proof.
  induction s as [|a t IH]; [reflexivity|].
  change (String a t ++ "/") with (String a (t ++ "/")).
  simpl. now rewrite IH.
Qed.

Lemma rootNorm_sepNormalize (r : string) : rootNorm (sepNormalize r) = rootNorm r.
Proof. unfold rootNorm. now rewrite sepNormalize_idem. Qed.

Lemma rootNorm_slash_end (r : string) : rootNorm (r ++ "/") = rootNorm r.
Proof.
  unfold rootNorm, sepNormalize. rewrite replaceAll_append.
  change (replaceAll backslash "/" "/") with "/". apply strip_slash_end.
Qed.

Lemma rootNorm_backslash_end (r : string) : rootNorm (r ++ "\") = rootNorm r.
Proof.
  unfold rootNorm, sepNormalize. rewrite replaceAll_append.
  change (replaceAll backslash "/" "\") with "/". apply strip_slash_end.
Qed.

(** Only the normalised root enters the result. *)
Lemma normalize_root_only (r r' : string) (p : option string) :
  rootNorm r = rootNorm r' -> normalizeToRepoRel r p = normalizeToRepoRel r' p.
Proof. intros H. unfold normalizeToRepoRel. now rewrite H. Qed.

Lemma slice_suffix (n : nat) (s : string) : exists pre, s = pre ++ slice n s.
Proof.
  revert s. induction n as [|n IH]; intros s.
  - now exists "".
  - destruct s as [|a t]; [now exists ""|].
    destruct (IH t) as [pre H]. exists (String a pre). simpl. now rewrite <- H.
Qed.

End NormalizerMore.

(** X1: the spelling of the separators does not matter: a candidate path
    gives the same result with backslashes as with forward slashes, and so
    does the root, whose trailing separator is ignored as well. *)
Theorem normalize_separator_blind (repoRoot p : string) :
  normalizeToRepoRel repoRoot (Some (sepNormalize p))
    = normalizeToRepoRel repoRoot (Some p) /\
  normalizeToRepoRel (sepNormalize repoRoot) (Some p)
    = normalizeToRepoRel repoRoot (Some p) /\
  normalizeToRepoRel (repoRoot ++ "/") (Some p)
    = normalizeToRepoRel repoRoot (Some p) /\
  normalizeToRepoRel (repoRoot ++ "\") (Some p)
    = normalizeToRepoRel repoRoot (Some p).
Proof.
  repeat split.
  - unfold normalizeToRepoRel.
    now rewrite NormalizerMore.sepNormalize_empty, NormalizerMore.sepNormalize_idem.
  - apply NormalizerMore.normalize_root_only, NormalizerMore.rootNorm_sepNormalize.
  - apply NormalizerMore.normalize_root_only, NormalizerMore.rootNorm_slash_end.
  - apply NormalizerMore.normalize_root_only, NormalizerMore.rootNorm_backslash_end.
Qed.

(** X2: the result is null for a missing or empty candidate only; any
    other result holds no backslash and is a piece of the candidate with
    forward slashes: what is left of it after a prefix is dropped and, at
    most, the slashes that end it. *)
Theorem normalize_result_shape (repoRoot : string) (candidatePath : option string) :
  (normalizeToRepoRel repoRoot candidatePath = None
   <-> falsyPath candidatePath = true) /\
  (forall q, normalizeToRepoRel repoRoot candidatePath = Some q ->
     Str.count Str.backslash q = 0 /\
     exists p pre trail,
       candidatePath = Some p /\
       sepNormalize p = pre ++ q ++ trail /\
       Str.all_slashes trail).
Proof.
  split.
  - unfold normalizeToRepoRel, falsyPath. destruct candidatePath as [p|]; [|tauto].
    destruct (String.eqb p ""); [tauto|].
    destruct (Str.startsWith _ _); [split; discriminate|].
    destruct (0 <=? _)%Z; [split; discriminate|].
    destruct (0 <=? _)%Z; split; discriminate.
  - intros q H. split; [exact (NormalizerFacts.normalize_output_clean _ _ _ H)|].
    unfold normalizeToRepoRel in H. destruct candidatePath as [p|]; [|discriminate].
    exists p. destruct (String.eqb p ""); [discriminate|].
    assert (Hsuf : forall n, Some (Str.slice n (sepNormalize p)) = Some q ->
              exists pre trail, Some p = Some p /\
                sepNormalize p = pre ++ q ++ trail /\ Str.all_slashes trail).
    { intros n [= <-]. destruct (NormalizerMore.slice_suffix n (sepNormalize p)) as [pre E].
      exists pre, "". rewrite StrFacts.append_nil_r.
      split; [reflexivity|]. split; [exact E | reflexivity]. }
    destruct (Str.startsWith _ _); [now apply Hsuf in H|].
    destruct (0 <=? _)%Z; [now apply Hsuf in H|].
    destruct (0 <=? _)%Z; [now apply Hsuf in H|].
    injection H as <-.
    destruct (StrFacts.basename_split (sepNormalize p)) as (dir & trail & E & _ & Ht & _).
    exists dir, trail. split; [reflexivity|]. split; [exact E | exact Ht].
Qed.

(** ** Maps in insertion order: lookups after writes *)

Module JsMapFacts.
Section Facts.

Context {K V : Type} (keq : K -> K -> bool).
Hypothesis keq_refl : forall k, keq k k = true.

Lemma get_set_same (k : K) (v : V) (m : list (K * V)) :
  JsMap.get keq k (JsMap.set keq k v m) = Some v.
Proof.
  induction m as [|[k' v'] r IH]; simpl.
  - now rewrite keq_refl.
  - destruct (keq k k') eqn:E; simpl; rewrite E; [reflexivity | exact IH].
Qed.

Lemma get_set_kept (k k' : K) (v : V) (m : list (K * V)) (x : V) :
  JsMap.get keq k m = Some x -> exists y, JsMap.get keq k (JsMap.set keq k' v m) = Some y.
Proof.
  induction m as [|[k0 v0] r IH]; simpl; [discriminate|].
  destruct (keq k' k0) eqn:E'; simpl; destruct (keq k k0) eqn:E; eauto.
Qed.

Lemma get_app_found (k : K) (m m' : list (K * V)) (x : V) :
  JsMap.get keq k m = Some x -> JsMap.get keq k (m ++ m')%list = Some x.
Proof.
  induction m as [|[k0 v0] r IH]; simpl; [discriminate|].
  now destruct (keq k k0).
Qed.

Lemma get_app_absent (k : K) (m m' : list (K * V)) :
  JsMap.has keq k m = false -> JsMap.get keq k (m ++ m')%list = JsMap.get keq k m'.
Proof.
  unfold JsMap.has. induction m as [|[k0 v0] r IH]; simpl; [reflexivity|].
  destruct (keq k k0); [discriminate | exact IH].
Qed.

Lemma set_absent (k : K) (v : V) (m : list (K * V)) :
  JsMap.has keq k m = false -> JsMap.set keq k v m = (m ++ [(k, v)])%list.
Proof.
  unfold JsMap.has. induction m as [|[k0 v0] r IH]; simpl; [reflexivity|].
  destruct (keq k k0); [discriminate|]. intros H. now rewrite IH.
Qed.

Lemma keys_set (k : K) (v : V) (m : list (K * V)) :
  map fst (JsMap.set keq k v m)
  = if JsMap.has keq k m then map fst m else (map fst m ++ [k])%list.
Proof.
  unfold JsMap.has. induction m as [|[k0 v0] r IH]; simpl; [reflexivity|].
  destruct (keq k k0); simpl; [reflexivity|]. rewrite IH.
  now destruct (JsMap.get keq k r).
Qed.

Lemma keys_adjust (f : V -> V) (k : K) (m : list (K * V)) :
  map fst (JsMap.adjust keq f k m) = map fst m.
Proof.
  induction m as [|[k0 v0] r IH]; simpl; [reflexivity|].
  destruct (keq k k0); simpl; [reflexivity | now rewrite IH].
Qed.

Lemma get_adjust_same (f : V -> V) (k : K) (m : list (K * V)) (x : V) :
  JsMap.get keq k m = Some x -> JsMap.get keq k (JsMap.adjust keq f k m) = Some (f x).
Proof.
  induction m as [|[k0 v0] r IH]; simpl; [discriminate|].
  destruct (keq k k0) eqn:E; simpl; rewrite E; [now intros [= ->] | exact IH].
Qed.

Lemma get_adjust_cases (f : V -> V) (k k' : K) (m : list (K * V)) (x : V) :
  JsMap.get keq k m = Some x ->
  JsMap.get keq k (JsMap.adjust keq f k' m) = Some x \/
  JsMap.get keq k (JsMap.adjust keq f k' m) = Some (f x).
Proof.
  induction m as [|[k0 v0] r IH]; simpl; [discriminate|].
  destruct (keq k' k0) eqn:E'; simpl; destruct (keq k k0) eqn:E; auto.
  intros [= ->]. auto.
Qed.

Lemma has_get (k : K) (m : list (K * V)) :
  JsMap.has keq k m = true <-> exists x, JsMap.get keq k m = Some x.
Proof.
  unfold JsMap.has. destruct (JsMap.get keq k m); split; eauto; try discriminate.
  intros [x H]; discriminate.
Qed.

End Facts.
End JsMapFacts.

Lemma numKeyEq_refl (q : Q) : numKeyEq q q = true.
Proof. unfold numKeyEq. apply Qeq_bool_iff. reflexivity. Qed.

Lemma fileKeyEq_refl (k : option string) : fileKeyEq k k = true.
Proof. destruct k; simpl; [apply String.eqb_refl | reflexivity]. Qed.

Lemma fileKeyEq_eq (a b : option string) : fileKeyEq a b = true <-> a = b.
Proof.
  destruct a, b; simpl; try (split; congruence).
  rewrite String.eqb_eq. split; congruence.
Qed.

(** ** LCOV trace parser: what a trace leaves in the mapping *)

Section LcovMore.

Context {RT : JsRuntime}.

(** The three things an iteration can do. *)
Lemma lcovStep_cases (repoRoot : string) (st : LcovState) (raw : string) :
  (Str.startsWith "SF:" raw = true /\
   lcovStep repoRoot st raw
   = mkLcovState
       (if JsMap.has fileKeyEq (sfKey repoRoot raw) (fileLineHits st)
        then fileLineHits st
        else (fileLineHits st ++ [(sfKey repoRoot raw, [])])%list)
       (sfKey repoRoot raw) (Some (sfKey repoRoot raw))) \/
  (staysInSection raw = true /\
   currentFile (lcovStep repoRoot st raw) = currentFile st /\
   currentLines (lcovStep repoRoot st raw) = currentLines st /\
   (fileLineHits (lcovStep repoRoot st raw) = fileLineHits st \/
    exists key n h,
      Str.startsWith "DA:" raw = true /\
      truthyFile (currentFile st) = true /\ currentLines st = Some key /\
      parseDA raw = Some (n, h) /\
      fileLineHits (lcovStep repoRoot st raw)
      = JsMap.adjust fileKeyEq (JsMap.set numKeyEq n h) key (fileLineHits st))) \/
  (raw = "end_of_record" /\
   lcovStep repoRoot st raw = mkLcovState (fileLineHits st) None None).
Proof.
  unfold lcovStep, staysInSection. fold (sfKey repoRoot raw).
  destruct (Str.startsWith "SF:" raw) eqn:Hsf.
  { left. split; [reflexivity|].
    destruct (JsMap.has fileKeyEq (sfKey repoRoot raw) (fileLineHits st)) eqn:Hh;
      [reflexivity|].
    now rewrite (JsMapFacts.set_absent _ _ _ _ Hh). }
  destruct (Str.startsWith "DA:" raw) eqn:Hda.
  { right. left. rewrite (data_line_not_marker _ Hda). split; [reflexivity|].
    destruct (truthyFile (currentFile st)) eqn:Ht, (currentLines st) as [key|] eqn:Hc;
      simpl; auto.
    destruct (parseDA raw) as [[n h]|] eqn:Hp; simpl; auto.
    repeat split; try assumption. right. exists key, n, h. auto. }
  simpl. destruct (String.eqb_spec raw "end_of_record") as [->|Hne].
  - right. right. split; reflexivity.
  - right. left. auto.
Qed.

Lemma other_line_skipped (repoRoot : string) (st : LcovState) (raw : string) :
  otherLine raw = true -> lcovStep repoRoot st raw = st.
Proof.
  unfold otherLine, lcovStep. intros H.
  apply andb_prop in H as [H He]. apply andb_prop in H as [Hs Hd].
  apply negb_true_iff in Hs, Hd, He. now rewrite Hs, Hd, He.
Qed.

(** X3: a line that is neither a source-file line, nor a line-data
    record, nor the end-of-record marker is ignored wherever it stands: the
    trace parses as the trace without it. *)
Theorem parseLcov_ignores_other_lines (repoRoot text text' : string)
    (before after : list string) (line : string) :
  otherLine line = true ->
  splitLines text = (before ++ line :: after)%list ->
  splitLines text' = (before ++ after)%list ->
  parseLcov text repoRoot = parseLcov text' repoRoot.
Proof.
  intros Ho Ht Ht'. unfold parseLcov, parseLcovLines. rewrite Ht, Ht'.
  rewrite !fold_left_app. simpl. now rewrite other_line_skipped.
Qed.

(** Entries are added and written to, never taken away. *)
Lemma lcovStep_keeps_files (repoRoot : string) (st : LcovState) (raw : string)
    (k : option string) (m : LineHits) :
  JsMap.get fileKeyEq k (fileLineHits st) = Some m ->
  exists m',
    JsMap.get fileKeyEq k (fileLineHits (lcovStep repoRoot st raw)) = Some m' /\
    forall n h, JsMap.get numKeyEq n m = Some h ->
                exists h', JsMap.get numKeyEq n m' = Some h'.
Proof.
  intros Hg.
  destruct (lcovStep_cases repoRoot st raw)
    as [[_ E]|[(_ & _ & _ & [E|(key & n & h & _ & _ & _ & _ & E)])|[_ E]]];
    rewrite E; clear E.
  - exists m. split; [|eauto]. cbn [fileLineHits].
    destruct (JsMap.has _ _ _); [assumption | now apply JsMapFacts.get_app_found].
  - exists m. split; [assumption | eauto].
  - destruct (JsMapFacts.get_adjust_cases fileKeyEq (JsMap.set numKeyEq n h) k key _ _ Hg)
      as [H|H]; eexists; (split; [exact H|]); eauto.
    intros n' h' Hn. eapply JsMapFacts.get_set_kept, Hn.
  - exists m. split; [assumption | eauto].
Qed.

(** X4: once recorded, a line of a file stays recorded whatever follows
    in the trace: no later section, record or marker removes a file or a
    line from the mapping (a later record of the same line may change its
    count). *)
Theorem parseLcovLines_keeps_entries (repoRoot : string) (before after : list string)
    (k : option string) (m : LineHits) (n h : Q) :
  JsMap.get fileKeyEq k (parseLcovLines repoRoot before) = Some m ->
  JsMap.get numKeyEq n m = Some h ->
  exists m' h',
    JsMap.get fileKeyEq k (parseLcovLines repoRoot (before ++ after)) = Some m' /\
    JsMap.get numKeyEq n m' = Some h'.
Proof.
  unfold parseLcovLines. rewrite fold_left_app.
  generalize (fold_left (lcovStep repoRoot) before lcovInit) as st.
  revert m h. induction after as [|raw rest IH]; intros m h st Hk Hn; simpl.
  - eauto.
  - destruct (lcovStep_keeps_files repoRoot st raw k m Hk) as (m1 & Hk1 & Hkeep).
    destruct (Hkeep n h Hn) as [h1 Hn1]. eapply IH; eassumption.
Qed.

Lemma fold_keeps_file (repoRoot : string) (lines : list string) :
  forall (st : LcovState) (k : option string),
    JsMap.has fileKeyEq k (fileLineHits st) = true ->
    JsMap.has fileKeyEq k (fileLineHits (fold_left (lcovStep repoRoot) lines st)) = true.
Proof.
  induction lines as [|raw rest IH]; intros st k H; [exact H|].
  simpl. apply IH. apply JsMapFacts.has_get in H as [m Hm].
  destruct (lcovStep_keeps_files repoRoot st raw k m Hm) as (m' & Hm' & _).
  apply JsMapFacts.has_get. eauto.
Qed.

(** X5: every source-file line of the trace has an entry in the mapping,
    under the key its path normalises to, even when no record follows
    it. *)
Theorem parseLcov_declares_files (repoRoot text line : string) :
  In line (splitLines text) ->
  Str.startsWith "SF:" line = true ->
  JsMap.has fileKeyEq (sfKey repoRoot line) (parseLcov text repoRoot) = true.
Proof.
  intros Hin Hsf. unfold parseLcov, parseLcovLines.
  destruct (in_split _ _ Hin) as (before & after & ->).
  rewrite fold_left_app. cbn [fold_left]. apply fold_keeps_file.
  set (st := fold_left (lcovStep repoRoot) before lcovInit).
  destruct (lcovStep_cases repoRoot st line) as [[_ ->]|[(Hs & _)|[-> _]]].
  - cbn [fileLineHits].
    destruct (JsMap.has fileKeyEq (sfKey repoRoot line) (fileLineHits st)) eqn:Hh;
      [exact Hh|].
    apply JsMapFacts.has_get. exists [].
    rewrite (JsMapFacts.get_app_absent _ _ _ _ Hh). simpl.
    now rewrite fileKeyEq_refl.
  - unfold staysInSection in Hs. now rewrite Hsf in Hs.
  - discriminate.
Qed.

Lemma fold_keys_declared (repoRoot : string) (lines : list string) :
  forall (st : LcovState) (k : option string),
    In k (map fst (fileLineHits (fold_left (lcovStep repoRoot) lines st))) ->
    In k (map fst (fileLineHits st)) \/
    exists line, In line lines /\ Str.startsWith "SF:" line = true /\
                 k = sfKey repoRoot line.
Proof.
  induction lines as [|raw rest IH]; intros st k H; [now left|].
  simpl in H. destruct (IH _ _ H) as [Hk|(line & Hin & Hsf & ->)].
  - destruct (lcovStep_cases repoRoot st raw)
      as [[Hsf E]|[(_ & _ & _ & [E|(key & n & h & _ & _ & _ & _ & E)])|[_ E]]];
      rewrite E in Hk; cbn [fileLineHits] in Hk.
    + destruct (JsMap.has _ _ _); [now left|].
      rewrite map_app in Hk. apply in_app_or in Hk as [Hk|[<-|[]]]; [now left|].
      right. exists raw. repeat split; [now left | exact Hsf].
    + now left.
    + rewrite JsMapFacts.keys_adjust in Hk. now left.
    + now left.
  - right. exists line. repeat split; [now right | exact Hsf].
Qed.

(** X6: the mapping holds no file but those the source-file lines of the
    trace declare: each key is the normalised path of some [SF:] line. *)
Theorem parseLcov_keys_declared (repoRoot text : string) (k : option string) :
  In k (map fst (parseLcov text repoRoot)) ->
  exists line,
    In line (splitLines text) /\ Str.startsWith "SF:" line = true /\
    k = sfKey repoRoot line.
Proof.
  intros H. unfold parseLcov, parseLcovLines in H.
  destruct (fold_keys_declared _ _ _ _ H) as [[]|Hl]. exact Hl.
Qed.

Lemma source_line_opens (repoRoot : string) (st : LcovState) (sf : string) :
  Str.startsWith "SF:" sf = true ->
  inSection (sfKey repoRoot sf) (lcovStep repoRoot st sf).
Proof.
  intros Hsf.
  destruct (lcovStep_cases repoRoot st sf) as [[_ ->]|[(Hs & _)|[-> _]]].
  - repeat split. cbn [fileLineHits].
    destruct (JsMap.has fileKeyEq (sfKey repoRoot sf) (fileLineHits st)) eqn:Hh;
      [exact Hh|].
    apply JsMapFacts.has_get. exists [].
    rewrite (JsMapFacts.get_app_absent _ _ _ _ Hh). simpl.
    now rewrite fileKeyEq_refl.
  - unfold staysInSection in Hs. now rewrite Hsf in Hs.
  - discriminate.
Qed.

Lemma section_stays_open (repoRoot : string) (key : option string)
    (body : list string) :
  forallb staysInSection body = true ->
  forall st, inSection key st ->
             inSection key (fold_left (lcovStep repoRoot) body st).
Proof.
  induction body as [|raw rest IH]; intros Hb st Hst; [exact Hst|].
  simpl in Hb. apply andb_prop in Hb as [Hraw Hrest].
  simpl. apply (IH Hrest). destruct Hst as (Hf & Hl & Hh).
  assert (Hkeep : JsMap.has fileKeyEq key (fileLineHits (lcovStep repoRoot st raw)) = true).
  { apply JsMapFacts.has_get in Hh as [m Hm].
    destruct (lcovStep_keeps_files repoRoot st raw key m Hm) as (m' & Hm' & _).
    apply JsMapFacts.has_get. eauto. }
  unfold staysInSection in Hraw. apply andb_prop in Hraw as [Hs He].
  apply negb_true_iff in Hs, He.
  destruct (lcovStep_cases repoRoot st raw) as [[Hsf _]|[(_ & Hf' & Hl' & _)|[-> _]]].
  - congruence.
  - repeat split; congruence.
  - discriminate.
Qed.

Lemma get_set_other (n n' h' : Q) (m : LineHits) :
  numKeyEq n' n = false ->
  JsMap.get numKeyEq n (JsMap.set numKeyEq n' h' m) = JsMap.get numKeyEq n m.
Proof.
  intros Hne.
  assert (Hsym : numKeyEq n n' = false).
  { unfold numKeyEq in *. destruct (Qeq_bool n n') eqn:E; [|reflexivity].
    apply Qeq_bool_iff in E. symmetry in E. apply Qeq_bool_iff in E. congruence. }
  induction m as [|[k v] r IH]; simpl.
  - now rewrite Hsym.
  - destruct (numKeyEq n' k) eqn:E1; simpl.
    + destruct (numKeyEq n k) eqn:E2; [|reflexivity].
      unfold numKeyEq in *. apply Qeq_bool_iff in E1, E2.
      assert (H : Qeq_bool n' n = true)
        by (apply Qeq_bool_iff; now rewrite E1, E2).
      congruence.
    + destruct (numKeyEq n k); [reflexivity | exact IH].
Qed.

Lemma get_adjust_other (f : LineHits -> LineHits) (k k' : option string)
    (m : FileLineHits) :
  fileKeyEq k' k = false ->
  JsMap.get fileKeyEq k (JsMap.adjust fileKeyEq f k' m) = JsMap.get fileKeyEq k m.
Proof.
  intros Hne. induction m as [|[k0 v0] r IH]; [reflexivity|].
  simpl. destruct (fileKeyEq k' k0) eqn:E1; simpl.
  - apply fileKeyEq_eq in E1. subst k0.
    destruct (fileKeyEq k k') eqn:E2; [|reflexivity].
    apply fileKeyEq_eq in E2. subst k'. now rewrite fileKeyEq_refl in Hne.
  - destruct (fileKeyEq k k0); [reflexivity | exact IH].
Qed.

(** What is left of the trace after a record does not touch it, unless it
    records the same line in a section of the same file. *)
Lemma later_lines_keep_record (repoRoot : string) (key : option string) (n h : Q)
    (rest : list string) :
  forall (opened : bool) (st : LcovState),
    noLaterRecord repoRoot key n opened rest = true ->
    (if opened then currentFile st = key /\ currentLines st = Some key
     else forall k', currentLines st = Some k' -> fileKeyEq k' key = false) ->
    (exists m, JsMap.get fileKeyEq key (fileLineHits st) = Some m /\
               JsMap.get numKeyEq n m = Some h) ->
    exists m,
      JsMap.get fileKeyEq key (fileLineHits (fold_left (lcovStep repoRoot) rest st))
      = Some m /\
      JsMap.get numKeyEq n m = Some h.
Proof.
  induction rest as [|raw rest IH]; intros opened st Hno Hst Hrec; [exact Hrec|].
  cbn [fold_left]. cbn [noLaterRecord] in Hno.
  destruct Hrec as (m & Hm & Hn).
  destruct (lcovStep_cases repoRoot st raw)
    as [[Hsf E]|[(Hstay & Hf' & Hl' & Hfiles)|[-> E]]].
  - rewrite Hsf in Hno. apply (IH _ _ Hno); rewrite E;
      cbn [currentFile currentLines fileLineHits].
    + destruct (fileKeyEq (sfKey repoRoot raw) key) eqn:Hk.
      * apply fileKeyEq_eq in Hk. now rewrite Hk.
      * intros k' [= <-]. exact Hk.
    + exists m. split; [|exact Hn].
      destruct (JsMap.has _ _ _); [exact Hm | now apply JsMapFacts.get_app_found].
  - unfold staysInSection in Hstay. apply andb_prop in Hstay as [Hsf He].
    apply negb_true_iff in Hsf, He. rewrite Hsf, He in Hno.
    apply andb_prop in Hno as [Hthis Hno]. apply negb_true_iff in Hthis.
    apply (IH _ _ Hno).
    + rewrite Hf', Hl'. exact Hst.
    + destruct Hfiles as [E|(key0 & n0 & h0 & Hda & _ & Hcl & Hp & E)]; rewrite E.
      * eauto.
      * destruct opened.
        -- destruct Hst as [_ Hl]. rewrite Hl in Hcl. injection Hcl as <-.
           unfold recordsLine in Hthis. rewrite Hda, Hp in Hthis. cbn in Hthis.
           exists (JsMap.set numKeyEq n0 h0 m). split.
           ++ now apply JsMapFacts.get_adjust_same.
           ++ now rewrite get_set_other.
        -- exists m. split; [|exact Hn].
           now rewrite get_adjust_other by (now apply Hst).
  - cbn in Hno. apply (IH _ _ Hno); rewrite E;
      cbn [currentFile currentLines fileLineHits].
    + discriminate.
    + eauto.
Qed.

(** X7: the count stored for a line of a file is that of its last
    record: after a well-formed record [lineNo,hits] in a section of a
    file, when what follows in the trace holds no record of that line in a
    section of that file, the mapping returned for the file holds [hits] at
    [lineNo], whatever earlier records said of that line (counts are
    overwritten, not summed). *)
Theorem parseLcov_last_record_wins (repoRoot text sf da : string)
    (before body rest : list string) (n h : Q) :
  splitLines text = (before ++ sf :: body ++ da :: rest)%list ->
  Str.startsWith "SF:" sf = true ->
  truthyFile (sfKey repoRoot sf) = true ->
  forallb staysInSection body = true ->
  Str.startsWith "DA:" da = true ->
  parseDA da = Some (n, h) ->
  noLaterRecord repoRoot (sfKey repoRoot sf) n true rest = true ->
  exists m,
    JsMap.get fileKeyEq (sfKey repoRoot sf) (parseLcov text repoRoot) = Some m /\
    JsMap.get numKeyEq n m = Some h.
Proof.
  intros Ht Hsf Htruthy Hbody Hda Hp Hrest. unfold parseLcov, parseLcovLines.
  rewrite Ht.
  rewrite fold_left_app. cbn [fold_left]. rewrite fold_left_app. cbn [fold_left].
  pose proof (section_stays_open repoRoot _ body Hbody _
                (source_line_opens repoRoot
                   (fold_left (lcovStep repoRoot) before lcovInit) sf Hsf))
    as (Hf & Hl & Hh).
  set (st := fold_left (lcovStep repoRoot) body _) in *.
  apply JsMapFacts.has_get in Hh as [m Hm].
  assert (E : lcovStep repoRoot st da
              = mkLcovState
                  (JsMap.adjust fileKeyEq (JsMap.set numKeyEq n h)
                     (sfKey repoRoot sf) (fileLineHits st))
                  (sfKey repoRoot sf) (Some (sfKey repoRoot sf))).
  { unfold lcovStep. rewrite (data_line_not_source _ Hda), Hda, Hf, Htruthy, Hl, Hp.
    reflexivity. }
  rewrite E. apply (later_lines_keep_record repoRoot _ n h rest true _ Hrest).
  - split; reflexivity.
  - exists (JsMap.set numKeyEq n h m). split.
    + now apply JsMapFacts.get_adjust_same.
    + apply JsMapFacts.get_set_same, numKeyEq_refl.
Qed.

(** X8: a section whose path normalises to nothing (a blank [SF:] line,
    or the root followed by a slash) keeps its entry but loses its data: the records that
    follow its declaration are dropped. *)
Theorem parseLcov_blank_section_drops_data (repoRoot text text' sf : string)
    (before body after : list string) :
  splitLines text = (before ++ sf :: body ++ after)%list ->
  splitLines text' = (before ++ sf :: after)%list ->
  Str.startsWith "SF:" sf = true ->
  truthyFile (sfKey repoRoot sf) = false ->
  forallb (Str.startsWith "DA:") body = true ->
  parseLcov text repoRoot = parseLcov text' repoRoot.
Proof.
  intros Ht Ht' Hsf Hfalsy Hbody. unfold parseLcov, parseLcovLines. rewrite Ht, Ht'.
  clear Ht Ht'.
  rewrite !fold_left_app. cbn [fold_left]. rewrite fold_left_app. f_equal. f_equal.
  pose proof (source_line_opens repoRoot
                (fold_left (lcovStep repoRoot) before lcovInit) sf Hsf) as (Hf & _).
  revert Hf. generalize (lcovStep repoRoot (fold_left (lcovStep repoRoot) before lcovInit) sf).
  induction body as [|raw rest IH]; intros st Hf; [reflexivity|].
  simpl in Hbody. apply andb_prop in Hbody as [Hraw Hrest].
  assert (E : lcovStep repoRoot st raw = st).
  { unfold lcovStep.
    rewrite (data_line_not_source _ Hraw), Hraw, (data_line_not_marker _ Hraw), Hf, Hfalsy.
    reflexivity. }
  simpl. rewrite E. exact (IH Hrest st Hf).
Qed.

End LcovMore.

(** ** Line endings of a trace *)

Module SplitFacts.
Import Str StrFacts.

Lemma split_nonempty (c : ascii) (s : string) : split c s <> [].
Proof.
  destruct s as [|a t]; simpl; [discriminate|].
  destruct (split c t); [discriminate|]. destruct (Ascii.eqb a c); discriminate.
Qed.

Lemma split_no_separator (c : ascii) (l : string) :
  count c l = 0 -> split c l = [l].
Proof.
  induction l as [|a t IH]; simpl; [reflexivity|].
  destruct (Ascii.eqb a c); [discriminate|]. simpl. intros H. now rewrite IH.
Qed.

Lemma split_at_separator (c : ascii) (l rest : string) :
  count c l = 0 -> split c (l ++ String c rest) = l :: split c rest.
Proof.
  induction l as [|a t IH]; simpl.
  - intros _. rewrite Ascii.eqb_refl.
    destruct (split c rest) eqn:E; [now apply split_nonempty in E | reflexivity].
  - destruct (Ascii.eqb a c); [discriminate|]. simpl. intros H. now rewrite IH.
Qed.

Lemma dropFinalCR_added (l : string) : dropFinalCR (l ++ String CR "") = l.
Proof.
  induction l as [|a t IH]; [reflexivity|].
  change (String a t ++ String CR "") with (String a (t ++ String CR "")).
  cbn [dropFinalCR]. rewrite IH.
  destruct t; simpl; now rewrite andb_false_r.
Qed.

Lemma dropCRs_cons (p : string) (r : list string) :
  r <> [] -> dropCRs (p :: r) = dropFinalCR p :: dropCRs r.
Proof. destruct r; [contradiction | reflexivity]. Qed.

Lemma split_joined (sep : string) (ls : list string) :
  ls <> [] -> Forall (fun l => count LF l = 0) ls ->
  count LF sep = 0 ->
  split LF (String.concat (sep ++ String LF "") ls)
  = (map (fun l => (l ++ sep)%string) (removelast ls) ++ [last ls ""])%list.
Proof.
  intros Hne Hall Hsep. induction ls as [|x [|y r] IH]; [contradiction | |].
  - inversion Hall; subst. simpl. now apply split_no_separator.
  - inversion Hall as [|? ? Hx Hrest]; subst.
    change (String.concat (sep ++ String LF "") (x :: y :: r))
      with (x ++ (sep ++ String LF "") ++ String.concat (sep ++ String LF "") (y :: r)).
    rewrite <- !append_assoc. rewrite append_assoc.
    change (String LF "" ++ ?t) with (String LF t).
    rewrite split_at_separator by (rewrite count_append; lia).
    rewrite IH by (discriminate || assumption). reflexivity.
Qed.

Lemma dropCRs_restores (l : list string) (x : string) :
  dropCRs (map (fun p => (p ++ String CR "")%string) l ++ [x])%list = (l ++ [x])%list.
Proof.
  induction l as [|p r IH]; [reflexivity|].
  cbn [map app]. rewrite dropCRs_cons by (now destruct (map _ r)).
  now rewrite dropFinalCR_added, IH.
Qed.

Lemma map_append_nil (l : list string) : map (fun p => p ++ "") l = l.
Proof.
  induction l as [|p r IH]; [reflexivity|]. simpl. now rewrite append_nil_r, IH.
Qed.

End SplitFacts.

(** X9: a trace whose lines end in carriage return and line feed is read
    as its lines: when no line holds a line feed, the lines joined by CR LF
    are split back into themselves, so that the trace parses as the list of
    its lines; joined by a bare line feed they are split back with one
    final carriage return removed from each line but the last. *)
Theorem parseLcov_line_endings {RT : JsRuntime} (repoRoot : string)
    (ls : list string) :
  ls <> [] ->
  Forall (fun l => Str.count Str.LF l = 0) ls ->
  splitLines (String.concat CRLF ls) = ls /\
  parseLcov (String.concat CRLF ls) repoRoot = parseLcovLines repoRoot ls /\
  splitLines (String.concat (String Str.LF "") ls) = dropCRs ls.
Proof.
  intros Hne Hall.
  assert (H1 : splitLines (String.concat CRLF ls) = ls).
  { unfold splitLines.
    change CRLF with (String Str.CR "" ++ String Str.LF "").
    rewrite SplitFacts.split_joined by (assumption || reflexivity).
    rewrite SplitFacts.dropCRs_restores.
    symmetry. now apply app_removelast_last. }
  split; [exact H1|]. split.
  - unfold parseLcov. now rewrite H1.
  - unfold splitLines.
    change (String Str.LF "") with ("" ++ String Str.LF "") at 1.
    rewrite SplitFacts.split_joined by (assumption || reflexivity).
    rewrite SplitFacts.map_append_nil. f_equal.
    symmetry. now apply app_removelast_last.
Qed.

(** ** Coverage summary reader and quality gate: documents of any shape *)

Section SummaryMore.

Context {RT : JsRuntime}.

Lemma jsOr_emptyObject_truthy (v : JsVal) : truthy (jsOr v emptyObject) = true.
Proof. unfold jsOr. destruct (truthy v) eqn:E; [exact E | reflexivity]. Qed.

Lemma getProp_truthy (v : JsVal) (k : string) :
  truthy v = true -> exists x, getProp v k = Some x.
Proof.
  destruct v; simpl; try discriminate; eauto.
  destruct (lookupField k fields); eauto.
Qed.

Lemma readCoverageSummary_some (raw t : JsVal) :
  getProp raw "total" = Some t ->
  exists l b f s,
    readCoverageSummary raw
    = Some (mkMetrics (jsOr l emptyObject) (jsOr b emptyObject)
                      (jsOr f emptyObject) (jsOr s emptyObject)) /\
    getProp (jsOr t emptyObject) "lines" = Some l /\
    getProp (jsOr t emptyObject) "branches" = Some b /\
    getProp (jsOr t emptyObject) "functions" = Some f /\
    getProp (jsOr t emptyObject) "statements" = Some s.
Proof.
  intros Ht. unfold readCoverageSummary. rewrite Ht. unfold obind at 1.
  pose proof (jsOr_emptyObject_truthy t) as Htr.
  destruct (getProp_truthy _ "lines" Htr) as [l Hl].
  destruct (getProp_truthy _ "branches" Htr) as [b Hb].
  destruct (getProp_truthy _ "functions" Htr) as [f Hf].
  destruct (getProp_truthy _ "statements" Htr) as [s Hs].
  exists l, b, f, s. rewrite Hl, Hb, Hf, Hs. repeat split.
Qed.

(** X10: the reader rejects no document but [null]: for any other parsed
    document it returns four metrics, each of them an object or another
    truthy value, so that reading [pct], [covered] or [total] on a metric
    never raises; a document without a usable [total] gives four empty
    objects. *)
Theorem readCoverageSummary_accepts_any_shape (raw : JsVal) :
  (readCoverageSummary raw = None <-> raw = VNull \/ raw = VUndefined) /\
  (forall m, readCoverageSummary raw = Some m ->
     forall k, truthy (metricOf k m) = true /\
       (exists v, getProp (metricOf k m) "pct" = Some v) /\
       (exists v, getProp (metricOf k m) "covered" = Some v) /\
       (exists v, getProp (metricOf k m) "total" = Some v)) /\
  (forall t, getProp raw "total" = Some t -> truthy t = false ->
     readCoverageSummary raw
     = Some (mkMetrics emptyObject emptyObject emptyObject emptyObject)).
Proof.
  split; [|split].
  - destruct (getProp raw "total") as [t|] eqn:Ht.
    + destruct (readCoverageSummary_some raw t Ht) as (l & b & f & s & -> & _).
      split; [discriminate|]. intros [->| ->]; discriminate.
    + unfold readCoverageSummary. rewrite Ht. split; [|reflexivity].
      intros _. destruct raw; simpl in Ht; try discriminate; auto.
      destruct (lookupField "total" fields); discriminate.
  - intros m Hm k.
    assert (Ht : truthy (metricOf k m) = true).
    { destruct (getProp raw "total") as [t|] eqn:E.
      - destruct (readCoverageSummary_some raw t E) as (l & b & f & s & Hr & _).
        rewrite Hr in Hm. injection Hm as <-.
        destruct k; apply jsOr_emptyObject_truthy.
      - unfold readCoverageSummary in Hm. rewrite E in Hm. discriminate. }
    split; [exact Ht|]. repeat split; now apply getProp_truthy.
  - intros t Ht Hf. unfold readCoverageSummary. rewrite Ht. unfold obind at 1.
    assert (E : jsOr t emptyObject = emptyObject) by (unfold jsOr; now rewrite Hf).
    rewrite E. reflexivity.
Qed.

(** X11: a total line percentage that converts to no finite number (the
    text a reporter writes for an empty total, a missing field) counts as
    0: the gate is computed, its value is 0, and it passes exactly when the
    threshold is not positive. *)
Theorem qualityGate_without_percentage (metrics : Metrics) (thr : Q)
    (p : JsVal) (n : JsNumber) :
  getProp (lines metrics) "pct" = Some p ->
  Number p = Some n ->
  isFinite n = false ->
  qualityGate metrics (Finite thr)
  = Some (mkQualityGate "lines" (Finite thr) (Finite 0)
            (if Qle_bool thr 0 then "PASS" else "FAIL")).
Proof.
  intros Hp Hn Hf. unfold qualityGate, linePct, obind, asNumber.
  now rewrite Hp, Hn, Hf.
Qed.

(** X12: the verdict is monotone in the threshold: a summary that passes
    a threshold passes every lower one, and one that fails a threshold
    fails every higher one. *)
Theorem gate_monotone (metrics : Metrics) (low high : Q) :
  (low <= high)%Q ->
  (gateOf metrics (Finite high) = Some "PASS" ->
   gateOf metrics (Finite low) = Some "PASS") /\
  (gateOf metrics (Finite low) = Some "FAIL" ->
   gateOf metrics (Finite high) = Some "FAIL").
Proof.
  intros Hle. unfold gateOf, obind.
  destruct (linePct metrics) as [v|] eqn:E; [|split; discriminate].
  unfold linePct, obind in E.
  destruct (getProp (lines metrics) "pct") as [p|]; [|discriminate].
  destruct (asNumber_finite _ _ _ E) as [q ->]. simpl.
  destruct (Qle_bool high q) eqn:H1, (Qle_bool low q) eqn:H2;
    split; try discriminate; try reflexivity; intros _; exfalso.
  - apply Qle_bool_iff in H1.
    assert (Qle_bool low q = true) by (apply Qle_bool_iff; eapply Qle_trans; eassumption).
    congruence.
  - apply Qle_bool_iff in H1.
    assert (Qle_bool low q = true) by (apply Qle_bool_iff; eapply Qle_trans; eassumption).
    congruence.
Qed.

End SummaryMore.

(** ** The counts of [report.json] against the painted rows *)

Module CountFacts.

Lemma filter_length_or {A : Type} (p q r : A -> bool) (l : list A) :
  (forall x, p x = true -> q x = true \/ r x = true) ->
  List.length (filter p l) <= List.length (filter q l) + List.length (filter r l).
Proof.
  intros H. induction l as [|x l IH]; [simpl; lia|].
  simpl. destruct (p x) eqn:Hp.
  - destruct (H x Hp) as [-> | ->]; destruct (q x), (r x); simpl; lia.
  - destruct (q x), (r x); simpl; lia.
Qed.

Lemma filter_none {A : Type} (p : A -> bool) (l : list A) :
  (forall x, p x = false) -> filter p l = [].
Proof.
  intros H. induction l as [|x l IH]; [reflexivity|]. simpl. now rewrite H.
Qed.

Lemma lineNoOf_inj (i j : nat) : numKeyEq (lineNoOf i) (lineNoOf j) = true -> i = j.
Proof.
  unfold numKeyEq, lineNoOf. intros H. apply Qeq_bool_iff in H.
  unfold Qeq in H. simpl in H. lia.
Qed.

Lemma numKeyEq_trans_false (x y k : Q) :
  numKeyEq x k = true -> numKeyEq y k = true -> numKeyEq x y = true.
Proof.
  unfold numKeyEq. rewrite !Qeq_bool_iff. intros H1 H2. now rewrite H1, H2.
Qed.

(** At most one row bears a given line number. *)
Lemma one_row_per_line (k : Q) (n a : nat) :
  List.length (filter (fun i => numKeyEq (lineNoOf i) k) (seq a n)) <= 1.
Proof.
  revert a. induction n as [|n IH]; intros a; [simpl; lia|].
  cbn [seq filter]. destruct (numKeyEq (lineNoOf a) k) eqn:E; [|apply IH].
  assert (H : filter (fun i => numKeyEq (lineNoOf i) k) (seq (S a) n) = []).
  { destruct (filter _ (seq (S a) n)) as [|i r] eqn:F; [reflexivity|].
    assert (Hi : In i (filter (fun i => numKeyEq (lineNoOf i) k) (seq (S a) n)))
      by (rewrite F; now left).
    apply filter_In in Hi as [Hin Hk]. apply in_seq in Hin.
    pose proof (lineNoOf_inj _ _ (numKeyEq_trans_false _ _ _ E Hk)). lia. }
  rewrite H. simpl. lia.
Qed.

Lemma covered_rows_bound (m : LineHits) (a n : nat) :
  List.length (filter (fun i => coveredIn m (lineNoOf i)) (seq a n))
  <= List.length (filter positiveHits m).
Proof.
  induction m as [|[k h] r IH]; simpl.
  - rewrite filter_none by reflexivity. simpl. lia.
  - pose proof (filter_length_or
                  (fun i => coveredIn ((k, h) :: r) (lineNoOf i))
                  (fun i => numKeyEq (lineNoOf i) k && positiveHits (k, h))
                  (fun i => coveredIn r (lineNoOf i)) (seq a n)) as Hor.
    assert (Hone : List.length
                     (filter (fun i => numKeyEq (lineNoOf i) k && positiveHits (k, h))
                             (seq a n))
                   <= if positiveHits (k, h) then 1 else 0).
    { destruct (positiveHits (k, h)).
      - rewrite (filter_ext _ (fun i => numKeyEq (lineNoOf i) k))
          by (intros; apply andb_true_r).
        apply one_row_per_line.
      - rewrite filter_none by (intros; apply andb_false_r). simpl. lia. }
    assert (Hcase : forall x,
               coveredIn ((k, h) :: r) (lineNoOf x) = true ->
               numKeyEq (lineNoOf x) k && positiveHits (k, h) = true \/
               coveredIn r (lineNoOf x) = true).
    { intros x. unfold coveredIn, positiveHits. simpl.
      destruct (numKeyEq (lineNoOf x) k); simpl; auto. }
    specialize (Hor Hcase).
    destruct (positiveHits (k, h)); simpl; lia.
Qed.

Lemma painted_is_covered (f : FileRec) (m : LineHits) (i : nat) :
  lineHits f = Some m ->
  negb (String.eqb (lineClass f (lineNoOf i)) "uncovered") = coveredIn m (lineNoOf i).
Proof.
  intros Hm.
  assert (E : isCovered f (lineNoOf i) = coveredIn m (lineNoOf i))
    by (unfold isCovered, hitsAt, coveredIn; now rewrite Hm).
  rewrite <- E.
  destruct (ClassFacts.lineClass_cases f (lineNoOf i))
    as [(-> & -> & _)|[(-> & _ & -> & _)|(-> & _ & -> & _)]]; reflexivity.
Qed.

End CountFacts.

(** X13: in an entry of [report.json], the count of covered lines is at
    most the count of instrumented lines, and it is at least the number of
    rows that the interactive report paints as covered for the file (it is
    larger when the trace records hits for line numbers that the file does
    not have). *)
Theorem report_counts_bound_rows (f : FileRec) (e : ReportFileEntry) :
  reportFileEntry f = Some e ->
  List.length (paintedRows f) <= coveredLineCount e /\
  coveredLineCount e <= instrumentedLineCount e.
Proof.
  unfold reportFileEntry. destruct (lineHits f) as [m|] eqn:Hm; [|discriminate].
  intros [= <-]. cbn [coveredLineCount instrumentedLineCount]. split.
  - unfold paintedRows.
    rewrite (filter_ext _ (fun i => coveredIn m (lineNoOf i)))
      by (intros i; now apply CountFacts.painted_is_covered).
    apply CountFacts.covered_rows_bound.
  - apply filter_length_le.
Qed.

(** ** Comment synchroniser: what a run leaves alone *)

Module PrCommentMore.
Import PrComment.

Lemma found_is_marked (marker : string) (r : Remote) (e : Comment) :
  find (isMarked marker) (apiList r) = Some e ->
  In e (comments r) /\ isMarked marker e = true.
Proof.
  intros H. apply find_some in H as [Hin Hm].
  split; [now apply PrCommentFacts.in_firstn in Hin | exact Hm].
Qed.

Lemma delete_removes_one (cs : list Comment) (e : Comment) :
  NoDup (map id cs) -> In e cs ->
  S (List.length (filter (fun c => negb (hasId (id e) c)) cs)) = List.length cs.
Proof.
  induction cs as [|c cs IH]; simpl; [contradiction|].
  intros Hnd [->|Hin]; inversion Hnd as [|? ? Hnotin Hnd']; subst.
  - unfold hasId at 1. rewrite Z.eqb_refl. simpl. f_equal.
    rewrite forallb_filter_id; [reflexivity|].
    apply forallb_forall. intros x Hx. unfold hasId.
    destruct (Z.eqb_spec (id x) (id e)) as [E|]; [|reflexivity].
    elim Hnotin. rewrite <- E. now apply in_map.
  - unfold hasId at 1. destruct (Z.eqb_spec (id c) (id e)) as [E|].
    + elim Hnotin. rewrite E. now apply in_map.
    + simpl. f_equal. now apply IH.
Qed.

Lemma wellFormed_delete (r : Remote) (i : Z) :
  wellFormed r ->
  wellFormed (mkRemote (filter (fun c => negb (hasId i c)) (comments r)) (nextId r)).
Proof.
  intros [Hnd Hlt]. split; cbn [comments nextId].
  - clear Hlt. induction (comments r) as [|c cs IH]; simpl; [constructor|].
    inversion Hnd as [|? ? Hnotin Hnd']; subst.
    destruct (negb (hasId i c)); [|now apply IH].
    simpl. constructor; [|now apply IH].
    intros H. apply Hnotin. apply in_map_iff in H as (x & Hx & Hin).
    apply filter_In in Hin as [Hin _]. rewrite <- Hx. now apply in_map.
  - apply Forall_forall. intros c Hc. apply filter_In in Hc as [Hc _].
    rewrite Forall_forall in Hlt. now apply Hlt.
Qed.

Lemma wellFormed_edit (r : Remote) (i : Z) (b : string) :
  wellFormed r ->
  wellFormed (mkRemote (map (edited i b) (comments r)) (nextId r)).
Proof.
  intros [Hnd Hlt]. split; cbn [comments nextId].
  - rewrite map_map. rewrite (map_ext _ id); [exact Hnd|].
    intros x. unfold edited. now destruct (hasId i x).
  - apply Forall_map. eapply Forall_impl; [|exact Hlt].
    intros x Hx. unfold edited. now destruct (hasId i x).
Qed.

End PrCommentMore.

(** X14: whatever the strategy, a run on a thread that it alone mutates
    succeeds (the comment it edits or deletes is one it has just listed),
    leaves every comment that does not bear the marker as it was, never
    makes the thread shorter and adds at most one comment, and keeps
    identifiers distinct. *)
Theorem upsert_spares_other_comments (strategy marker b : string)
    (r : PrComment.Remote) :
  PrComment.wellFormed r ->
  exists r',
    PrComment.upsertPrComment strategy marker b r = Some r' /\
    (forall c, In c (PrComment.comments r) ->
               PrComment.isMarked marker c = false ->
               In c (PrComment.comments r')) /\
    List.length (PrComment.comments r) <= List.length (PrComment.comments r') /\
    List.length (PrComment.comments r') <= S (List.length (PrComment.comments r)) /\
    PrComment.wellFormed r'.
Proof.
  intros Hwf. unfold PrComment.upsertPrComment.
  assert (Hcreate : forall r0 : PrComment.Remote,
            PrComment.wellFormed r0 ->
            (forall c, In c (PrComment.comments r) ->
                       PrComment.isMarked marker c = false ->
                       In c (PrComment.comments r0)) ->
            List.length (PrComment.comments r) <= S (List.length (PrComment.comments r0)) ->
            List.length (PrComment.comments r0) <= List.length (PrComment.comments r) ->
            exists r', Some (PrComment.apiCreate b r0) = Some r' /\
              (forall c, In c (PrComment.comments r) ->
                         PrComment.isMarked marker c = false ->
                         In c (PrComment.comments r')) /\
              List.length (PrComment.comments r) <= List.length (PrComment.comments r') /\
              List.length (PrComment.comments r') <= S (List.length (PrComment.comments r)) /\
              PrComment.wellFormed r').
  { intros r0 Hwf0 Hkeep Hlo Hhi. eexists. split; [reflexivity|].
    unfold PrComment.apiCreate at 1 2 3. cbn [PrComment.comments].
    rewrite length_app. cbn [List.length].
    split; [|split; [lia|split; [lia|now apply PrCommentFacts.wellFormed_create]]].
    intros c Hc Hm. apply in_or_app. left. now apply Hkeep. }
  destruct (find (PrComment.isMarked marker) (PrComment.apiList r)) as [e|] eqn:Hfind.
  2: { apply Hcreate; auto. }
  destruct (PrCommentMore.found_is_marked _ _ _ Hfind) as [Hin Hmark].
  destruct (String.eqb strategy "ADD"); [apply Hcreate; auto|].
  destruct Hwf as [Hnd Hlt].
  assert (Hother : forall c, In c (PrComment.comments r) ->
            PrComment.isMarked marker c = false ->
            PrComment.hasId (PrComment.id e) c = false).
  { intros c Hc Hm. unfold PrComment.hasId.
    destruct (Z.eqb_spec (PrComment.id c) (PrComment.id e)) as [E|]; [|reflexivity].
    rewrite (PrCommentFacts.nodup_ids_inj _ _ _ Hnd Hc Hin E) in Hm. congruence. }
  destruct (String.eqb strategy "REMOVE").
  - unfold PrComment.apiDelete. rewrite (PrCommentFacts.existsb_hasId _ _ Hin).
    unfold obind. pose proof (PrCommentMore.delete_removes_one _ _ Hnd Hin) as Hlen.
    apply Hcreate; cbn [PrComment.comments].
    + apply PrCommentMore.wellFormed_delete. now split.
    + intros c Hc Hm. apply filter_In. split; [exact Hc|].
      now rewrite (Hother c Hc Hm).
    + lia.
    + lia.
  - unfold PrComment.apiUpdate. rewrite (PrCommentFacts.existsb_hasId _ _ Hin).
    eexists. split; [reflexivity|]. cbn [PrComment.comments].
    rewrite length_map.
    split; [|split; [lia|split; [lia|]]].
    + intros c Hc Hm. apply in_map_iff. exists c. split; [|exact Hc].
      unfold PrComment.edited. now rewrite (Hother c Hc Hm).
    + apply (PrCommentMore.wellFormed_edit r). now split.
Qed.

(** X15: a run with any strategy but [ADD] and [REMOVE] that lists a
    marked comment edits the first of them in place: no comment is created
    or deleted, the identifiers and their order are those of before, the
    next identifier is untouched, and the comment found now has the given
    body. *)
Theorem update_keeps_identity (strategy marker b : string) (r : PrComment.Remote)
    (e : PrComment.Comment) :
  find (PrComment.isMarked marker) (PrComment.apiList r) = Some e ->
  strategy <> "ADD" -> strategy <> "REMOVE" ->
  exists r',
    PrComment.upsertPrComment strategy marker b r = Some r' /\
    map PrComment.id (PrComment.comments r') = map PrComment.id (PrComment.comments r) /\
    PrComment.nextId r' = PrComment.nextId r /\
    In (PrComment.mkComment (PrComment.id e) (VStr b)) (PrComment.comments r') /\
    (forall c, In c (PrComment.comments r) -> PrComment.id c <> PrComment.id e ->
               In c (PrComment.comments r')).
Proof.
  intros Hfind Ha Hr. unfold PrComment.upsertPrComment. rewrite Hfind.
  apply String.eqb_neq in Ha, Hr. rewrite Ha, Hr.
  destruct (PrCommentMore.found_is_marked _ _ _ Hfind) as [Hin _].
  unfold PrComment.apiUpdate. rewrite (PrCommentFacts.existsb_hasId _ _ Hin).
  eexists. split; [reflexivity|]. cbn [PrComment.comments PrComment.nextId].
  repeat split.
  - rewrite map_map. apply map_ext. intros x. unfold PrComment.edited.
    now destruct (PrComment.hasId (PrComment.id e) x).
  - apply in_map_iff. exists e. split; [|exact Hin].
    unfold PrComment.edited, PrComment.hasId. now rewrite Z.eqb_refl.
  - intros c Hc Hne. apply in_map_iff. exists c. split; [|exact Hc].
    unfold PrComment.edited, PrComment.hasId.
    destruct (Z.eqb_spec (PrComment.id c) (PrComment.id e)); [contradiction | reflexivity].
Qed.

(** ** HTML escaping: nothing is lost, nothing is escaped twice *)

Module EscapeMore.
Import Str StrFacts.

Ltac by_character a :=
  destruct (Ascii.eqb_spec a "&") as [->|?];
  [|destruct (Ascii.eqb_spec a "<") as [->|?];
    [|destruct (Ascii.eqb_spec a ">") as [->|?];
      [|destruct (Ascii.eqb_spec a "034") as [->|?];
        [|destruct (Ascii.eqb_spec a "'") as [->|?]]]]].

Lemma escapeChar_cancel (a b : ascii) (x y : string) :
  escapeChar a ++ x = escapeChar b ++ y -> a = b /\ x = y.
Proof.
  unfold escapeChar. by_character a; by_character b; simpl; intros H;
    try discriminate H; injection H; intros; subst; try contradiction; auto.
Qed.

Lemma escapeChar_nonempty (a : ascii) (x : string) : escapeChar a ++ x <> "".
Proof. unfold escapeChar. by_character a; discriminate. Qed.

Lemma escapeChar_plain (a : ascii) : reserved a = false -> escapeChar a = String a "".
Proof.
  unfold reserved, escapeChar. intros H.
  repeat (apply orb_false_elim in H as [H ?]). now rewrite H, H3, H2, H1, H0.
Qed.

Lemma escapeChar_longer (a : ascii) :
  reserved a = true -> 1 < String.length (escapeChar a).
Proof.
  unfold reserved. intros H.
  repeat (apply orb_prop in H as [H|H]); apply Ascii.eqb_eq in H; subst a;
    simpl; lia.
Qed.

Lemma escapeChar_length (a : ascii) : 1 <= String.length (escapeChar a).
Proof. unfold escapeChar. by_character a; simpl; lia. Qed.

Lemma escapeHtml_length (s : string) :
  String.length s <= String.length (escapeHtml s) /\
  (anyReserved s = true -> String.length s < String.length (escapeHtml s)).
Proof.
  induction s as [|a t [IH1 IH2]]; [split; [reflexivity | discriminate]|].
  rewrite EscapeFacts.escapeHtml_cons, length_append.
  pose proof (escapeChar_length a) as H1.
  cbn [String.length anyReserved]. split; [lia|].
  intros H. apply orb_prop in H as [H|H].
  - apply escapeChar_longer in H. lia.
  - specialize (IH2 H). lia.
Qed.

Lemma escapeHtml_injective (s t : string) : escapeHtml s = escapeHtml t -> s = t.
Proof.
  revert t. induction s as [|a s IH]; intros [|b t] H.
  - reflexivity.
  - rewrite EscapeFacts.escapeHtml_cons in H. symmetry in H.
    now apply escapeChar_nonempty in H.
  - rewrite EscapeFacts.escapeHtml_cons in H.
    now apply escapeChar_nonempty in H.
  - rewrite !EscapeFacts.escapeHtml_cons in H.
    apply escapeChar_cancel in H as [-> H]. now rewrite (IH _ H).
Qed.

End EscapeMore.

(** X16: escaping loses nothing and works character by character: two
    texts with the same escaped form are the same text, and the escaped
    form of a concatenation is the concatenation of the escaped forms. *)
Theorem escapeHtml_faithful :
  (forall s t, escapeHtml s = escapeHtml t -> s = t) /\
  (forall a b, escapeHtml (a ++ b) = escapeHtml a ++ escapeHtml b).
Proof.
  split.
  - exact EscapeMore.escapeHtml_injective.
  - induction a as [|x a IH]; intros b; [reflexivity|].
    change (String x a ++ b) with (String x (a ++ b)).
    now rewrite !EscapeFacts.escapeHtml_cons, IH, StrFacts.append_assoc.
Qed.

(** X17: a text is its own escaped form exactly when it holds none of
    the five reserved characters, and escaping an escaped text again
    changes it exactly when the text held one (the ampersand of each entity
    is escaped in turn). *)
Theorem escapeHtml_once (s : string) :
  (escapeHtml s = s <-> anyReserved s = false) /\
  (escapeHtml (escapeHtml s) = escapeHtml s <-> anyReserved s = false).
Proof.
  assert (H1 : escapeHtml s = s <-> anyReserved s = false).
  { split.
    - intros E. destruct (anyReserved s) eqn:R; [|reflexivity].
      apply (proj2 (EscapeMore.escapeHtml_length s)) in R. rewrite E in R. lia.
    - induction s as [|a t IH]; [reflexivity|].
      cbn [anyReserved]. intros H. apply orb_false_elim in H as [Ha Ht].
      rewrite EscapeFacts.escapeHtml_cons, (EscapeMore.escapeChar_plain _ Ha), (IH Ht).
      reflexivity. }
  split; [exact H1|]. rewrite <- H1. split.
  - apply EscapeMore.escapeHtml_injective.
  - intros E. now rewrite E.
Qed.

(** ** What the renderers show *)

Module ShowFacts.
Import Str StrFacts.

Lemma includes_iff (x s : string) :
  includes x s = true <-> exists pre post, s = pre ++ x ++ post.
Proof.
  split; [apply includes_inv|]. intros (pre & post & ->). apply includes_append.
Qed.

Lemma includes_refl (x : string) : includes x x = true.
Proof. apply includes_iff. exists "", "". now rewrite append_nil_r. Qed.

Lemma includes_app_l (x a b : string) :
  includes x a = true -> includes x (a ++ b) = true.
Proof.
  rewrite !includes_iff. intros (pre & post & ->). exists pre, (post ++ b).
  now rewrite !append_assoc.
Qed.

Lemma includes_app_r (x a b : string) :
  includes x b = true -> includes x (a ++ b) = true.
Proof.
  rewrite !includes_iff. intros (pre & post & ->). exists (a ++ pre), post.
  now rewrite !append_assoc.
Qed.

Lemma includes_trans (x y z : string) :
  includes x y = true -> includes y z = true -> includes x z = true.
Proof.
  rewrite !includes_iff. intros (p & q & ->) (p' & q' & ->).
  exists (p' ++ p), (q ++ q'). now rewrite !append_assoc.
Qed.

Lemma includes_concat (sep x : string) (l : list string) :
  In x l -> includes x (String.concat sep l) = true.
Proof.
  induction l as [|y [|z r] IH]; [contradiction | |].
  - intros [->|[]]. apply includes_refl.
  - intros [->|Hin].
    + apply includes_app_l, includes_refl.
    + change (String.concat sep (y :: z :: r))
        with (y ++ sep ++ String.concat sep (z :: r)).
      apply includes_app_r, includes_app_r. now apply IH.
Qed.

Lemma in_mapiFrom {A B : Type} (f : nat -> A -> B) (l : list A) (i : nat) (x : A) :
  nth_error l i = Some x -> forall k, In (f (k + i) x) (mapiFrom k f l).
Proof.
  revert i. induction l as [|y r IH]; intros [|i] H k; try discriminate.
  - injection H as ->. rewrite Nat.add_0_r. now left.
  - right. replace (k + S i) with (S k + i) by lia. now apply IH.
Qed.

Lemma in_mapi {A B : Type} (f : nat -> A -> B) (l : list A) (i : nat) (x : A) :
  nth_error l i = Some x -> In (f i x) (mapi f l).
Proof. intros H. exact (in_mapiFrom f l i x H 0). Qed.

(** *** Through [trim] *)

(** A piece that stands between two parts with visible characters
    outlives [trim]. *)
Lemma includes_trim (pre x post : string) :
  headVisible (trimStart pre) = true -> anyVisible post = true ->
  includes x (trim (pre ++ x ++ post)) = true.
Proof.
  intros Hpre Hpost. unfold trim. rewrite (TrimFacts.trimStart_append _ _ Hpre).
  rewrite <- append_assoc, (TrimFacts.trimEnd_append _ _ Hpost), append_assoc.
  apply includes_append.
Qed.

Lemma trimStart_visible_app (a b : string) :
  headVisible (trimStart a) = true -> headVisible (trimStart (a ++ b)) = true.
Proof.
  intros H. rewrite (TrimFacts.trimStart_append _ _ H).
  destruct (trimStart a); [discriminate | exact H].
Qed.

End ShowFacts.

Module InnerFacts.
Import Str StrFacts ShowFacts.

Lemma Inner_here (x q : string) : anyVisible q = true -> Inner x (x ++ q).
Proof. intros H. now exists "", q. Qed.

Lemma Inner_skip (a x s : string) : Inner x s -> Inner x (a ++ s).
Proof.
  intros (p & q & -> & H). exists (a ++ p), q. now rewrite append_assoc.
Qed.

Lemma Inner_of_includes (x r b : string) :
  includes x r = true -> anyVisible b = true -> Inner x (r ++ b).
Proof.
  intros Hi Hb. apply includes_inv in Hi as (p & q & ->).
  exists p, (q ++ b). split; [now rewrite !append_assoc|].
  now rewrite TrimFacts.anyVisible_append, Hb, orb_true_r.
Qed.

Lemma includes_trim_inner (a x rest : string) :
  headVisible (trimStart a) = true -> Inner x rest ->
  includes x (trim (a ++ rest)) = true.
Proof.
  intros Ha (p & q & -> & Hq).
  rewrite <- append_assoc. apply includes_trim; [|exact Hq].
  now apply trimStart_visible_app.
Qed.

End InnerFacts.

Ltac nonblank_end :=
  unfold dq; cbn [append]; apply TrimFacts.anyVisible_head; reflexivity.

Ltac find_inner :=
  repeat first [ apply InnerFacts.Inner_here; nonblank_end
               | apply InnerFacts.Inner_skip ].

Section ReportShows.

Context {RT : JsRuntime}.

Lemma row_holds_text (f : FileRec) (i : nat) (line : string) :
  Str.includes (escapeHtml line) (reportRow f i line) = true.
Proof.
  unfold reportRow. apply InnerFacts.includes_trim_inner.
  - reflexivity.
  - find_inner.
Qed.

Lemma row_holds_class (f : FileRec) (i : nat) (line : string) :
  Str.includes (lineClass f (lineNoOf i)) (reportRow f i line) = true.
Proof.
  unfold reportRow. apply InnerFacts.includes_trim_inner.
  - reflexivity.
  - find_inner.
Qed.

Lemma section_holds_row (idx : nat) (f : FileRec) (i : nat) (line : string) :
  nth_error (sourceLines f) i = Some line ->
  Str.includes (reportRow f i line) (fileSection idx f) = true.
Proof.
  intros Hl. unfold fileSection. apply InnerFacts.includes_trim_inner.
  - reflexivity.
  - repeat first [ apply InnerFacts.Inner_of_includes;
                   [ apply ShowFacts.includes_concat; now apply ShowFacts.in_mapi
                   | vm_compute; reflexivity ]
                 | apply InnerFacts.Inner_skip ].
Qed.

(** X18: the interactive report has no cap: the row of every source line
    of every file stands in the document, and the row holds the class of
    the line and its text, escaped. *)
Theorem report_shows_every_line (title : string) (files : list FileRec)
    (idx : nat) (f : FileRec) (i : nat) (line : string) :
  nth_error files idx = Some f ->
  nth_error (sourceLines f) i = Some line ->
  Str.includes (reportRow f i line) (buildHtmlReport title files) = true /\
  Str.includes (escapeHtml line) (reportRow f i line) = true /\
  Str.includes (lineClass f (lineNoOf i)) (reportRow f i line) = true.
Proof.
  intros Hf Hl. split; [|split; [apply row_holds_text | apply row_holds_class]].
  apply (ShowFacts.includes_trans _ (fileSection idx f)).
  - now apply section_holds_row.
  - unfold buildHtmlReport.
    do 7 apply ShowFacts.includes_app_r. apply ShowFacts.includes_app_l.
    apply ShowFacts.includes_concat. now apply ShowFacts.in_mapi.
Qed.

End ReportShows.

Section CappedViews.

Context {RT : JsRuntime}.

Lemma shown_line (cap : nat) (f g : FileRec) (i : nat) :
  sameShown cap f g -> i < cap ->
  nth_error (sourceLines f) i = nth_error (sourceLines g) i.
Proof.
  intros (_ & _ & _ & _ & _ & H) Hi.
  assert (E : forall l : list string, nth_error l i = nth_error (firstn cap l) i).
  { intros l. rewrite nth_error_firstn.
    destruct (Nat.ltb_spec i cap); [reflexivity | lia]. }
  now rewrite (E (sourceLines f)), (E (sourceLines g)), H.
Qed.

Lemma shown_paint (cap : nat) (f g : FileRec) (n : Q) :
  sameShown cap f g ->
  lineIndicator f n = lineIndicator g n /\ lineBgColor f n = lineBgColor g n.
Proof.
  intros (_ & Hh & Hf & _).
  unfold lineIndicator, lineBgColor, isFail, isCovered, inFailing, hitsAt.
  now rewrite Hh, Hf.
Qed.

Lemma shown_summaryLine (cap : nat) (f g : FileRec) (i : nat) :
  sameShown cap f g -> i < cap -> summaryLine f i = summaryLine g i.
Proof.
  intros H Hi. unfold summaryLine.
  destruct (shown_paint cap f g (lineNoOf i) H) as [-> ->].
  now rewrite (shown_line cap f g i H Hi).
Qed.

Lemma shown_markdownLine (cap : nat) (f g : FileRec) (i : nat) :
  sameShown cap f g -> i < cap -> markdownLine f i = markdownLine g i.
Proof.
  intros H Hi. unfold markdownLine.
  destruct (shown_paint cap f g (lineNoOf i) H) as [-> _].
  now rewrite (shown_line cap f g i H Hi).
Qed.

Lemma shown_lines (cap : nat) (f g : FileRec) (line : FileRec -> nat -> string) (n : nat) :
  (forall i, i < cap -> line f i = line g i) ->
  map (line f) (seq 0 (Nat.min n cap)) = map (line g) (seq 0 (Nat.min n cap)).
Proof.
  intros H. apply map_ext_in. intros i Hi. apply in_seq in Hi. apply H. lia.
Qed.

Lemma shown_summaryFileSection (cap : nat) (f g : FileRec) :
  sameShown cap f g -> summaryFileSection cap f = summaryFileSection cap g.
Proof.
  intros H. pose proof H as (Hp & _ & _ & Hc & Hn & _).
  unfold summaryFileSection. rewrite Hp, Hc, Hn.
  now rewrite (shown_lines cap f g summaryLine _ (fun i => shown_summaryLine cap f g i H)).
Qed.

Lemma shown_markdownSection (cap : nat) (f g : FileRec) :
  sameShown cap f g -> markdownSection cap f = markdownSection cap g.
Proof.
  intros H. pose proof H as (Hp & _ & _ & Hc & Hn & _).
  unfold markdownSection. rewrite Hp, Hc, Hn.
  now rewrite (shown_lines cap f g markdownLine _ (fun i => shown_markdownLine cap f g i H)).
Qed.

Lemma map_shown {B : Type} (cap : nat) (F : FileRec -> B) (l l' : list FileRec) :
  (forall f g, sameShown cap f g -> F f = F g) ->
  Forall2 (sameShown cap) l l' -> map F l = map F l'.
Proof.
  intros HF H. induction H as [|f g l l' Hfg _ IH]; [reflexivity|].
  simpl. now rewrite (HF f g Hfg), IH.
Qed.

(** X19: the capped views show nothing of what lies beyond their caps
    but its amount: two lists of files of the same length, whose first
    [maxFiles] files agree on everything but the source lines beyond the
    first [maxLinesPerFile] (of which only the number counts), give the
    same step summary and the same Markdown painting. *)
Theorem capped_views_hide_the_rest (title : string) (metrics : Metrics)
    (thr : JsNumber) (files files' : list FileRec) (maxFiles maxLinesPerFile : nat) :
  Forall2 (sameShown maxLinesPerFile) (firstn maxFiles files) (firstn maxFiles files') ->
  List.length files = List.length files' ->
  buildHtmlCodePaintingSummary title metrics thr files maxFiles maxLinesPerFile
  = buildHtmlCodePaintingSummary title metrics thr files' maxFiles maxLinesPerFile /\
  buildCodePaintingMarkdown files maxFiles maxLinesPerFile
  = buildCodePaintingMarkdown files' maxFiles maxLinesPerFile.
Proof.
  intros H Hlen. split.
  - unfold buildHtmlCodePaintingSummary.
    rewrite (map_shown _ (summaryFileSection maxLinesPerFile) _ _
               (shown_summaryFileSection maxLinesPerFile) H).
    now rewrite Hlen.
  - unfold buildCodePaintingMarkdown.
    rewrite (map_shown _ (markdownSection maxLinesPerFile) _ _
               (shown_markdownSection maxLinesPerFile) H).
    now rewrite Hlen.
Qed.

End CappedViews.

Section MarkdownShows.

Context {RT : JsRuntime}.

Lemma includes_empty (s : string) : Str.includes "" s = true.
Proof. apply ShowFacts.includes_iff. now exists "", s. Qed.

Lemma markdownLine_holds_text (f : FileRec) (i : nat) (line : string) :
  nth_error (sourceLines f) i = Some line ->
  Str.includes line (markdownLine f i) = true.
Proof.
  intros H. unfold markdownLine. rewrite H.
  destruct (String.eqb_spec line "") as [->|_]; [apply includes_empty|].
  do 4 apply ShowFacts.includes_app_r. apply ShowFacts.includes_refl.
Qed.

Lemma markdownSection_holds_line (cap : nat) (f : FileRec) (i : nat) (line : string) :
  nth_error (sourceLines f) i = Some line -> i < cap ->
  Str.includes (markdownLine f i) (markdownSection cap f) = true.
Proof.
  intros H Hi. unfold markdownSection. apply ShowFacts.includes_concat.
  apply in_or_app. right. apply in_or_app. left.
  apply in_map, in_seq.
  assert (i < List.length (sourceLines f)) by (apply nth_error_Some; congruence).
  lia.
Qed.

Lemma markdownSection_holds_path (cap : nat) (f : FileRec) :
  Str.includes (relPath f) (markdownSection cap f) = true.
Proof.
  unfold markdownSection.
  eapply ShowFacts.includes_trans; [|apply ShowFacts.includes_concat; right; now left].
  apply ShowFacts.includes_app_r, ShowFacts.includes_app_l, ShowFacts.includes_refl.
Qed.

Lemma painting_holds_section (files : list FileRec) (maxFiles cap idx : nat)
    (f : FileRec) :
  nth_error files idx = Some f -> idx < maxFiles ->
  Str.includes (markdownSection cap f) (buildCodePaintingMarkdown files maxFiles cap) = true.
Proof.
  intros H Hi. unfold buildCodePaintingMarkdown. apply ShowFacts.includes_concat.
  assert (Hin : In (markdownSection cap f)
                  (map (markdownSection cap) (firstn maxFiles files))).
  { apply in_map. apply (nth_error_In _ idx). rewrite nth_error_firstn.
    destruct (Nat.ltb_spec idx maxFiles); [exact H | lia]. }
  destruct (Nat.ltb maxFiles (List.length files)); [|exact Hin].
  apply in_or_app. now left.
Qed.

(** X20: the Markdown summary, and with it the body of the pull-request
    comment, holds the path of each of the first five files and each of its
    first fifty source lines as they are: nothing is escaped on the way,
    while the body starts with the marker. *)
Theorem markdown_holds_raw_text (title : string) (metrics : Metrics)
    (thr : JsNumber) (files : list FileRec) (md marker : string)
    (idx : nat) (f : FileRec) (i : nat) (line : string) :
  buildSummaryMarkdown title metrics thr files true = Some md ->
  nth_error files idx = Some f -> idx < 5 ->
  nth_error (sourceLines f) i = Some line -> i < 50 ->
  Str.includes line md = true /\
  Str.includes (relPath f) md = true /\
  Str.includes line (commentBody marker md) = true /\
  Str.startsWith marker (commentBody marker md) = true.
Proof.
  intros Hmd Hf Hidx Hl Hi.
  assert (Hpaint : Str.includes (buildCodePaintingMarkdown files 5 50) md = true).
  { unfold buildSummaryMarkdown, obind in Hmd.
    destruct (gateOf metrics thr); [|discriminate].
    destruct (metricCells (lines metrics)); [|discriminate].
    destruct (metricCells (branches metrics)); [|discriminate].
    destruct (metricCells (functions metrics)); [|discriminate].
    destruct (metricCells (statements metrics)); [|discriminate].
    assert (Hne : Nat.ltb 0 (List.length files) = true).
    { destruct files; [destruct idx; discriminate | reflexivity]. }
    rewrite Hne in Hmd. change (true && true)%bool with true in Hmd.
    cbv iota in Hmd.
    match type of Hmd with
    | Some (String.concat ?s ?l) = _ =>
        assert (E : md = String.concat s l) by congruence
    end.
    rewrite E. apply ShowFacts.includes_concat. apply in_or_app. right.
    do 9 right. now left. }
  assert (Hsec : Str.includes (markdownSection 50 f) md = true).
  { eapply ShowFacts.includes_trans; [|exact Hpaint].
    now apply (painting_holds_section files 5 50 idx). }
  assert (Hline : Str.includes line md = true).
  { eapply ShowFacts.includes_trans; [|exact Hsec].
    eapply ShowFacts.includes_trans;
      [exact (markdownLine_holds_text f i line Hl)|].
    exact (markdownSection_holds_line 50 f i line Hl Hi). }
  repeat split.
  - exact Hline.
  - eapply ShowFacts.includes_trans; [apply markdownSection_holds_path | exact Hsec].
  - unfold commentBody.
    change (String Str.LF md) with (String Str.LF "" ++ md).
    now apply ShowFacts.includes_app_r, ShowFacts.includes_app_r.
  - unfold commentBody, Str.startsWith. apply StrFacts.prefix_append.
Qed.

End MarkdownShows.

Section Verdict.

Context {RT : JsRuntime}.

(** X21: the outputs of a run never disagree on the verdict: when
    [report.json] holds a quality gate, its status is [PASS] or [FAIL], the
    [quality-gate] output is that status, and a Markdown summary that is
    produced states it on its gate line, with the threshold. *)
Theorem verdict_consistent (title : string) (metrics : Metrics) (thr : JsNumber)
    (files : list FileRec) (includeCodePainting : bool) (g : QualityGate) :
  qualityGate metrics thr = Some g ->
  (status g = "PASS" \/ status g = "FAIL") /\
  gateOf metrics thr = Some (status g) /\
  (forall md,
     buildSummaryMarkdown title metrics thr files includeCodePainting = Some md ->
     Str.includes ("- **Quality Gate (lines ≥ " ++ NumberToString thr ++ "%):** "
                   ++ status g) md = true).
Proof.
  unfold qualityGate, buildSummaryMarkdown, gateOf, obind.
  destruct (linePct metrics) as [v|]; [|discriminate].
  intros [= <-]. cbn [status]. repeat split.
  - destruct (jsGe v thr); auto.
  - intros md Hmd.
    destruct (metricCells (lines metrics)); [|discriminate].
    destruct (metricCells (branches metrics)); [|discriminate].
    destruct (metricCells (functions metrics)); [|discriminate].
    destruct (metricCells (statements metrics)); [|discriminate].
    match type of Hmd with
    | Some (String.concat ?s ?l) = _ =>
        assert (E : md = String.concat s l) by congruence
    end.
    rewrite E. apply ShowFacts.includes_concat.
    destruct (includeCodePainting && _)%bool;
      apply in_or_app; left; do 2 right; now left.
Qed.

End Verdict.

(** * Instances on the reference runtime *)

Lemma parseLcov_ignores_other_lines_witness :
  parseLcov (RT := RefRuntime.runtime) LcovExamples.trace "/repo"
  = parseLcov (RT := RefRuntime.runtime) (LcovExamples.unlines
      ["SF:/repo/src/a.js"; "DA:1,1"; "DA:x,7"; "DA:2,0"; "DA:3,3";
       "end_of_record"; "SF:/repo/src/b.js"; "DA:1,4"; "end_of_record"]) "/repo".
Proof.
  apply (parseLcov_ignores_other_lines (RT := RefRuntime.runtime) "/repo" _ _
           []
           ["SF:/repo/src/a.js"; "DA:1,1"; "DA:x,7"; "DA:2,0"; "DA:3,3";
            "end_of_record"; "SF:/repo/src/b.js"; "DA:1,4"; "end_of_record"]
           "TN:"); reflexivity.
Defined.

Lemma parseLcovLines_keeps_entries_witness :
  exists m' h',
    JsMap.get fileKeyEq (Some "src/a.js")
      (parseLcovLines (RT := RefRuntime.runtime) "/repo"
         (["SF:/repo/src/a.js"; "DA:1,1"]
          ++ ["DA:1,5"; "end_of_record"; "SF:/repo/src/b.js"])) = Some m' /\
    JsMap.get numKeyEq 1%Q m' = Some h'.
Proof.
  apply (parseLcovLines_keeps_entries (RT := RefRuntime.runtime) "/repo"
           ["SF:/repo/src/a.js"; "DA:1,1"]
           ["DA:1,5"; "end_of_record"; "SF:/repo/src/b.js"]
           (Some "src/a.js") [(1, 1)]%Q 1%Q 1%Q); reflexivity.
Defined.

Lemma parseLcov_declares_files_witness :
  JsMap.has fileKeyEq (sfKey "/repo" "SF:/repo/src/b.js")
    (parseLcov (RT := RefRuntime.runtime) LcovExamples.trace "/repo") = true.
Proof.
  apply (parseLcov_declares_files (RT := RefRuntime.runtime)).
  - vm_compute. do 7 right. left. reflexivity.
  - reflexivity.
Defined.

Lemma parseLcov_keys_declared_witness :
  exists line,
    In line (splitLines LcovExamples.trace) /\
    Str.startsWith "SF:" line = true /\
    Some "src/b.js" = sfKey "/repo" line.
Proof.
  apply (parseLcov_keys_declared (RT := RefRuntime.runtime)).
  vm_compute. right. left. reflexivity.
Defined.

Lemma parseLcov_last_record_wins_witness :
  exists m,
    JsMap.get fileKeyEq (sfKey "/repo" "SF:/repo/src/a.js")
      (parseLcov (RT := RefRuntime.runtime)
         (LcovExamples.unlines
            ["TN:"; "SF:/repo/src/a.js"; "DA:1,1"; "FN:1,f"; "DA:1,5"; "DA:2,0";
             "end_of_record"; "SF:/repo/src/b.js"; "DA:1,4"; "end_of_record"; ""])
         "/repo") = Some m /\
    JsMap.get numKeyEq 1%Q m = Some 5%Q.
Proof.
  apply (parseLcov_last_record_wins (RT := RefRuntime.runtime) "/repo" _
           "SF:/repo/src/a.js" "DA:1,5" ["TN:"] ["DA:1,1"; "FN:1,f"]
           ["DA:2,0"; "end_of_record"; "SF:/repo/src/b.js"; "DA:1,4";
            "end_of_record"; ""] 1%Q 5%Q);
    reflexivity.
Defined.

Lemma parseLcov_blank_section_drops_data_witness :
  parseLcov (RT := RefRuntime.runtime)
    (LcovExamples.unlines ["SF:/repo/"; "DA:1,1"; "DA:2,0"; "end_of_record"]) "/repo"
  = parseLcov (RT := RefRuntime.runtime)
      (LcovExamples.unlines ["SF:/repo/"; "end_of_record"]) "/repo".
Proof.
  apply (parseLcov_blank_section_drops_data (RT := RefRuntime.runtime) "/repo" _ _
           "SF:/repo/" [] ["DA:1,1"; "DA:2,0"] ["end_of_record"]); reflexivity.
Defined.

Lemma parseLcov_line_endings_witness :
  splitLines (String.concat CRLF ["SF:a.js"; "DA:1,1"; "end_of_record"])
  = ["SF:a.js"; "DA:1,1"; "end_of_record"] /\
  parseLcov (RT := RefRuntime.runtime)
    (String.concat CRLF ["SF:a.js"; "DA:1,1"; "end_of_record"]) "/repo"
  = parseLcovLines (RT := RefRuntime.runtime) "/repo"
      ["SF:a.js"; "DA:1,1"; "end_of_record"] /\
  splitLines (String.concat (String Str.LF "") ["SF:a.js"; "DA:1,1"; "end_of_record"])
  = dropCRs ["SF:a.js"; "DA:1,1"; "end_of_record"].
Proof.
  apply (parseLcov_line_endings (RT := RefRuntime.runtime)).
  - discriminate.
  - repeat constructor.
Defined.

Lemma qualityGate_without_percentage_witness :
  qualityGate (RT := RefRuntime.runtime)
    (mkMetrics emptyObject emptyObject emptyObject emptyObject) (Finite 80)
  = Some (mkQualityGate "lines" (Finite 80) (Finite 0) "FAIL").
Proof.
  exact (qualityGate_without_percentage (RT := RefRuntime.runtime)
           (mkMetrics emptyObject emptyObject emptyObject emptyObject) 80
           VUndefined NaN eq_refl eq_refl eq_refl).
Defined.

Lemma gate_monotone_witness :
  gateOf (RT := RefRuntime.runtime) (GateExamples.withLinePct 80) (Finite 50)
  = Some "PASS" /\
  gateOf (RT := RefRuntime.runtime) (GateExamples.withLinePct 80) (Finite 90)
  = Some "FAIL".
Proof.
  split.
  - apply (proj1 (gate_monotone (RT := RefRuntime.runtime)
                    (GateExamples.withLinePct 80) 50 80 ltac:(discriminate)));
      reflexivity.
  - apply (proj2 (gate_monotone (RT := RefRuntime.runtime)
                    (GateExamples.withLinePct 80) 85 90 ltac:(discriminate)));
      reflexivity.
Defined.

Lemma report_counts_bound_rows_witness :
  List.length (paintedRows ClassExamples.scenario) <= 2 /\ 2 <= 3.
Proof.
  exact (report_counts_bound_rows ClassExamples.scenario
           (mkReportFileEntry "src/a.js" None 1 2 3) eq_refl).
Defined.

Lemma upsert_spares_other_comments_witness :
  exists r',
    PrComment.upsertPrComment "REMOVE" PrCommentExamples.marker
      (PrCommentExamples.bodyOf "run 2") PrCommentExamples.oneMarked = Some r' /\
    (forall c, In c (PrComment.comments PrCommentExamples.oneMarked) ->
               PrComment.isMarked PrCommentExamples.marker c = false ->
               In c (PrComment.comments r')) /\
    List.length (PrComment.comments PrCommentExamples.oneMarked)
      <= List.length (PrComment.comments r') /\
    List.length (PrComment.comments r')
      <= S (List.length (PrComment.comments PrCommentExamples.oneMarked)) /\
    PrComment.wellFormed r'.
Proof.
  apply upsert_spares_other_comments.
  split.
  - repeat constructor; simpl; intuition discriminate.
  - repeat constructor; simpl; reflexivity.
Defined.

Lemma update_keeps_identity_witness :
  exists r',
    PrComment.upsertPrComment "UPDATE" PrCommentExamples.marker
      (PrCommentExamples.bodyOf "run 2") PrCommentExamples.oneMarked = Some r' /\
    map PrComment.id (PrComment.comments r') = [7%Z; 8%Z] /\
    PrComment.nextId r' = 9%Z /\
    In (PrComment.mkComment 8 (VStr (PrCommentExamples.bodyOf "run 2")))
       (PrComment.comments r') /\
    (forall c, In c (PrComment.comments PrCommentExamples.oneMarked) ->
               PrComment.id c <> 8%Z -> In c (PrComment.comments r')).
Proof.
  apply (update_keeps_identity "UPDATE" PrCommentExamples.marker
           (PrCommentExamples.bodyOf "run 2") PrCommentExamples.oneMarked
           (PrComment.mkComment 8 (VStr (PrCommentExamples.bodyOf "run 1"))));
    [reflexivity | discriminate | discriminate].
Defined.

Lemma report_shows_every_line_witness :
  Str.includes (reportRow (RT := RefRuntime.runtime) ClassExamples.scenario 1 "if (a) {")
    (buildHtmlReport (RT := RefRuntime.runtime) "Code Painting" [ClassExamples.scenario])
  = true /\
  Str.includes (escapeHtml "if (a) {") (reportRow (RT := RefRuntime.runtime) ClassExamples.scenario 1 "if (a) {")
  = true /\
  Str.includes (lineClass ClassExamples.scenario (lineNoOf 1))
    (reportRow (RT := RefRuntime.runtime) ClassExamples.scenario 1 "if (a) {") = true.
Proof.
  apply (report_shows_every_line (RT := RefRuntime.runtime) "Code Painting"
           [ClassExamples.scenario] 0); reflexivity.
Defined.

Lemma capped_views_hide_the_rest_witness :
  buildHtmlCodePaintingSummary (RT := RefRuntime.runtime) "Code Painting"
    (GateExamples.withLinePct 80) (Finite 80) [MoreExamples.threeLines "}"] 5 2
  = buildHtmlCodePaintingSummary (RT := RefRuntime.runtime) "Code Painting"
      (GateExamples.withLinePct 80) (Finite 80) [MoreExamples.threeLines "} // end"] 5 2 /\
  buildCodePaintingMarkdown (RT := RefRuntime.runtime) [MoreExamples.threeLines "}"] 5 2
  = buildCodePaintingMarkdown (RT := RefRuntime.runtime)
      [MoreExamples.threeLines "} // end"] 5 2.
Proof.
  apply (capped_views_hide_the_rest (RT := RefRuntime.runtime)).
  - repeat constructor.
  - reflexivity.
Defined.

Lemma markdown_holds_raw_text_witness :
  Str.includes "if (a) {" MoreExamples.scenarioSummary = true /\
  Str.includes "src/a.js" MoreExamples.scenarioSummary = true /\
  Str.includes "if (a) {"
    (commentBody PrCommentExamples.marker MoreExamples.scenarioSummary) = true /\
  Str.startsWith PrCommentExamples.marker
    (commentBody PrCommentExamples.marker MoreExamples.scenarioSummary) = true.
Proof.
  apply (markdown_holds_raw_text (RT := RefRuntime.runtime) "Code Painting"
           (GateExamples.withLinePct 80) (Finite 80) [ClassExamples.scenario]
           MoreExamples.scenarioSummary PrCommentExamples.marker
           0 ClassExamples.scenario 1 "if (a) {");
    [reflexivity | reflexivity | lia | reflexivity | lia].
Defined.

Lemma verdict_consistent_witness :
  ("PASS" = "PASS" \/ "PASS" = "FAIL") /\
  gateOf (RT := RefRuntime.runtime) (GateExamples.withLinePct 80) (Finite 80)
  = Some "PASS" /\
  (forall md,
     buildSummaryMarkdown (RT := RefRuntime.runtime) "Code Painting"
       (GateExamples.withLinePct 80) (Finite 80) [ClassExamples.scenario] true
     = Some md ->
     Str.includes ("- **Quality Gate (lines ≥ " ++ "80" ++ "%):** " ++ "PASS") md
     = true).
Proof.
  exact (verdict_consistent (RT := RefRuntime.runtime) "Code Painting"
           (GateExamples.withLinePct 80) (Finite 80) [ClassExamples.scenario] true
           (mkQualityGate "lines" (Finite 80) (Finite 80) "PASS") eq_refl).
Defined.
